(** * Agent process orchestration and tool-approval gateway

    A shallow embedding of the permission rule engine
    ([services/permission_rules_service.py]), the agent-side approval
    client ([mcp/approval_gate.py]), the approval broker
    ([controllers/approval_controller.py]) and the stream-merging run loop
    of the process supervisor ([agents/claude_code_provider.py]).

    Python dictionaries keyed by strings are finite maps [gmap string _];
    Python sets are [gset]; generators are modelled by the chronological
    list of what they yield and of the side effects in between. *)

From Stdlib Require Import ZArith Ascii String List Bool Permutation Lia.
From Stdlib Require DecimalString.
From stdpp Require Import base option list strings gmap.

Local Open Scope string_scope.
Local Open Scope list_scope.

(** ** Python string primitives used by the source *)

Module Py.

(** Truthiness of a [str]: only the empty string is falsy. *)
Definition truthy (s : string) : bool :=
  match s with
  | EmptyString => false
  | String _ _ => true
  end.

(** [a or b] on strings. *)
Definition or_else (a b : string) : string := if truthy a then a else b.

(** [d.get(k, "")] *)
Definition get (d : gmap string string) (k : string) : string :=
  default "" (d !! k).

(** The characters removed by [str.strip()] (ASCII range). *)
Definition is_strip_space (c : ascii) : bool :=
  let n := nat_of_ascii c in
  (((9 <=? n) && (n <=? 13)) || ((28 <=? n) && (n <=? 32)))%nat.

Fixpoint lstrip (s : string) : string :=
  match s with
  | EmptyString => EmptyString
  | String c r => if is_strip_space c then lstrip r else s
  end.

Definition rstrip (s : string) : string := String.rev (lstrip (String.rev s)).

Definition strip (s : string) : string := rstrip (lstrip s).

(** [os.path.basename] on POSIX: everything after the last slash. *)
Fixpoint basename_from (cur p : string) : string :=
  match p with
  | EmptyString => cur
  | String c r =>
      if Ascii.eqb c "/" then basename_from r r else basename_from cur r
  end.

Definition basename (p : string) : string := basename_from p p.

(** [s.startswith(p)] *)
Definition startswith (s p : string) : bool := String.prefix p s.

(** [s.endswith(p)] *)
Definition endswith (s p : string) : bool :=
  String.prefix (String.rev p) (String.rev s).

(** [p in s] for strings: [p] occurs as a contiguous slice of [s]. *)
Fixpoint contains (s p : string) : bool :=
  String.prefix p s ||
  match s with
  | EmptyString => false
  | String _ r => contains r p
  end.

(** [str.lower()] on the ASCII letters. *)
Definition lower_char (c : ascii) : ascii :=
  let n := nat_of_ascii c in
  if ((65 <=? n) && (n <=? 90))%nat then ascii_of_nat (n + 32) else c.

Fixpoint lower (s : string) : string :=
  match s with
  | EmptyString => EmptyString
  | String c r => String (lower_char c) (lower r)
  end.

Definition newline_char : ascii := ascii_of_nat 10.

Definition newline : string := String newline_char EmptyString.

(** [c in s] for a character. *)
Fixpoint has_char (c : ascii) (s : string) : bool :=
  match s with
  | EmptyString => false
  | String d r => Ascii.eqb c d || has_char c r
  end.

(** [sep.join(parts)] *)
Fixpoint join (sep : string) (parts : list string) : string :=
  match parts with
  | [] => ""
  | [p] => p
  | p :: rest => p +:+ sep +:+ join sep rest
  end.

End Py.

(** ** Reference models of [shlex.split] and [fnmatch.fnmatch]

    The rule engine below is parametric in these two library calls; the
    models here give them a computable reading for the scenarios. *)

Module PyLib.

(** The lexer states of [shlex] in POSIX mode with [whitespace_split]:
    between tokens, inside a word, inside a quotation, after a backslash
    (remembering the state to return to: a word, or the double quote). *)
Inductive lex_state :=
| LSpace
| LWord
| LQuote (q : ascii)
| LEscape (back : option ascii).

Definition is_shlex_space (c : ascii) : bool :=
  let n := nat_of_ascii c in
  ((n =? 32) || (n =? 9) || (n =? 13) || (n =? 10))%nat.

Definition is_quote (c : ascii) : bool :=
  ((nat_of_ascii c =? 39) || (nat_of_ascii c =? 34))%nat.

Definition is_dquote (c : ascii) : bool := (nat_of_ascii c =? 34)%nat.

Definition is_escape (c : ascii) : bool := (nat_of_ascii c =? 92)%nat.

Definition backslash : ascii := ascii_of_nat 92.

Definition snoc (tok : string) (c : ascii) : string :=
  tok +:+ String c EmptyString.

(** One pass of [read_token] per emitted token, unrolled over the input:
    [tok] is the token under construction, [quoted] whether a quotation
    was seen in it, [acc] the tokens emitted so far. [None] is the
    [ValueError] of an unclosed quotation or a trailing backslash. *)
Fixpoint lex (st : lex_state) (tok : string) (quoted : bool)
    (acc : list string) (s : string) : option (list string) :=
  match s with
  | EmptyString =>
      match st with
      | LSpace => Some acc
      | LWord =>
          if Py.truthy tok || quoted then Some (acc ++ [tok]) else Some acc
      | LQuote _ => None
      | LEscape _ => None
      end
  | String c r =>
      match st with
      | LSpace =>
          if is_shlex_space c then lex LSpace "" false acc r
          else if is_escape c then lex (LEscape None) "" false acc r
          else if is_quote c then lex (LQuote c) "" false acc r
          else lex LWord (String c EmptyString) false acc r
      | LWord =>
          if is_shlex_space c then
            if Py.truthy tok || quoted then lex LSpace "" false (acc ++ [tok]) r
            else lex LSpace tok quoted acc r
          else if is_quote c then lex (LQuote c) tok quoted acc r
          else if is_escape c then lex (LEscape None) tok quoted acc r
          else lex LWord (snoc tok c) quoted acc r
      | LQuote q =>
          if Ascii.eqb c q then lex LWord tok true acc r
          else if is_escape c && is_dquote q then lex (LEscape (Some q)) tok true acc r
          else lex (LQuote q) (snoc tok c) true acc r
      | LEscape None => lex LWord (snoc tok c) quoted acc r
      | LEscape (Some q) =>
          if negb (is_escape c) && negb (Ascii.eqb c q)
          then lex (LQuote q) (snoc (snoc tok backslash) c) quoted acc r
          else lex (LQuote q) (snoc tok c) quoted acc r
      end
  end.

Definition shlex_split (s : string) : option (list string) :=
  lex LSpace "" false [] s.

(** A shell-glob pattern after translation: [*], [?], a bracket class
    (negated or not, made of single characters and ranges), or a
    literal character. *)
Inductive class_item :=
| COne (c : ascii)
| CRange (lo hi : ascii).

Inductive glob_tok :=
| GStar
| GAny
| GClass (negated : bool) (items : list class_item)
| GLit (c : ascii).

Definition in_item (c : ascii) (it : class_item) : bool :=
  match it with
  | COne d => Ascii.eqb c d
  | CRange lo hi =>
      ((nat_of_ascii lo <=? nat_of_ascii c) && (nat_of_ascii c <=? nat_of_ascii hi))%nat
  end.

(** The body of a bracket class, up to the closing bracket: the items
    and the rest of the pattern, or [None] when the bracket is never
    closed (it is then a literal). [first] lets a leading closing bracket
    stand for itself. *)
Fixpoint class_body (first : bool) (p : string)
    : option (list class_item * string) :=
  match p with
  | EmptyString => None
  | String c r =>
      if (nat_of_ascii c =? 93)%nat && negb first then Some ([], r)
      else
        match r with
        | String d (String e r') =>
            if (nat_of_ascii d =? 45)%nat && negb (nat_of_ascii e =? 93)%nat
            then
              match class_body false r' with
              | Some (items, rest) => Some (CRange c e :: items, rest)
              | None => None
              end
            else
              match class_body false r with
              | Some (items, rest) => Some (COne c :: items, rest)
              | None => None
              end
        | _ =>
            match class_body false r with
            | Some (items, rest) => Some (COne c :: items, rest)
            | None => None
            end
        end
  end.

Fixpoint translate_fuel (n : nat) (p : string) : list glob_tok :=
  match n with
  | O => []
  | S n' =>
      match p with
      | EmptyString => []
      | String c r =>
          if (nat_of_ascii c =? 42)%nat then GStar :: translate_fuel n' r
          else if (nat_of_ascii c =? 63)%nat then GAny :: translate_fuel n' r
          else if (nat_of_ascii c =? 91)%nat then
            let (negated, body) :=
              match r with
              | String b r' =>
                  if (nat_of_ascii b =? 33)%nat then (true, r') else (false, r)
              | EmptyString => (false, r)
              end in
            match class_body true body with
            | Some (items, rest) => GClass negated items :: translate_fuel n' rest
            | None => GLit c :: translate_fuel n' r
            end
          else GLit c :: translate_fuel n' r
      end
  end.

Definition translate (p : string) : list glob_tok :=
  translate_fuel (S (String.length p)) p.

(** Whole-string match of a translated pattern; [*] spans any run of
    characters, path separators included. *)
Fixpoint glob_match (p : list glob_tok) (s : string) : bool :=
  match p with
  | [] => negb (Py.truthy s)
  | GStar :: p' =>
      (fix star (t : string) : bool :=
         glob_match p' t ||
         match t with
         | EmptyString => false
         | String _ t' => star t'
         end) s
  | GAny :: p' =>
      match s with
      | EmptyString => false
      | String _ s' => glob_match p' s'
      end
  | GClass negated items :: p' =>
      match s with
      | EmptyString => false
      | String c s' =>
          if xorb negated (existsb (in_item c) items) then glob_match p' s'
          else false
      end
  | GLit c :: p' =>
      match s with
      | EmptyString => false
      | String d s' => if Ascii.eqb c d then glob_match p' s' else false
      end
  end.

Definition fnmatch (name pattern : string) : bool :=
  glob_match (translate pattern) name.

End PyLib.


(** ** Permission rule engine *)

Module PermissionRules.

(** A rule and a tool input are JSON objects, read with [dict.get]. *)
Abbreviation rule := (gmap string string).
Abbreviation tool_input := (gmap string string).

(** Commands that never get an always-allow suggestion. *)
Definition DANGEROUS : gset string :=
  {[ "rm"; "rmdir"; "sudo"; "su"; "curl"; "wget"; "pip"; "npm"; "brew";
     "kill"; "killall"; "pkill"; "dd"; "mkfs"; "chmod"; "chown"; "shutdown" ]}.

Definition mk_rule (tool match_type pattern action : string) : rule :=
  {[ "tool" := tool; "match_type" := match_type;
     "pattern" := pattern; "action" := action ]}.

(** The seed rules; [_load] adds a fresh [id] to each, a key that
    [check] never reads. *)
Definition _DEFAULT_RULES : list rule :=
  [ mk_rule "Write" "glob" "**/*.md" "allow";
    mk_rule "Edit" "glob" "**/*.md" "allow";
    mk_rule "MultiEdit" "glob" "**/*.md" "allow";
    mk_rule "Bash" "prefix" "grep" "allow";
    mk_rule "Bash" "prefix" "git" "allow";
    mk_rule "Bash" "prefix" "ls" "allow";
    mk_rule "Bash" "prefix" "find" "allow";
    mk_rule "Bash" "prefix" "cat" "allow";
    mk_rule "Bash" "prefix" "wc" "allow";
    mk_rule "Bash" "prefix" "head" "allow";
    mk_rule "Bash" "prefix" "tail" "allow";
    mk_rule "Bash" "prefix" "echo" "allow";
    mk_rule "Bash" "prefix" "pwd" "allow";
    mk_rule "Bash" "prefix" "python" "allow";
    mk_rule "Bash" "prefix" "sort" "allow";
    mk_rule "Bash" "prefix" "uniq" "allow";
    mk_rule "Bash" "prefix" "diff" "allow";
    mk_rule "Bash" "prefix" "rm" "deny";
    mk_rule "Bash" "prefix" "rmdir" "deny";
    mk_rule "Bash" "prefix" "sudo" "deny";
    mk_rule "Bash" "prefix" "su" "deny";
    mk_rule "Bash" "prefix" "curl" "deny";
    mk_rule "Bash" "prefix" "wget" "deny";
    mk_rule "Bash" "prefix" "pip" "deny";
    mk_rule "Bash" "prefix" "npm" "deny";
    mk_rule "Bash" "prefix" "brew" "deny";
    mk_rule "Bash" "prefix" "kill" "deny";
    mk_rule "Bash" "prefix" "killall" "deny";
    mk_rule "Bash" "prefix" "dd" "deny";
    mk_rule "Bash" "prefix" "chmod" "deny";
    mk_rule "Bash" "prefix" "chown" "deny" ].

Section Engine.

(** The two standard-library calls the engine delegates to:
    [shlex.split], with [None] for a [ValueError], and
    [fnmatch.fnmatch path pattern]. *)
Variable shlex_split : string -> option (list string).
Variable fnmatch : string -> string -> bool.

Definition suggest_bash_pattern (command : string) : option string :=
  let command := Py.strip command in
  if negb (Py.truthy command) then None
  else
    match shlex_split command with
    | None => None
    | Some [] => None
    | Some (p :: _) =>
        let base := Py.basename p in
        if bool_decide (base ∈ DANGEROUS) then None else Some base
    end.

Definition _matches (r : rule) (tool : string) (inp : tool_input) : bool :=
  if negb (bool_decide (r !! "tool" = Some tool)) then false
  else
    let match_type := r !! "match_type" in
    let pattern := Py.get r "pattern" in
    if bool_decide (match_type = Some "glob") then
      let file_path :=
        Py.or_else (Py.get inp "file_path") (Py.get inp "path") in
      if negb (Py.truthy file_path) then false
      else if fnmatch file_path pattern then true
      else if negb (Py.startswith file_path "/")
           then fnmatch ("/" +:+ file_path) pattern
      else false
    else if bool_decide (match_type = Some "prefix") then
      let command := Py.get inp "command" in
      let base :=
        match suggest_bash_pattern command with
        | Some b => b
        | None =>
            match shlex_split (Py.strip command) with
            | Some (p :: _) => Py.basename p
            | Some [] => ""
            | None => ""
            end
        end in
      String.eqb base pattern
    else false.

(** The inner loop of [check] for one action: skip rules of another
    action, stop at the first match. *)
Fixpoint check_action (action : string) (rules : list rule)
    (tool : string) (inp : tool_input) : bool :=
  match rules with
  | [] => false
  | r :: rest =>
      if negb (bool_decide (r !! "action" = Some action))
      then check_action action rest tool inp
      else if _matches r tool inp then true
      else check_action action rest tool inp
  end.

(** The outer loop, over the actions in the order given. *)
Fixpoint check_actions (actions : list string) (rules : list rule)
    (tool : string) (inp : tool_input) : string :=
  match actions with
  | [] => "ask"
  | action :: more =>
      if check_action action rules tool inp then action
      else check_actions more rules tool inp
  end.

Definition check (rules : list rule) (tool : string) (inp : tool_input)
    : string :=
  check_actions ["deny"; "allow"] rules tool inp.

End Engine.

End PermissionRules.

(** ** Agent-side approval client ([mcp/approval_gate.py]) *)

Module ApprovalGate.

Abbreviation tool_input := (gmap string string).

(** What the broker connection does during one tool call.  The POST to
    [/api/approval/request] returns or raises; the long-poll GET raises
    (in [urlopen], [read] or [json.loads]), or yields a decoded body that
    is a JSON object or some other JSON value (on which [.get] raises
    inside the same [try]). *)
Inductive post_outcome :=
| PostOk
| PostRaises (exc : string).

Inductive poll_outcome :=
| PollRaises (exc : string)
| PollNotObject
| PollObject (data : gmap string string).

Record network := {
  net_post : post_outcome;
  net_poll : poll_outcome
}.

(** What an executor does, on the file system or in a shell. *)
Inductive exec_outcome :=
| ExecReturns (text : string)
| ExecRaises (exc : string).

Inductive content_text :=
| TextDenied
| TextResult (text : string)
| TextExecError (exc : string)
| TextAnswer (answer : string)
| TextAnswerError (exc : string).

Inductive reply_body :=
| BodyInitialize
| BodyTools
| BodyContent (text : content_text) (isError : bool).

(** The observable effects of the JSON-RPC loop, in order. *)
Inductive effect :=
| HttpPost (endpoint request_id tool : string) (inp : tool_input)
| HttpPoll (request_id : string)
| RunExecutor (tool : string) (inp : tool_input)
| ReplyOk (id : option string) (body : reply_body)
| ReplyErr (id : option string) (code : Z) (about : string).

(** One decoded line of stdin. *)
Record message := {
  method : string;
  msg_id : option string;
  params_name : string;
  params_arguments : tool_input
}.

Definition _EXECUTORS : list string := ["Write"; "Edit"; "MultiEdit"; "Bash"].

Definition ran_executor (e : effect) : bool :=
  match e with
  | RunExecutor _ _ => true
  | _ => false
  end.

Definition _request_approval (net : network) (request_id tool_name : string)
    (tool_input : tool_input) : string * list effect :=
  let post := HttpPost "/api/approval/request" request_id tool_name tool_input in
  match net_post net with
  | PostRaises _ => ("deny", [post])
  | PostOk =>
      match net_poll net with
      | PollRaises _ => ("deny", [post; HttpPoll request_id])
      | PollNotObject => ("deny", [post; HttpPoll request_id])
      | PollObject data =>
          (default "deny" (data !! "decision"), [post; HttpPoll request_id])
      end
  end.

Definition _request_user_answer (net : network) (request_id : string)
    (tool_input : tool_input) : content_text * list effect :=
  let post := HttpPost "/api/approval/question" request_id "" tool_input in
  match net_post net with
  | PostRaises exc => (TextAnswerError exc, [post])
  | PostOk =>
      match net_poll net with
      | PollRaises exc => (TextAnswerError exc, [post; HttpPoll request_id])
      | PollNotObject =>
          (TextAnswerError "AttributeError", [post; HttpPoll request_id])
      | PollObject data =>
          (TextAnswer (default "{}" (data !! "decision")),
           [post; HttpPoll request_id])
      end
  end.

(** The registration request or the long-poll request raises. *)
Definition transport_fails (net : network) : Prop :=
  (exists exc, net_post net = PostRaises exc)
  \/ (exists exc, net_poll net = PollRaises exc).

Section Loop.

(** The tool executors, which act on the machine the agent runs on. *)
Variable executor : string -> tool_input -> exec_outcome.

(** The [tools/call] branch of [main] for one message; [request_id] is
    the fresh uuid drawn for it. *)
Definition tools_call (net : network) (request_id : string) (msg : message)
    : list effect :=
  let tool_name := params_name msg in
  let tool_input := params_arguments msg in
  if String.eqb tool_name "AskUserQuestion" then
    let '(answer, eff) := _request_user_answer net request_id tool_input in
    eff ++ [ReplyOk (msg_id msg) (BodyContent answer false)]
  else if negb (bool_decide (tool_name ∈ _EXECUTORS)) then
    [ReplyErr (msg_id msg) (-32601) tool_name]
  else
    let '(decision, eff) := _request_approval net request_id tool_name tool_input in
    if negb (String.eqb decision "allow") then
      eff ++ [ReplyOk (msg_id msg) (BodyContent TextDenied true)]
    else
      match executor tool_name tool_input with
      | ExecReturns result_text =>
          eff ++ [RunExecutor tool_name tool_input;
                  ReplyOk (msg_id msg) (BodyContent (TextResult result_text) false)]
      | ExecRaises exc =>
          eff ++ [RunExecutor tool_name tool_input;
                  ReplyOk (msg_id msg) (BodyContent (TextExecError exc) true)]
      end.

Definition handle (net : network) (request_id : string) (msg : message)
    : list effect :=
  if String.eqb (method msg) "initialize" then
    [ReplyOk (msg_id msg) BodyInitialize]
  else if String.eqb (method msg) "notifications/initialized" then []
  else if String.eqb (method msg) "tools/list" then
    [ReplyOk (msg_id msg) BodyTools]
  else if String.eqb (method msg) "tools/call" then
    tools_call net request_id msg
  else
    match msg_id msg with
    | Some _ => [ReplyErr (msg_id msg) (-32601) (method msg)]
    | None => []
    end.

(** [main]: one entry per line read from stdin until it closes, each with
    the uuid and the network behaviour met while it is handled. *)
Fixpoint main (stdin : list (message * string * network)) : list effect :=
  match stdin with
  | [] => []
  | (msg, request_id, net) :: rest =>
      handle net request_id msg ++ main rest
  end.

End Loop.

End ApprovalGate.

(** ** Process supervisor and stream merger ([agents/claude_code_provider.py]) *)

Module Provider.

Abbreviation tool_input := (gmap string string).

(** The events the broker pushes through [inject_event]. *)
Inductive injected :=
| PermissionRequest (request_id tool path description : string)
    (inp : tool_input) (always_allow_pattern : option string)
| PermissionDecision (request_id : string) (approved : bool)
| UserQuestion (request_id : string) (questions : list string).

(** An item of the merge queue, by producer: the stdout reader
    ([out], [out_eof]), the stderr reader ([err], [err_eof]),
    [inject_event] and [cancel].  Lines arrive with the newline stripped;
    an injected item carries the serialised event, never an empty text. *)
Inductive qitem :=
| QOut (line : string)
| QErr (line : string)
| QOutEof
| QErrEof
| QInject (ev : injected)
| QCancel.

Record provider := {
  claude_cli : string;
  _session_map : gmap string string;
  _code_folders : gmap string string;
  _inject_queues : gmap string (list qitem);
  _stdin_map : gset string;
  _process_map : gset string;
  _cancelled_prompts : gmap string string
}.

Definition with_session_map (p : provider) (m : gmap string string) : provider :=
  {| claude_cli := claude_cli p; _session_map := m;
     _code_folders := _code_folders p; _inject_queues := _inject_queues p;
     _stdin_map := _stdin_map p; _process_map := _process_map p;
     _cancelled_prompts := _cancelled_prompts p |}.

Definition with_code_folders (p : provider) (m : gmap string string) : provider :=
  {| claude_cli := claude_cli p; _session_map := _session_map p;
     _code_folders := m; _inject_queues := _inject_queues p;
     _stdin_map := _stdin_map p; _process_map := _process_map p;
     _cancelled_prompts := _cancelled_prompts p |}.

Definition with_inject_queues (p : provider) (m : gmap string (list qitem))
    : provider :=
  {| claude_cli := claude_cli p; _session_map := _session_map p;
     _code_folders := _code_folders p; _inject_queues := m;
     _stdin_map := _stdin_map p; _process_map := _process_map p;
     _cancelled_prompts := _cancelled_prompts p |}.

Definition with_cancelled_prompts (p : provider) (m : gmap string string)
    : provider :=
  {| claude_cli := claude_cli p; _session_map := _session_map p;
     _code_folders := _code_folders p; _inject_queues := _inject_queues p;
     _stdin_map := _stdin_map p; _process_map := _process_map p;
     _cancelled_prompts := m |}.

(** Registration of a run's queue, stdin and process under [chat_id]. *)
Definition register_run (p : provider) (chat_id : string) : provider :=
  {| claude_cli := claude_cli p; _session_map := _session_map p;
     _code_folders := _code_folders p;
     _inject_queues := <[chat_id := []]> (_inject_queues p);
     _stdin_map := {[chat_id]} ∪ _stdin_map p;
     _process_map := {[chat_id]} ∪ _process_map p;
     _cancelled_prompts := _cancelled_prompts p |}.

Definition deregister_run (p : provider) (chat_id : string) : provider :=
  {| claude_cli := claude_cli p; _session_map := _session_map p;
     _code_folders := _code_folders p;
     _inject_queues := delete chat_id (_inject_queues p);
     _stdin_map := _stdin_map p ∖ {[chat_id]};
     _process_map := _process_map p ∖ {[chat_id]};
     _cancelled_prompts := _cancelled_prompts p |}.

Definition set_code_folder (p : provider) (chat_id path : string) : provider :=
  if Py.truthy path
  then with_code_folders p (<[chat_id := path]> (_code_folders p))
  else with_code_folders p (delete chat_id (_code_folders p)).

Definition get_code_folder (p : provider) (chat_id : string) : string :=
  Py.get (_code_folders p) chat_id.

Definition inject_event (p : provider) (chat_id : string) (event : injected)
    : provider * bool :=
  match _inject_queues p !! chat_id with
  | None => (p, false)
  | Some q =>
      (with_inject_queues p (<[chat_id := q ++ [QInject event]]> (_inject_queues p)),
       true)
  end.

(** [cancel]; [alive] is the answer of [proc.poll()]. *)
Definition cancel (p : provider) (chat_id : string) (alive : bool)
    : provider * bool :=
  if negb (bool_decide (chat_id ∈ _process_map p)) || negb alive then (p, false)
  else
    match _inject_queues p !! chat_id with
    | None => (p, true)
    | Some q =>
        (with_inject_queues p (<[chat_id := q ++ [QCancel]]> (_inject_queues p)),
         true)
    end.

Definition _PROMPT_TOO_LONG_PATTERNS : list string :=
  ["prompt is too long"; "prompt_too_long"; "context window";
   "maximum context length"].

(** What the run yields to its caller. *)
Inductive error_message :=
| ErrStderr (line : string)
| ErrWorkdir (workspace : string)
| ErrCliNotFound (cli : string)
| ErrStdinWrite (exc : string)
| ErrNoStdout (returncode : Z) (stderr_text : string).

Inductive event :=
| Debug (cmd : list string)
| Error (msg : error_message)
| Cancelled
| SessionCompacting
| SessionCompacted
| SessionReset.

Inductive yielded :=
| YEvent (e : event)
| YLine (line : string)
| YInjected (ev : injected).

Inductive content_block :=
| ImageBlock (media_type data : string)
| TextBlock (text : string).

(** The run as a chronological list: what is yielded, and the side
    effects in between. *)
Inductive action :=
| Yield (y : yielded)
| Spawn (cmd : list string) (cwd : string)
| WriteStdin (content : list content_block)
| SaveSessions (sessions : gmap string string)
| CloseStdin
| ProcessWait
| ProcessKill
| Compact (session_id workspace model : string).

Inductive json_value :=
| JDecodeError
| JNotObject
| JObject (fields : gmap string string).

Inductive loop_exit :=
| BothEof
| CancelSeen
| AttributeError
| Starved.

Inductive run_exit :=
| Returned
| Raised
| Blocked
| Unscripted.

Record loop_state := {
  stdout_lines : list string;
  stderr_lines : list string;
  out_done : bool;
  err_done : bool;
  got_result : bool;
  was_cancelled : bool;
  stdin_closed : bool;
  sessions : gmap string string
}.

Definition loop_start (m : gmap string string) : loop_state :=
  {| stdout_lines := []; stderr_lines := []; out_done := false;
     err_done := false; got_result := false; was_cancelled := false;
     stdin_closed := false; sessions := m |}.

Definition set_out_done (ls : loop_state) : loop_state :=
  {| stdout_lines := stdout_lines ls; stderr_lines := stderr_lines ls;
     out_done := true; err_done := err_done ls; got_result := got_result ls;
     was_cancelled := was_cancelled ls; stdin_closed := stdin_closed ls;
     sessions := sessions ls |}.

Definition set_err_done (ls : loop_state) : loop_state :=
  {| stdout_lines := stdout_lines ls; stderr_lines := stderr_lines ls;
     out_done := out_done ls; err_done := true; got_result := got_result ls;
     was_cancelled := was_cancelled ls; stdin_closed := stdin_closed ls;
     sessions := sessions ls |}.

Definition set_cancelled (ls : loop_state) : loop_state :=
  {| stdout_lines := stdout_lines ls; stderr_lines := stderr_lines ls;
     out_done := out_done ls; err_done := err_done ls;
     got_result := got_result ls; was_cancelled := true;
     stdin_closed := stdin_closed ls; sessions := sessions ls |}.

Definition add_stdout (ls : loop_state) (line : string) : loop_state :=
  {| stdout_lines := stdout_lines ls ++ [line]; stderr_lines := stderr_lines ls;
     out_done := out_done ls; err_done := err_done ls;
     got_result := got_result ls; was_cancelled := was_cancelled ls;
     stdin_closed := stdin_closed ls; sessions := sessions ls |}.

Definition add_stderr (ls : loop_state) (line : string) : loop_state :=
  {| stdout_lines := stdout_lines ls; stderr_lines := stderr_lines ls ++ [line];
     out_done := out_done ls; err_done := err_done ls;
     got_result := got_result ls; was_cancelled := was_cancelled ls;
     stdin_closed := stdin_closed ls; sessions := sessions ls |}.

(** A [result] event was seen: the session map is as given and stdin has
    been closed. *)
Definition set_result (ls : loop_state) (m : gmap string string) : loop_state :=
  {| stdout_lines := stdout_lines ls; stderr_lines := stderr_lines ls;
     out_done := out_done ls; err_done := err_done ls; got_result := true;
     was_cancelled := was_cancelled ls; stdin_closed := true; sessions := m |}.

Definition close_stdin_if_open (closed : bool) : list action :=
  if closed then [] else [CloseStdin].

(** How one turn of the loop ends. *)
Inductive turn :=
| Continue (acts : list action) (ls : loop_state)
| Leave (acts : list action) (ls : loop_state) (ex : loop_exit).

(** Prefix the trace of what follows with the actions of one item. *)
Definition after (acts : list action) (r : list action * loop_state * loop_exit)
    : list action * loop_state * loop_exit :=
  let '(t, ls, ex) := r in (acts ++ t, ls, ex).

(** One attempt of the run as the outside world plays it: whether the
    CLI can be spawned, whether the first write to its stdin succeeds,
    the items that reach the merge queue in order of arrival, how the
    process ends and whether a compaction of its session succeeds. *)
Inductive spawn_outcome :=
| SpawnOk
| SpawnFileNotFound (workdir_is_dir : bool).

Record attempt := {
  a_spawn : spawn_outcome;
  a_stdin_write : option string;
  a_queue : list qitem;
  a_returncode : Z;
  a_exits_in_grace : bool;
  a_compact_ok : bool
}.

Definition after_first_comma (raw : string) : string :=
  match String.index 0 "," raw with
  | Some i => String.substring (S i) (String.length raw - S i) raw
  | None => raw
  end.

Definition image_block (img : gmap string string) : content_block :=
  ImageBlock (default "image/png" (img !! "type"))
             (after_first_comma (Py.get img "data")).

Definition content_blocks (images : list (gmap string string)) (prompt : string)
    : list content_block :=
  map image_block images ++ (if Py.truthy prompt then [TextBlock prompt] else []).

Definition is_recovery (a : action) : bool :=
  match a with
  | Yield (YEvent SessionCompacting) => true
  | Yield (YEvent SessionCompacted) => true
  | Yield (YEvent SessionReset) => true
  | Compact _ _ _ => true
  | _ => false
  end.

Definition is_cancelled (a : action) : bool :=
  match a with
  | Yield (YEvent Cancelled) => true
  | _ => false
  end.

Definition is_yield (a : action) : bool :=
  match a with
  | Yield _ => true
  | _ => false
  end.

Definition is_save (a : action) : bool :=
  match a with
  | SaveSessions _ => true
  | _ => false
  end.

Definition is_spawn (a : action) : bool :=
  match a with
  | Spawn _ _ => true
  | _ => false
  end.

Definition is_compact (a : action) : bool :=
  match a with
  | Compact _ _ _ => true
  | _ => false
  end.


(** An action that shows nothing to the caller and starts nothing:
    no yield, no compaction, no spawn. *)
Definition quiet (a : action) : bool :=
  negb (is_yield a) && negb (is_compact a) && negb (is_spawn a).

(** An action that is neither a recovery step nor a spawn. *)
Definition inert (a : action) : bool :=
  negb (is_recovery a) && negb (is_spawn a).

(** An inert action other than the cancelled event. *)
Definition plain (a : action) : bool := negb (is_cancelled a) && inert a.

Definition compactions (t : list action) : nat :=
  length (List.filter is_compact t).

Definition spawns (t : list action) : nat :=
  length (List.filter is_spawn t).

(** Every cancelled event of the trace is followed by quiet actions
    only. *)
Fixpoint cancel_terminal (t : list action) : bool :=
  match t with
  | [] => true
  | a :: rest =>
      if is_cancelled a then forallb quiet rest else cancel_terminal rest
  end.

Section RunStream.

(** [json.loads] on a stdout line, and the serialised MCP server
    configuration handed to the CLI. *)
Variable json_loads : string -> json_value.
Variable mcp_cfg : string.

Definition build_cmd (cli model claude_session : string) : list string :=
  [cli; "-p"; "--verbose"; "--include-partial-messages";
   "--output-format"; "stream-json"; "--input-format"; "stream-json";
   "--dangerously-skip-permissions"; "--allowedTools";
   "mcp__approval-gate__Write,mcp__approval-gate__Edit," +:+
   "mcp__approval-gate__MultiEdit,mcp__approval-gate__Bash," +:+
   "mcp__approval-gate__AskUserQuestion," +:+ "WebFetch,WebSearch";
   "--disallowedTools";
   "Bash,Write,Edit,MultiEdit,Task,TaskOutput,EnterPlanMode,ExitPlanMode,AskUserQuestion"]
  ++ (if Py.truthy model then ["--model"; model] else [])
  ++ (if Py.truthy claude_session then ["--resume"; claude_session] else [])
  ++ ["--mcp-config"; mcp_cfg].

(** The body of the consuming loop on one item of the queue: the
    actions of the turn and the state after it, and whether the loop goes
    on ([continue], or falling off the end of the body) or is left
    ([break], or the [AttributeError] of [event.get] on a decoded value
    that is not an object). *)
Definition loop_body (chat_id : string) (item : qitem) (ls : loop_state)
    : turn :=
  match item with
  | QOutEof => Continue [] (set_out_done ls)
  | QErrEof => Continue [] (set_err_done ls)
  | QCancel => Leave [Yield (YEvent Cancelled)] (set_cancelled ls) CancelSeen
  | QInject ev => Continue [Yield (YInjected ev)] ls
  | QOut line =>
      if negb (Py.truthy line) then Continue [] ls
      else
        let ls1 := add_stdout ls line in
        match json_loads line with
        | JDecodeError => Continue [Yield (YLine line)] ls1
        | JNotObject => Leave [] ls1 AttributeError
        | JObject ev =>
            if bool_decide (ev !! "type" = Some "result") then
              let sid := Py.get ev "session_id" in
              if Py.truthy sid && Py.truthy chat_id then
                let m := <[chat_id := sid]> (sessions ls1) in
                Continue ([SaveSessions m]
                            ++ close_stdin_if_open (stdin_closed ls1)
                            ++ [Yield (YLine line)])
                         (set_result ls1 m)
              else
                Continue (close_stdin_if_open (stdin_closed ls1)
                            ++ [Yield (YLine line)])
                         (set_result ls1 (sessions ls1))
            else Continue [Yield (YLine line)] ls1
        end
  | QErr line =>
      if negb (Py.truthy line) then Continue [] ls
      else Continue [Yield (YEvent (Error (ErrStderr line)))] (add_stderr ls line)
  end.

(** The consuming loop, [while not (out_done and err_done)], over the
    items in the order the queue hands them out.  When the items run out
    while the loop still waits, [merged_q.get] blocks: [Starved]. *)
Fixpoint consume (chat_id : string) (q : list qitem) (ls : loop_state)
    : list action * loop_state * loop_exit :=
  if out_done ls && err_done ls then ([], ls, BothEof)
  else
    match q with
    | [] => ([], ls, Starved)
    | item :: rest =>
        match loop_body chat_id item ls with
        | Continue acts ls1 => after acts (consume chat_id rest ls1)
        | Leave acts ls1 ex => (acts, ls1, ex)
        end
    end.

(** The [finally] block of the run. *)
Definition teardown (a : attempt) (p : provider) (chat_id : string)
    (ls : loop_state) : list action * provider :=
  let waits :=
    if was_cancelled ls then
      if a_exits_in_grace a then [ProcessWait]
      else [ProcessWait; ProcessKill; ProcessWait]
    else [ProcessWait] in
  let p1 := with_session_map p (sessions ls) in
  if Py.truthy chat_id
  then (waits ++ close_stdin_if_open (stdin_closed ls), deregister_run p1 chat_id)
  else (waits, p1).

Definition prompt_too_long (ls : loop_state) (_is_retry : bool)
    (chat_id claude_session : string) : bool :=
  let all_output := Py.join Py.newline (stdout_lines ls ++ stderr_lines ls) in
  let all_lower := Py.lower all_output in
  negb (got_result ls) && negb _is_retry && Py.truthy chat_id
  && Py.truthy claude_session
  && existsb (fun pat => Py.contains all_lower pat) _PROMPT_TOO_LONG_PATTERNS.

Definition no_stdout_error (a : attempt) (ls : loop_state) : list action :=
  match got_result ls, stdout_lines ls with
  | false, [] =>
      [Yield (YEvent (Error (ErrNoStdout (a_returncode a)
                               (Py.join Py.newline (stderr_lines ls)))))]
  | _, _ => []
  end.

(** [_run_stream_impl]; the list gives one [attempt] per (re)entry of
    the function, [Unscripted] marks an entry the list has no attempt
    for. *)
Fixpoint _run_stream_impl (script : list attempt) (p : provider)
    (prompt workspace model chat_id : string)
    (images : list (gmap string string)) (_is_retry : bool)
    (_original_prompt : string) {struct script}
    : list action * provider * run_exit :=
  match script with
  | [] => ([], p, Unscripted)
  | a :: later =>
      let claude_session := Py.get (_session_map p) chat_id in
      let cmd := build_cmd (claude_cli p) model claude_session in
      match a_spawn a with
      | SpawnFileNotFound workdir_is_dir =>
          let msg :=
            if Py.truthy workspace && negb workdir_is_dir
            then ErrWorkdir workspace else ErrCliNotFound (claude_cli p) in
          ([Yield (YEvent (Debug cmd)); Yield (YEvent (Error msg))], p, Returned)
      | SpawnOk =>
          match a_stdin_write a with
          | Some exc =>
              ([Yield (YEvent (Debug cmd)); Spawn cmd workspace;
                Yield (YEvent (Error (ErrStdinWrite exc))); ProcessKill],
               p, Returned)
          | None =>
              let head :=
                [Yield (YEvent (Debug cmd)); Spawn cmd workspace;
                 WriteStdin (content_blocks images prompt)] in
              let p0 := if Py.truthy chat_id then register_run p chat_id else p in
              let '(t, ls, ex) :=
                consume chat_id (a_queue a) (loop_start (_session_map p0)) in
              let '(fin, p1) := teardown a p0 chat_id ls in
              match ex with
              | Starved => (head ++ t, with_session_map p0 (sessions ls), Blocked)
              | AttributeError => (head ++ t ++ fin, p1, Raised)
              | _ =>
                  if was_cancelled ls then
                    let p2 :=
                      if Py.truthy chat_id
                      then with_cancelled_prompts p1
                             (<[chat_id := Py.or_else _original_prompt prompt]>
                                (_cancelled_prompts p1))
                      else p1 in
                    (head ++ t ++ fin, p2, Returned)
                  else if prompt_too_long ls _is_retry chat_id claude_session then
                    let compacting :=
                      [Yield (YEvent SessionCompacting);
                       Compact claude_session workspace model] in
                    if a_compact_ok a then
                      let '(t', p', ex') :=
                        _run_stream_impl later p1 prompt workspace model chat_id
                          images true "" in
                      (head ++ t ++ fin ++ compacting
                         ++ [Yield (YEvent SessionCompacted)] ++ t', p', ex')
                    else
                      let m := delete chat_id (_session_map p1) in
                      let p2 := with_session_map p1 m in
                      let '(t', p', ex') :=
                        _run_stream_impl later p2 prompt workspace model chat_id
                          images true "" in
                      (head ++ t ++ fin ++ compacting
                         ++ [SaveSessions m; Yield (YEvent SessionReset)] ++ t',
                       p', ex')
                  else (head ++ t ++ fin ++ no_stdout_error a ls, p1, Returned)
              end
          end
      end
  end.

Definition cancelled_context (prev_prompt prompt : string) : string :=
  "[Context: the user's previous request was cancelled before you could finish. "
  +:+ "Their original message was:" +:+ Py.newline +:+ Py.newline
  +:+ prev_prompt +:+ Py.newline +:+ Py.newline +:+ "---" +:+ Py.newline
  +:+ "Their new message is:]" +:+ Py.newline +:+ Py.newline +:+ prompt.

Definition run_stream (script : list attempt) (p : provider)
    (prompt workspace model chat_id : string)
    (images : list (gmap string string))
    : list action * provider * run_exit :=
  let original_prompt := prompt in
  let prev_prompt :=
    if Py.truthy chat_id then Py.get (_cancelled_prompts p) chat_id else "" in
  let p0 :=
    if Py.truthy chat_id
    then with_cancelled_prompts p (delete chat_id (_cancelled_prompts p))
    else p in
  let prompt :=
    if Py.truthy prev_prompt then cancelled_context prev_prompt prompt
    else prompt in
  _run_stream_impl script p0 prompt workspace model chat_id images false
    original_prompt.

End RunStream.

(** The reading of "persisted if and only if a non-empty session id was
    reported": the loop, taking a result line off the queue, saves the
    session map exactly when the reported id is non-empty. *)
Definition saved_iff_reported (json_loads : string -> json_value) : Prop :=
  forall (chat_id line : string) (ev : gmap string string) (ls : loop_state),
    out_done ls && err_done ls = false ->
    Py.truthy line = true ->
    json_loads line = JObject ev ->
    ev !! "type" = Some "result" ->
    (Py.truthy (Py.get ev "session_id") = true
     <-> existsb is_save (fst (fst (consume json_loads chat_id [QOut line] ls)))
         = true).

(** The reading of "every stderr line is re-emitted": the loop, taking
    a stderr line off the queue, yields the error event made from it. *)
Definition stderr_always_surfaced (json_loads : string -> json_value) : Prop :=
  forall (chat_id line : string) (rest : list qitem) (ls : loop_state),
    out_done ls && err_done ls = false ->
    In (Yield (YEvent (Error (ErrStderr line))))
       (fst (fst (consume json_loads chat_id (QErr line :: rest) ls))).

(** The lowered output of the attempt carries one of the signatures. *)
Definition too_large_signature (ls : loop_state) : bool :=
  existsb
    (fun pat =>
       Py.contains
         (Py.lower (Py.join Py.newline (stdout_lines ls ++ stderr_lines ls))) pat)
    _PROMPT_TOO_LONG_PATTERNS.


(** A stand-in decoder for the scenarios: a line [result:<sid>] decodes
    as a result event carrying that session id, a line [event:<type>]
    as an event of that type, a line of digits as a JSON number, and
    anything else does not decode. *)
Definition sample_json_loads (line : string) : json_value :=
  if String.prefix "result:" line
  then JObject {[ "type" := "result";
                  "session_id" := String.substring 7 (String.length line - 7) line ]}
  else if String.prefix "event:" line
  then JObject {[ "type" := String.substring 6 (String.length line - 6) line ]}
  else if String.eqb line "42" then JNotObject
  else JDecodeError.

Definition sample_provider : provider :=
  {| claude_cli := "claude"; _session_map := ∅; _code_folders := ∅;
     _inject_queues := ∅; _stdin_map := ∅; _process_map := ∅;
     _cancelled_prompts := ∅ |}.

Definition sample_attempt (q : list qitem) : attempt :=
  {| a_spawn := SpawnOk; a_stdin_write := None; a_queue := q;
     a_returncode := 0; a_exits_in_grace := true; a_compact_ok := true |}.

(** A provider that holds a session for [chat-1]; an attempt whose
    stderr carries a too-large signature; an attempt cancelled midway. *)
Definition sample_session_provider : provider :=
  with_session_map sample_provider {[ "chat-1" := "sess-0" ]}.

Definition too_long_attempt : attempt :=
  sample_attempt [QErr "Error: Prompt is too long"; QOutEof; QErrEof].


Definition cancelled_attempt : attempt :=
  sample_attempt [QOut "event:assistant"; QErr "warning"; QCancel;
                  QErr "late"; QOutEof; QErrEof].

Definition sample_run (script : list attempt) (p : provider) (chat_id : string)
    : list action * provider * run_exit :=
  run_stream sample_json_loads "{}" script p "hello" "/work/app" "" chat_id [].

End Provider.

(** ** Approval broker ([controllers/approval_controller.py]) *)

Module Broker.

Abbreviation tool_input := (gmap string string).

(** The injected rule service: [check] and [suggest_bash_pattern]. *)
Record rules_service := {
  svc_check : string -> tool_input -> string;
  svc_suggest_bash_pattern : string -> option string
}.

Definition PermissionRulesService
    (shlex_split : string -> option (list string))
    (fnmatch : string -> string -> bool)
    (rules : list (gmap string string)) : rules_service :=
  {| svc_check := PermissionRules.check shlex_split fnmatch rules;
     svc_suggest_bash_pattern := PermissionRules.suggest_bash_pattern shlex_split |}.

Inductive pending_entry :=
| PendingTool (chat_id tool : string) (inp : tool_input)
| PendingQuestion (chat_id : string) (questions : list string).

Definition pending_chat (e : pending_entry) : string :=
  match e with
  | PendingTool chat_id _ _ => chat_id
  | PendingQuestion chat_id _ => chat_id
  end.

(** The three module-level dictionaries and the provider the blueprint
    was created with.  A [threading.Event] is its flag. *)
Record state := {
  _pending : gmap string pending_entry;
  _decisions : gmap string string;
  _events : gmap string bool;
  provider : Provider.provider
}.

Inductive response :=
| Rejected (status : Z) (error : string)
| Registered (request_id : string) (auto : option string)
| Decision (decision : string)
| Decided (decision : string)
| Answered.

(** The long-poll bound, in seconds. *)
Definition WAIT_TIMEOUT : Z := 300.

(** [Event.wait(timeout)] when nothing else runs meanwhile: the flag and
    the time spent blocked. *)
Definition event_wait (flag : bool) (timeout : Z) : bool * Z :=
  if flag then (true, 0%Z) else (false, timeout).

Definition is_file_tool (tool : string) : bool :=
  bool_decide (tool ∈ ["Write"; "Edit"; "MultiEdit"]).

Definition slice_to (n : nat) (s : string) : string := String.substring 0 n s.

Definition injects_permission_request (q : Provider.qitem) : bool :=
  match q with
  | Provider.QInject (Provider.PermissionRequest _ _ _ _ _ _) => true
  | _ => false
  end.

Section Endpoints.

Variable permission_rules_service : option rules_service.

Definition rules_allow (tool : string) (inp : tool_input) : bool :=
  match permission_rules_service with
  | Some svc => String.eqb (svc_check svc tool inp) "allow"
  | None => false
  end.

Definition in_code_folder (st : state) (chat_id tool : string)
    (inp : tool_input) : bool :=
  if is_file_tool tool then
    let code_folder := Provider.get_code_folder (provider st) chat_id in
    let file_path := Py.get inp "file_path" in
    Py.truthy code_folder && Py.truthy file_path
    && Py.startswith file_path (code_folder +:+ "/")
  else false.

Definition always_allow_pattern (tool : string) (inp : tool_input)
    : option string :=
  match permission_rules_service with
  | None => None
  | Some svc =>
      if String.eqb tool "Bash"
      then svc_suggest_bash_pattern svc (Py.get inp "command")
      else if is_file_tool tool then
        let file_path := default (Py.get inp "path") (inp !! "file_path") in
        if Py.endswith file_path ".md" then Some "**/*.md" else None
      else None
  end.

Definition auto_allow (st : state) (request_id chat_id tool : string)
    (inp : tool_input) : state * response :=
  ({| _pending := <[request_id := PendingTool chat_id tool inp]> (_pending st);
      _decisions := <[request_id := "allow"]> (_decisions st);
      _events := <[request_id := true]> (_events st);
      provider := provider st |},
   Registered request_id (Some "allow")).

Definition api_approval_request (st : state)
    (request_id chat_id tool : string) (inp : tool_input) : state * response :=
  if negb (Py.truthy request_id) then (st, Rejected 400 "request_id required")
  else if rules_allow tool inp then auto_allow st request_id chat_id tool inp
  else if in_code_folder st chat_id tool inp
  then auto_allow st request_id chat_id tool inp
  else
    let description :=
      Py.or_else (Py.get inp "command")
        (Py.or_else (slice_to 120 (Py.get inp "content"))
           (Py.or_else (slice_to 80 (Py.get inp "old_string")) "")) in
    let path := default (Py.get inp "path") (inp !! "file_path") in
    let ev :=
      Provider.PermissionRequest request_id tool path description inp
        (always_allow_pattern tool inp) in
    ({| _pending := <[request_id := PendingTool chat_id tool inp]> (_pending st);
        _decisions := _decisions st;
        _events := <[request_id := false]> (_events st);
        provider := fst (Provider.inject_event (provider st) chat_id ev) |},
     Registered request_id None).

(** The long-poll; the third component is the time spent blocked. *)
Definition api_approval_wait (st : state) (request_id : string)
    : state * response * Z :=
  match _events st !! request_id with
  | None => (st, Rejected 404 "Unknown request_id", 0%Z)
  | Some ev =>
      let '(_, blocked) := event_wait ev WAIT_TIMEOUT in
      let decision := default "deny" (_decisions st !! request_id) in
      ({| _pending := delete request_id (_pending st);
          _decisions := delete request_id (_decisions st);
          _events := delete request_id (_events st);
          provider := provider st |},
       Decision decision, blocked)
  end.

Definition api_approval_decide (st : state) (request_id decision : string)
    : state * response :=
  if negb (Py.truthy request_id) then (st, Rejected 400 "request_id required")
  else if negb (bool_decide (decision ∈ ["allow"; "deny"]))
  then (st, Rejected 400 "decision must be 'allow' or 'deny'")
  else
    match _events st !! request_id with
    | None => (st, Rejected 404 "No pending request for this request_id")
    | Some _ =>
        let chat_id := default "" (pending_chat <$> _pending st !! request_id) in
        let prov :=
          if Py.truthy chat_id
          then fst (Provider.inject_event (provider st) chat_id
                      (Provider.PermissionDecision request_id
                         (String.eqb decision "allow")))
          else provider st in
        ({| _pending := _pending st;
            _decisions := <[request_id := decision]> (_decisions st);
            _events := <[request_id := true]> (_events st);
            provider := prov |},
         Decided decision)
    end.

Definition api_approval_question (st : state) (request_id chat_id : string)
    (questions : list string) : state * response :=
  if negb (Py.truthy request_id) then (st, Rejected 400 "request_id required")
  else
    ({| _pending := <[request_id := PendingQuestion chat_id questions]> (_pending st);
        _decisions := _decisions st;
        _events := <[request_id := false]> (_events st);
        provider :=
          fst (Provider.inject_event (provider st) chat_id
                 (Provider.UserQuestion request_id questions)) |},
     Registered request_id None).

Definition api_approval_answer (st : state) (request_id answer : string)
    : state * response :=
  if negb (Py.truthy request_id) then (st, Rejected 400 "request_id required")
  else
    match _events st !! request_id with
    | None => (st, Rejected 404 "No pending request for this request_id")
    | Some _ =>
        ({| _pending := _pending st;
            _decisions := <[request_id := answer]> (_decisions st);
            _events := <[request_id := true]> (_events st);
            provider := provider st |},
         Answered)
    end.

(** The calls a broker receives, and their effect in sequence. *)
Inductive call :=
| CallRequest (request_id chat_id tool : string) (inp : tool_input)
| CallWait (request_id : string)
| CallDecide (request_id decision : string)
| CallQuestion (request_id chat_id : string) (questions : list string)
| CallAnswer (request_id answer : string).

Definition serve (st : state) (c : call) : state * response :=
  match c with
  | CallRequest request_id chat_id tool inp =>
      api_approval_request st request_id chat_id tool inp
  | CallWait request_id => fst (api_approval_wait st request_id)
  | CallDecide request_id decision => api_approval_decide st request_id decision
  | CallQuestion request_id chat_id questions =>
      api_approval_question st request_id chat_id questions
  | CallAnswer request_id answer => api_approval_answer st request_id answer
  end.

Fixpoint serve_all (st : state) (cs : list call) : state * list response :=
  match cs with
  | [] => (st, [])
  | c :: rest =>
      let '(st1, r) := serve st c in
      let '(st2, rs) := serve_all st1 rest in
      (st2, r :: rs)
  end.

End Endpoints.

Definition empty_state (p : Provider.provider) : state :=
  {| _pending := ∅; _decisions := ∅; _events := ∅; provider := p |}.

(** Whether [request_id] is recorded anywhere in the registry. *)
Definition registered (st : state) (request_id : string) : Prop :=
  is_Some (_events st !! request_id).

Definition purged (st : state) (request_id : string) : Prop :=
  _pending st !! request_id = None
  ∧ _decisions st !! request_id = None
  ∧ _events st !! request_id = None.

(** A signalled event always has its decision in place. *)
Definition signalled_decided (st : state) : Prop :=
  forall request_id,
    _events st !! request_id = Some true -> is_Some (_decisions st !! request_id).

(** The reading of write-once decisions: a recorded decision survives
    any later [decide] for the same id. *)
Definition write_once : Prop :=
  forall (st : state) (request_id d d' : string),
    _decisions st !! request_id = Some d ->
    _decisions (fst (api_approval_decide st request_id d')) !! request_id = Some d.





(** What a call writes into the decision slot of [request_id]: the
    decision of a well-formed [decide], the text of an [answer]. *)
Definition slot_write (request_id : string) (c : call) : option string :=
  match c with
  | CallDecide r d =>
      if String.eqb r request_id && bool_decide (d ∈ ["allow"; "deny"])
      then Some d else None
  | CallAnswer r a => if String.eqb r request_id then Some a else None
  | _ => None
  end.

(** The calls that register [request_id], and those that register it or
    take it out (the long-poll). *)
Definition registers (request_id : string) (c : call) : bool :=
  match c with
  | CallRequest r _ _ _ => String.eqb r request_id
  | CallQuestion r _ _ => String.eqb r request_id
  | _ => false
  end.

Definition opens_or_closes (request_id : string) (c : call) : bool :=
  match c with
  | CallWait r => String.eqb r request_id
  | _ => registers request_id c
  end.

(** The last value written into the slot of [request_id] over the calls,
    [before] when none of them writes. *)
Fixpoint last_write (request_id : string) (cs : list call)
    (before : option string) : option string :=
  match cs with
  | [] => before
  | c :: rest =>
      last_write request_id rest
        (match slot_write request_id c with
         | Some d => Some d
         | None => before
         end)
  end.

(** A broker whose provider has the code folder [/work/app] registered
    for chat [chat-1], and a registry holding one surfaced request. *)
Definition sample_state : state :=
  empty_state (Provider.set_code_folder Provider.sample_provider "chat-1" "/work/app").


Definition sample_calls : list call :=
  [CallRequest "req-1" "chat-1" "Bash" {[ "command" := "make test" ]}].

Definition sample_pending : state :=
  fst (serve_all None sample_state sample_calls).

End Broker.

(** ** Rule store and its REST endpoints
    ([services/permission_rules_service.py],
    [controllers/permissions_controller.py]) *)

Module RulesStore.

Abbreviation rule := (gmap string string).

(** The rules file on disk: absent, present but not decodable into a
    JSON object, or an object with or without a [rules] key. *)
Inductive rules_file :=
| FileMissing
| FileUnreadable
| FileObject (rules : option (list rule)).

Record service := {
  _rules : list rule;
  _path : rules_file
}.

(** How [Path.write_text] goes: it succeeds; or opening the file fails,
    which leaves the file as it was; or the file has been created or
    truncated and an error is raised later, with the text [complete] in
    the file or only a proper prefix of it (possibly nothing), which no
    longer decodes. *)
Inductive write_outcome :=
| WriteOk
| OpenFails
| WriteFails (complete : bool).

(** [_save]; a failure is logged and swallowed. *)
Definition _save (disk : write_outcome) (svc : service) : service :=
  match disk with
  | WriteOk | WriteFails true =>
      {| _rules := _rules svc; _path := FileObject (Some (_rules svc)) |}
  | OpenFails => svc
  | WriteFails false => {| _rules := _rules svc; _path := FileUnreadable |}
  end.

(** The seed rules with their fresh ids, [{"id": uuid, **r}]: a key of
    [r] wins over the fresh id. *)
Definition seeded (uuid : nat -> string) : list rule :=
  imap (fun i r => r ∪ {[ "id" := uuid i ]}) PermissionRules._DEFAULT_RULES.

(** [__init__] followed by [_load]. *)
Definition _load (uuid : nat -> string) (disk : write_outcome) (file : rules_file)
    : service :=
  match file with
  | FileObject (Some rules) => {| _rules := rules; _path := file |}
  | FileObject None => {| _rules := []; _path := file |}
  | _ => _save disk {| _rules := seeded uuid; _path := file |}
  end.

Inductive add_error :=
| InvalidMatchType (match_type : string)
| InvalidAction (action : string).

Definition new_rule (id tool match_type pattern action : string) : rule :=
  {[ "id" := id; "tool" := tool; "match_type" := match_type;
     "pattern" := pattern; "action" := action ]}.

(** [add_rule]; [id] is the uuid drawn for the rule. *)
Definition add_rule (svc : service) (disk : write_outcome)
    (id tool match_type pattern action : string)
    : service * (rule + add_error) :=
  if negb (bool_decide (match_type ∈ ["glob"; "prefix"]))
  then (svc, inr (InvalidMatchType match_type))
  else if negb (bool_decide (action ∈ ["allow"; "deny"]))
  then (svc, inr (InvalidAction action))
  else
    let r := new_rule id tool match_type pattern action in
    (_save disk {| _rules := _rules svc ++ [r]; _path := _path svc |}, inl r).

Definition keeps (rule_id : string) (r : rule) : bool :=
  negb (bool_decide (r !! "id" = Some rule_id)).

Definition remove_rule (svc : service) (disk : write_outcome) (rule_id : string)
    : service * bool :=
  let original := length (_rules svc) in
  let svc1 := {| _rules := List.filter (keeps rule_id) (_rules svc);
                 _path := _path svc |} in
  if (length (_rules svc1) <? original)%nat
  then (_save disk svc1, true)
  else (svc1, false).

Definition list_rules (svc : service) : list rule := _rules svc.

(** The REST endpoints over the store. *)
Inductive bad_request :=
| MissingFields
| Invalid (e : add_error).

Inductive api_response :=
| Created (r : rule)
| BadRequest (error : bad_request)
| NotFound
| Ok
| Pattern (pattern : option string).

Definition api_add_rule (svc : service) (disk : write_outcome)
    (id tool match_type pattern action : string) : service * api_response :=
  if negb (forallb Py.truthy [tool; match_type; pattern; action])
  then (svc, BadRequest MissingFields)
  else
    match add_rule svc disk id tool match_type pattern action with
    | (svc1, inl r) => (svc1, Created r)
    | (svc1, inr e) => (svc1, BadRequest (Invalid e))
    end.

Definition api_remove_rule (svc : service) (disk : write_outcome) (rule_id : string)
    : service * api_response :=
  let '(svc1, removed) := remove_rule svc disk rule_id in
  if removed then (svc1, Ok) else (svc1, NotFound).

(** [/api/permissions/suggest]; [inp] is [None] when the posted input
    is not a JSON object. *)
Definition api_suggest_pattern
    (shlex_split : string -> option (list string))
    (tool : string) (inp : option (gmap string string)) : api_response :=
  if String.eqb tool "Bash" then
    let command := match inp with Some d => Py.get d "command" | None => "" end in
    Pattern (PermissionRules.suggest_bash_pattern shlex_split command)
  else if bool_decide (tool ∈ ["Write"; "Edit"; "MultiEdit"]) then
    let file_path :=
      match inp with Some d => Py.get d "file_path" | None => "" end in
    if Py.endswith file_path ".md" then Pattern (Some "**/*.md")
    else Pattern None
  else Pattern None.

(** A rule that cannot auto-allow a dangerous shell command: it is not
    an allow rule, or not a rule for [Bash], or a prefix rule whose
    pattern is outside the dangerous set. *)
Definition spares_dangerous (r : rule) : bool :=
  negb (bool_decide (r !! "action" = Some "allow"))
  || negb (bool_decide (r !! "tool" = Some "Bash"))
  || (bool_decide (r !! "match_type" = Some "prefix")
      && negb (bool_decide (Py.get r "pattern" ∈ PermissionRules.DANGEROUS))).

Definition sample_service : service :=
  {| _rules := [PermissionRules.mk_rule "Bash" "prefix" "ls" "allow"
                  ∪ {[ "id" := "rule-1" ]}];
     _path := FileMissing |}.

End RulesStore.

(** ** Tool executors ([mcp/approval_gate.py]) on a file system *)

Module Executors.

(** *** Text

    A Python [str] is modelled by its UTF-8 encoding, one [ascii] per
    byte; a lone surrogate, which JSON input can carry, by its
    three-byte generalised encoding, which strict UTF-8 refuses.
    Substring search and [replace] on the encodings agree with those on
    the code points, since no encoded character occurs inside another;
    [len] and slices count code points.  Paths and newlines are those of
    a POSIX system. *)

Definition in_range (lo hi : nat) (c : ascii) : bool :=
  let n := nat_of_ascii c in
  ((lo <=? n) && (n <=? hi))%nat.

(** A byte that continues an encoded character. *)
Definition is_continuation (c : ascii) : bool := in_range 128 191 c.

(** [len(s)] *)
Fixpoint len (s : string) : nat :=
  match s with
  | EmptyString => O
  | String c r => ((if is_continuation c then 0 else 1) + len r)%nat
  end.

(** [s[:n]] *)
Fixpoint take_chars (n : nat) (s : string) : string :=
  match s with
  | EmptyString => EmptyString
  | String c r =>
      if is_continuation c then String c (take_chars n r)
      else
        match n with
        | O => EmptyString
        | S n' => String c (take_chars n' r)
        end
  end.

(** Whether the bytes are well-formed UTF-8, as the strict [utf-8] codec
    accepts them: shortest forms only, no surrogates, nothing above
    U+10FFFF. *)
Fixpoint utf8_valid (s : string) : bool :=
  match s with
  | EmptyString => true
  | String c0 r0 =>
      if in_range 0 127 c0 then utf8_valid r0
      else
        match r0 with
        | EmptyString => false
        | String c1 r1 =>
            if in_range 194 223 c0 then is_continuation c1 && utf8_valid r1
            else
              match r1 with
              | EmptyString => false
              | String c2 r2 =>
                  if in_range 224 239 c0 then
                    (if in_range 224 224 c0 then in_range 160 191 c1
                     else if in_range 237 237 c0 then in_range 128 159 c1
                     else is_continuation c1)
                    && is_continuation c2 && utf8_valid r2
                  else
                    match r2 with
                    | EmptyString => false
                    | String c3 r3 =>
                        in_range 240 244 c0
                        && (if in_range 240 240 c0 then in_range 144 191 c1
                            else if in_range 244 244 c0 then in_range 128 143 c1
                            else is_continuation c1)
                        && is_continuation c2 && is_continuation c3
                        && utf8_valid r3
                    end
              end
        end
  end.

Definition CR : ascii := ascii_of_nat 13.

(** What reading in text mode makes of the decoded content: [CR LF] and
    a lone [CR] are read as [LF]. *)
Fixpoint universal_newlines (s : string) : string :=
  match s with
  | EmptyString => EmptyString
  | String c r =>
      if Ascii.eqb c CR then
        match r with
        | String d r' =>
            if Ascii.eqb d Py.newline_char
            then String Py.newline_char (universal_newlines r')
            else String Py.newline_char (universal_newlines r)
        | EmptyString => String Py.newline_char EmptyString
        end
      else String c (universal_newlines r)
  end.

(** [s[n:]] on bytes. *)
Fixpoint drop_chars (n : nat) (s : string) : string :=
  match n, s with
  | O, _ => s
  | S n', String _ r => drop_chars n' r
  | S _, EmptyString => EmptyString
  end.

(** [s.replace(old, new, 1)]: the first occurrence only; an empty [old]
    occurs at the very start. *)
Fixpoint replace_first (s old new : string) : string :=
  if String.prefix old s then new +:+ drop_chars (String.length old) s
  else
    match s with
    | EmptyString => EmptyString
    | String c r => String c (replace_first r old new)
    end.

Definition string_of_nat (n : nat) : string :=
  DecimalString.NilZero.string_of_uint (Nat.to_uint n).

(** [os.path.dirname]: the path up to its last slash, without the
    slashes that end it unless it consists of slashes only. *)
Fixpoint drop_to_slash (s : string) : string :=
  match s with
  | EmptyString => EmptyString
  | String c r => if Ascii.eqb c "/" then s else drop_to_slash r
  end.

Fixpoint all_slashes (s : string) : bool :=
  match s with
  | EmptyString => true
  | String c r => Ascii.eqb c "/" && all_slashes r
  end.

Fixpoint lstrip_slashes (s : string) : string :=
  match s with
  | EmptyString => EmptyString
  | String c r => if Ascii.eqb c "/" then lstrip_slashes r else s
  end.

Definition dirname (p : string) : string :=
  let head := drop_to_slash (String.rev p) in
  if all_slashes head then String.rev head
  else String.rev (lstrip_slashes head).

(** *** The file system and the operating system *)

Inductive exec_error :=
| KeyError (key : string)
| FileNotFoundError (path : string)
| OSError (path : string)
| UnicodeDecodeError (path : string)
| UnicodeEncodeError (path : string)
| OldStringNotFound (path : string)
| EditNotFound (index : nat) (path old40 : string).

Inductive outcome :=
| Returns (text : string)
| Raises (exc : exec_error).

(** The bytes of every file, by the file a path resolves to, and the
    directories that exist. *)
Record filesystem := {
  files : gmap string string;
  dirs : gset string
}.

(** How opening a file for writing and writing to it go: all is
    written; the file cannot be opened; or it is opened, hence created
    or truncated, and the write is cut short after [written] bytes. *)
Inductive write_outcome :=
| Written
| NotOpened
| Interrupted (written : nat).

(** What the executors ask of the operating system: which file a path
    names, [os.path.abspath] (which depends on the working directory),
    the directories [os.makedirs] creates and whether it succeeds,
    whether opening for reading is refused for another reason than a
    missing file, and how a write goes. *)
Record os_behaviour := {
  resolve : string -> string;
  abspath : string -> string;
  makedirs : filesystem -> string -> gset string * bool;
  opens_for_reading : filesystem -> string -> bool;
  opens_for_writing : filesystem -> string -> write_outcome
}.

Section FileSystem.

Variable os : os_behaviour.

Definition with_file (fs : filesystem) (path content : string) : filesystem :=
  {| files := <[resolve os path := content]> (files fs); dirs := dirs fs |}.

(** [os.makedirs(parent, exist_ok=True)] *)
Definition run_makedirs (fs : filesystem) (parent : string) : filesystem * bool :=
  let '(made, ok) := makedirs os fs parent in
  ({| files := files fs; dirs := dirs fs ∪ made |}, ok).

(** [with open(path, "r", encoding="utf-8") as fh: fh.read()] *)
Definition read_text (fs : filesystem) (path : string) : string + exec_error :=
  if negb (opens_for_reading os fs path) then inr (OSError path)
  else
    match files fs !! resolve os path with
    | None => inr (FileNotFoundError path)
    | Some bytes =>
        if utf8_valid bytes then inl (universal_newlines bytes)
        else inr (UnicodeDecodeError path)
    end.

(** [with open(path, "w", encoding="utf-8") as fh: fh.write(content)]:
    the open creates or truncates the file, the write encodes the text
    before any of it reaches the file, and the bytes go out when the
    file is closed. *)
Definition write_text (fs : filesystem) (path content : string)
    : filesystem * option exec_error :=
  match opens_for_writing os fs path with
  | NotOpened => (fs, Some (OSError path))
  | how =>
      if negb (utf8_valid content)
      then (with_file fs path "", Some (UnicodeEncodeError path))
      else
        match how with
        | Interrupted written =>
            (with_file fs path (String.substring 0 written content),
             Some (OSError path))
        | _ => (with_file fs path content, None)
        end
  end.

(** The executor returns [text] unless the write raised. *)
Definition finish (r : filesystem * option exec_error) (text : string)
    : filesystem * outcome :=
  match r with
  | (fs, Some exc) => (fs, Raises exc)
  | (fs, None) => (fs, Returns text)
  end.

Definition _exec_write (fs : filesystem) (inp : gmap string string)
    : filesystem * outcome :=
  match inp !! "file_path" with
  | None => (fs, Raises (KeyError "file_path"))
  | Some file_path =>
      match inp !! "content" with
      | None => (fs, Raises (KeyError "content"))
      | Some content =>
          let parent := dirname (abspath os file_path) in
          let '(fs1, made) :=
            if Py.truthy parent then run_makedirs fs parent else (fs, true) in
          if negb made then (fs1, Raises (OSError parent))
          else
            finish (write_text fs1 file_path content)
              ("Wrote " +:+ string_of_nat (len content)
                 +:+ " bytes to " +:+ file_path)
      end
  end.

Definition _exec_edit (fs : filesystem) (inp : gmap string string)
    : filesystem * outcome :=
  match inp !! "file_path" with
  | None => (fs, Raises (KeyError "file_path"))
  | Some file_path =>
      match inp !! "old_string" with
      | None => (fs, Raises (KeyError "old_string"))
      | Some old_string =>
          match inp !! "new_string" with
          | None => (fs, Raises (KeyError "new_string"))
          | Some new_string =>
              match read_text fs file_path with
              | inr exc => (fs, Raises exc)
              | inl original =>
                  if negb (Py.contains original old_string)
                  then (fs, Raises (OldStringNotFound file_path))
                  else
                    finish
                      (write_text fs file_path
                         (replace_first original old_string new_string))
                      ("Edited " +:+ file_path)
              end
          end
      end
  end.

(** The loop of [_exec_multiedit] over the edits from index [i] on: the
    content after all of them, or the error of the first that fails. *)
Fixpoint apply_edits (i : nat) (path content : string)
    (edits : list (string * string)) : string + exec_error :=
  match edits with
  | [] => inl content
  | (old, new) :: rest =>
      if negb (Py.contains content old)
      then inr (EditNotFound i path (take_chars 40 old))
      else apply_edits (S i) path (replace_first content old new) rest
  end.

(** [_exec_multiedit]; [file_path] and [edits] are [None] when the key
    is missing, and each edit is its pair of [old_string] and
    [new_string]. *)
Definition _exec_multiedit (fs : filesystem)
    (file_path : option string) (edits : option (list (string * string)))
    : filesystem * outcome :=
  match file_path with
  | None => (fs, Raises (KeyError "file_path"))
  | Some file_path =>
      match edits with
      | None => (fs, Raises (KeyError "edits"))
      | Some edits =>
          match read_text fs file_path with
          | inr exc => (fs, Raises exc)
          | inl content =>
              match apply_edits 0 file_path content edits with
              | inr exc => (fs, Raises exc)
              | inl content' =>
                  finish (write_text fs file_path content')
                    ("Applied " +:+ string_of_nat (length edits)
                       +:+ " edit(s) to " +:+ file_path)
              end
          end
      end
  end.

(** An exception raised before the file is opened for writing. *)
Definition raised_before_write (exc : exec_error) : bool :=
  match exc with
  | OSError _ => false
  | UnicodeEncodeError _ => false
  | _ => true
  end.

(** What a run [r] of an executor on the target [target] may have done
    to the file system [fs]: it touches the bytes of no file but the
    target's, removes no directory, and changed nothing at all when it
    raised before opening the target for writing. *)
Definition confined (target : option string) (fs : filesystem)
    (r : filesystem * outcome) : Prop :=
  (forall k, Some k <> resolve os <$> target ->
             files (fst r) !! k = files fs !! k)
  /\ dirs fs ⊆ dirs (fst r)
  /\ (forall exc, snd r = Raises exc -> raised_before_write exc = true ->
        fst r = fs).

(** What a run [r] that was to write [text] to [path] has made of the
    files: when it raised they are as before, or the target holds the
    first bytes of [text], possibly none; when it returned the target
    holds [text], which encodes. *)
Definition writes_text (path text : string) (fs : filesystem)
    (r : filesystem * outcome) : Prop :=
  (forall exc, snd r = Raises exc ->
     files (fst r) = files fs
     \/ exists written,
          files (fst r)
          = <[resolve os path := String.substring 0 written text]> (files fs))
  /\ (forall shown, snd r = Returns shown ->
        utf8_valid text = true
        /\ files (fst r) = <[resolve os path := text]> (files fs)).

End FileSystem.

End Executors.

(** ** Session persistence ([agents/claude_code_provider.py]) *)

Module Sessions.

Import Provider.

(** A value of the sessions file: the legacy bare session id, the
    current object, or any other JSON value. *)
Inductive stored :=
| Legacy (session_id : string)
| Current (fields : gmap string string)
| Other.

(** The sessions file: not configured or absent, not decodable as
    JSON, a JSON value that is not an object, or an object from chat ids
    to stored values. *)
Inductive sessions_file :=
| NoFile
| Unreadable
| NotAnObject
| Object (raw : gmap string stored).

Definition stored_session (v : stored) : option string :=
  match v with
  | Legacy sid => Some sid
  | Current fields => Some (Py.get fields "session_id")
  | Other => None
  end.

Definition stored_folder (v : stored) : option string :=
  match v with
  | Current fields =>
      let cf := Py.get fields "code_folder" in
      if Py.truthy cf then Some cf else None
  | _ => None
  end.

(** [_load_sessions]: each entry of the file overwrites the entry of the
    same chat; [None] is the [AttributeError] of [raw.items()] on a value
    that is not an object, which nothing catches. *)
Definition _load_sessions (p : provider) (file : sessions_file)
    : option provider :=
  match file with
  | Object raw =>
      Some (with_code_folders
              (with_session_map p (omap stored_session raw ∪ _session_map p))
              (omap stored_folder raw ∪ _code_folders p))
  | NotAnObject => None
  | _ => Some p
  end.

Definition to_store (folders : gmap string string) (chat_id session_id : string)
    : stored :=
  let cf := Py.get folders chat_id in
  if Py.truthy cf
  then Current {[ "session_id" := session_id; "code_folder" := cf ]}
  else Legacy session_id.

(** [_save_sessions]: the new content of the file; [configured] tells
    whether a sessions file is set, [disk_ok] whether the write and the
    rename succeed. *)
Definition _save_sessions (configured disk_ok : bool) (p : provider)
    (file : sessions_file) : sessions_file :=
  if configured && disk_ok
  then Object (map_imap (fun chat_id sid => Some (to_store (_code_folders p) chat_id sid))
                 (_session_map p))
  else file.

(** [set_code_folder] with the save it ends on. *)
Definition set_code_folder_saved (configured disk_ok : bool) (p : provider)
    (file : sessions_file) (chat_id path : string) : provider * sessions_file :=
  let p1 := set_code_folder p chat_id path in
  (p1, _save_sessions configured disk_ok p1 file).

(** Every registered code folder is a non-empty path. *)
Definition folders_nonempty (p : provider) : Prop :=
  forall chat_id cf, _code_folders p !! chat_id = Some cf -> Py.truthy cf = true.

End Sessions.

(** ** Observations on traces *)

Module Observe.

(** A reply written to stdout by the approval client. *)
Definition is_reply (e : ApprovalGate.effect) : bool :=
  match e with
  | ApprovalGate.ReplyOk _ _ => true
  | ApprovalGate.ReplyErr _ _ _ => true
  | _ => false
  end.

(** A JSON-RPC message that is a request: a known method other than the
    notification, or any other method sent with an id. *)
Definition is_request (m : ApprovalGate.message) : bool :=
  bool_decide (ApprovalGate.method m ∈ ["initialize"; "tools/list"; "tools/call"])
  || (negb (String.eqb (ApprovalGate.method m) "notifications/initialized")
      && bool_decide (is_Some (ApprovalGate.msg_id m))).

Definition flagged_error (e : ApprovalGate.effect) : bool :=
  match e with
  | ApprovalGate.ReplyOk _ (ApprovalGate.BodyContent _ true) => true
  | ApprovalGate.ReplyErr _ _ _ => true
  | _ => false
  end.

Definition is_close (a : Provider.action) : bool :=
  match a with
  | Provider.CloseStdin => true
  | _ => false
  end.

Definition closes (t : list Provider.action) : nat :=
  length (List.filter is_close t).

(** The run is registered under [chat_id] in one of the three maps. *)
Definition live (p : Provider.provider) (chat_id : string) : Prop :=
  is_Some (Provider._inject_queues p !! chat_id)
  \/ chat_id ∈ Provider._stdin_map p
  \/ chat_id ∈ Provider._process_map p.

(** Two provider states that differ at most in what they hold for
    [chat_id]. *)
Definition same_elsewhere (chat_id : string) (p p' : Provider.provider) : Prop :=
  Provider.claude_cli p' = Provider.claude_cli p
  /\ Provider._code_folders p' = Provider._code_folders p
  /\ forall other, other <> chat_id ->
       Provider._session_map p' !! other = Provider._session_map p !! other
       /\ Provider._inject_queues p' !! other = Provider._inject_queues p !! other
       /\ (other ∈ Provider._stdin_map p' <-> other ∈ Provider._stdin_map p)
       /\ (other ∈ Provider._process_map p' <-> other ∈ Provider._process_map p)
       /\ Provider._cancelled_prompts p' !! other
          = Provider._cancelled_prompts p !! other.




(** An operating system where paths name themselves, nothing under
    [/ro/] can be opened for writing and a write under [/full/] is cut
    short after three bytes; a file system with a file that ends its
    lines in [CR LF]; a provider with a run registered for [chat-1], and
    a broker on it that holds the surfaced request of
    [Broker.sample_calls]. *)
Definition sample_os : Executors.os_behaviour :=
  {| Executors.resolve := fun path => path;
     Executors.abspath :=
       fun path => if Py.startswith path "/" then path else "/work/" +:+ path;
     Executors.makedirs := fun _ parent => ({[ parent ]}, true);
     Executors.opens_for_reading := fun _ _ => true;
     Executors.opens_for_writing :=
       fun _ path =>
         if Py.startswith path "/ro/" then Executors.NotOpened
         else if Py.startswith path "/full/" then Executors.Interrupted 3
         else Executors.Written |}.

Definition crlf : string :=
  String Executors.CR (String Py.newline_char EmptyString).

Definition sample_fs : Executors.filesystem :=
  {| Executors.files :=
       {[ "/work/notes.md" := "alpha beta alpha";
          "/work/dos.txt" := "one" +:+ crlf +:+ "two" +:+ crlf;
          "/full/log.txt" := "old content" ]};
     Executors.dirs := {[ "/work"; "/full" ]} |}.

Definition sample_live_provider : Provider.provider :=
  Provider.register_run Provider.sample_provider "chat-1".

(** The same provider with two lines of the CLI waiting in the queue. *)
Definition sample_streaming_provider : Provider.provider :=
  Provider.with_inject_queues sample_live_provider
    {[ "chat-1" := [Provider.QOut "event:assistant"; Provider.QErr "warning"] ]}.

Definition sample_live_pending : Broker.state :=
  fst (Broker.serve_all None (Broker.empty_state sample_live_provider)
         Broker.sample_calls).

(** What the approval client's long-poll sees of a broker response:
    the body of a decision, and an HTTP error raised by [urlopen] for a
    rejection. *)
Definition poll_of (r : Broker.response) : ApprovalGate.poll_outcome :=
  match r with
  | Broker.Decision d => ApprovalGate.PollObject {[ "decision" := d ]}
  | Broker.Rejected _ error => ApprovalGate.PollRaises error
  | _ => ApprovalGate.PollObject ∅
  end.

End Observe.

(** * Properties *)

(** ** Strings *)

Section StringFacts.







End StringFacts.

(** ** The rule engine *)

Section RuleEngineFacts.

Variable shlex_split : string -> option (list string).
Variable fnmatch : string -> string -> bool.

Import PermissionRules.

Lemma check_action_spec action rules tool inp :
  check_action shlex_split fnmatch action rules tool inp = true <->
  exists r, In r rules /\ r !! "action" = Some action
            /\ _matches shlex_split fnmatch r tool inp = true.
Proof.
  induction rules as [|r0 rest IH]; simpl.
  - split; [discriminate | intros (r & [] & _)].
  - destruct (bool_decide (r0 !! "action" = Some action)) eqn:Hact; simpl.
    + apply bool_decide_eq_true in Hact.
      destruct (_matches shlex_split fnmatch r0 tool inp) eqn:Hm.
      * split; [intros _; exists r0; auto | reflexivity].
      * rewrite IH. split.
        -- intros (r & Hin & Ha & Hr). exists r; auto.
        -- intros (r & [<- | Hin] & Ha & Hr); [congruence | exists r; auto].
    + apply bool_decide_eq_false in Hact. rewrite IH. split.
      * intros (r & Hin & Ha & Hr). exists r; auto.
      * intros (r & [<- | Hin] & Ha & Hr); [contradiction | exists r; auto].
Qed.

Lemma suggest_none_of_dangerous command p ps :
  shlex_split (Py.strip command) = Some (p :: ps) ->
  Py.basename p ∈ DANGEROUS ->
  suggest_bash_pattern shlex_split command = None.
Proof.
  intros Hsplit Hd. unfold suggest_bash_pattern.
  destruct (Py.truthy (Py.strip command)); cbn [negb]; [|reflexivity].
  rewrite Hsplit. cbv zeta. now rewrite bool_decide_eq_true_2.
Qed.

Lemma prefix_rule_matches command p ps (r inp : gmap string string) tool :
  shlex_split (Py.strip command) = Some (p :: ps) ->
  inp !! "command" = Some command ->
  r !! "tool" = Some tool ->
  r !! "match_type" = Some "prefix" ->
  r !! "pattern" = Some (Py.basename p) ->
  _matches shlex_split fnmatch r tool inp = true.
Proof.
  intros Hsplit Hcmd Htool Hmt Hpat. unfold _matches.
  rewrite (bool_decide_eq_true_2 _ Htool). simpl.
  rewrite Hmt.
  rewrite bool_decide_eq_false_2 by discriminate.
  rewrite bool_decide_eq_true_2 by reflexivity.
  unfold Py.get. rewrite Hcmd, Hpat. simpl.
  unfold suggest_bash_pattern.
  destruct (Py.truthy (Py.strip command)); cbn [negb]; rewrite Hsplit.
  - cbv zeta. destruct (bool_decide (Py.basename p ∈ DANGEROUS));
      apply String.eqb_refl.
  - apply String.eqb_refl.
Qed.

(** C1. If a deny rule of the rule set matches a call, [check] answers
    deny, whatever allow rules match the same call and in whatever order
    the rules are listed. *)
Theorem deny_rule_wins (rules listed : list (gmap string string))
    (tool : string) (inp r : gmap string string) :
  Permutation rules listed ->
  In r rules ->
  r !! "action" = Some "deny" ->
  _matches shlex_split fnmatch r tool inp = true ->
  check shlex_split fnmatch listed tool inp = "deny".
Proof.
  intros Hperm Hin Hact Hm. unfold check; simpl.
  assert (check_action shlex_split fnmatch "deny" listed tool inp = true) as ->.
  { apply check_action_spec. exists r. split; [|auto].
    eapply Permutation_in; eauto. }
  reflexivity.
Qed.

(** C10. When the first token of the shell-split command has a base name
    in the dangerous set, no pattern is suggested for the command, and a
    prefix deny rule whose pattern is that base name still matches it, so
    that [check] answers deny. *)
Theorem dangerous_unsuggested_yet_deniable (command p : string)
    (ps : list string) :
  shlex_split (Py.strip command) = Some (p :: ps) ->
  Py.basename p ∈ DANGEROUS ->
  suggest_bash_pattern shlex_split command = None
  /\ forall (tool : string) (inp r : gmap string string),
       inp !! "command" = Some command ->
       r !! "tool" = Some tool ->
       r !! "match_type" = Some "prefix" ->
       r !! "pattern" = Some (Py.basename p) ->
       r !! "action" = Some "deny" ->
       _matches shlex_split fnmatch r tool inp = true
       /\ forall rules, In r rules ->
            check shlex_split fnmatch rules tool inp = "deny".
Proof.
  intros Hsplit Hd. split; [eapply suggest_none_of_dangerous; eauto|].
  intros tool inp r Hcmd Htool Hmt Hpat Hact.
  assert (_matches shlex_split fnmatch r tool inp = true) as Hm
    by (eapply prefix_rule_matches; eauto).
  split; [exact Hm|]. intros rules Hin. unfold check; simpl.
  assert (check_action shlex_split fnmatch "deny" rules tool inp = true) as ->
    by (apply check_action_spec; exists r; auto).
  reflexivity.
Qed.

End RuleEngineFacts.

(** The scenarios of the rule engine on the seed rules. *)
Example check_defaults_rm :
  PermissionRules.check PyLib.shlex_split PyLib.fnmatch
    PermissionRules._DEFAULT_RULES "Bash" {[ "command" := "rm -rf /" ]} = "deny".
Proof. vm_compute. reflexivity. Qed.

Example check_defaults_git :
  PermissionRules.check PyLib.shlex_split PyLib.fnmatch
    PermissionRules._DEFAULT_RULES "Bash" {[ "command" := "git status" ]} = "allow".
Proof. vm_compute. reflexivity. Qed.

Example check_defaults_unknown :
  PermissionRules.check PyLib.shlex_split PyLib.fnmatch
    PermissionRules._DEFAULT_RULES "Bash" {[ "command" := "unknownbinary" ]} = "ask".
Proof. vm_compute. reflexivity. Qed.

Example check_defaults_markdown :
  PermissionRules.check PyLib.shlex_split PyLib.fnmatch
    PermissionRules._DEFAULT_RULES "Write" {[ "file_path" := "notes/a.md" ]} = "allow".
Proof. vm_compute. reflexivity. Qed.

Lemma deny_rule_wins_witness :
  PermissionRules.check PyLib.shlex_split PyLib.fnmatch
    [PermissionRules.mk_rule "Bash" "prefix" "rm" "allow";
     PermissionRules.mk_rule "Bash" "prefix" "rm" "deny"]
    "Bash" {[ "command" := "rm -rf /" ]} = "deny".
Proof.
  apply (deny_rule_wins PyLib.shlex_split PyLib.fnmatch
           [PermissionRules.mk_rule "Bash" "prefix" "rm" "deny";
            PermissionRules.mk_rule "Bash" "prefix" "rm" "allow"]
           _ "Bash" _ (PermissionRules.mk_rule "Bash" "prefix" "rm" "deny")).
  - apply perm_swap.
  - simpl. left. reflexivity.
  - vm_compute. reflexivity.
  - vm_compute. reflexivity.
Defined.

Lemma dangerous_unsuggested_yet_deniable_witness :
  PermissionRules.suggest_bash_pattern PyLib.shlex_split "  /usr/bin/sudo ls" = None
  /\ PermissionRules.check PyLib.shlex_split PyLib.fnmatch
       [PermissionRules.mk_rule "Bash" "prefix" "ls" "allow";
        PermissionRules.mk_rule "Bash" "prefix" "sudo" "deny"]
       "Bash" {[ "command" := "  /usr/bin/sudo ls" ]} = "deny".
Proof.
  assert (PyLib.shlex_split (Py.strip "  /usr/bin/sudo ls")
          = Some ["/usr/bin/sudo"; "ls"]) as Hsplit by (vm_compute; reflexivity).
  assert (Py.basename "/usr/bin/sudo" ∈ PermissionRules.DANGEROUS) as Hd
    by (vm_compute; set_solver).
  destruct (dangerous_unsuggested_yet_deniable PyLib.shlex_split PyLib.fnmatch
              _ _ _ Hsplit Hd) as [Hs Hm].
  split; [exact Hs|].
  refine (proj2 (Hm "Bash" {[ "command" := "  /usr/bin/sudo ls" ]}
                   (PermissionRules.mk_rule "Bash" "prefix" "sudo" "deny")
                   _ _ _ _ _) _ _);
    [vm_compute; reflexivity .. | right; left; reflexivity].
Defined.

(** ** The agent-side approval client *)

Section GateFacts.

Import ApprovalGate.

Variable executor : string -> tool_input -> exec_outcome.

Lemma request_approval_fails_closed net request_id tool inp :
  transport_fails net ->
  fst (_request_approval net request_id tool inp) = "deny".
Proof.
  intros [[exc Hpost] | [exc Hpoll]]; unfold _request_approval.
  - rewrite Hpost. reflexivity.
  - rewrite Hpoll. destruct (net_post net); reflexivity.
Qed.

Lemma request_approval_never_executes net request_id tool inp :
  forallb (fun e => negb (ran_executor e))
          (snd (_request_approval net request_id tool inp)) = true.
Proof.
  unfold _request_approval.
  destruct (net_post net); [destruct (net_poll net)|]; reflexivity.
Qed.

Lemma gated_tool_is_not_question tool :
  tool ∈ _EXECUTORS -> String.eqb tool "AskUserQuestion" = false.
Proof.
  unfold _EXECUTORS. intros H.
  repeat (apply elem_of_cons in H as [-> | H]; [reflexivity|]).
  now apply elem_of_nil in H.
Qed.

Lemma main_app stdin1 stdin2 :
  main executor (stdin1 ++ stdin2) = main executor stdin1 ++ main executor stdin2.
Proof.
  induction stdin1 as [|[[msg rid] net] rest IH]; simpl; [reflexivity|].
  now rewrite IH, app_assoc.
Qed.

(** C2. For a gated tool invocation, when the registration request or
    the long-poll request fails in transport, the decision is deny, the
    reply is the denied result, and the executor is not run: neither by
    the handler of that call nor, for that call, by the loop around it. *)
Theorem transport_failure_denies (net : network) (request_id : string)
    (msg : message) :
  method msg = "tools/call" ->
  params_name msg ∈ _EXECUTORS ->
  transport_fails net ->
  fst (_request_approval net request_id (params_name msg) (params_arguments msg))
    = "deny"
  /\ handle executor net request_id msg
     = snd (_request_approval net request_id (params_name msg)
              (params_arguments msg))
       ++ [ReplyOk (msg_id msg) (BodyContent TextDenied true)]
  /\ forallb (fun e => negb (ran_executor e))
       (handle executor net request_id msg) = true
  /\ forall before later,
       main executor (before ++ (msg, request_id, net) :: later)
       = main executor before
         ++ handle executor net request_id msg ++ main executor later.
Proof.
  intros Hmethod Hgated Hfail.
  pose proof (request_approval_fails_closed net request_id (params_name msg)
                (params_arguments msg) Hfail) as Hdeny.
  assert (handle executor net request_id msg
          = snd (_request_approval net request_id (params_name msg)
                   (params_arguments msg))
            ++ [ReplyOk (msg_id msg) (BodyContent TextDenied true)]) as Hhandle.
  { unfold handle. rewrite Hmethod. cbn [String.eqb Ascii.eqb Bool.eqb].
    unfold tools_call.
    rewrite (gated_tool_is_not_question _ Hgated).
    rewrite (bool_decide_eq_true_2 _ Hgated). cbn [negb].
    destruct (_request_approval net request_id (params_name msg)
                (params_arguments msg)) as [decision eff].
    cbn [fst snd] in *. subst decision. reflexivity. }
  split; [exact Hdeny|]. split; [exact Hhandle|]. split.
  - rewrite Hhandle, forallb_app, request_approval_never_executes. reflexivity.
  - intros before later. rewrite main_app. reflexivity.
Qed.

End GateFacts.

Lemma transport_failure_denies_witness :
  ApprovalGate.handle (fun _ _ => ApprovalGate.ExecReturns "done")
    {| ApprovalGate.net_post := ApprovalGate.PostOk;
       ApprovalGate.net_poll := ApprovalGate.PollRaises "timed out" |}
    "req-1"
    {| ApprovalGate.method := "tools/call"; ApprovalGate.msg_id := Some "7";
       ApprovalGate.params_name := "Bash";
       ApprovalGate.params_arguments := {[ "command" := "ls" ]} |}
  = [ApprovalGate.HttpPost "/api/approval/request" "req-1" "Bash"
       {[ "command" := "ls" ]};
     ApprovalGate.HttpPoll "req-1";
     ApprovalGate.ReplyOk (Some "7")
       (ApprovalGate.BodyContent ApprovalGate.TextDenied true)].
Proof.
  refine (proj1 (proj2 (transport_failure_denies
            (fun _ _ => ApprovalGate.ExecReturns "done")
            {| ApprovalGate.net_post := ApprovalGate.PostOk;
               ApprovalGate.net_poll := ApprovalGate.PollRaises "timed out" |}
            "req-1"
            {| ApprovalGate.method := "tools/call"; ApprovalGate.msg_id := Some "7";
               ApprovalGate.params_name := "Bash";
               ApprovalGate.params_arguments := {[ "command" := "ls" ]} |}
            _ _ _))).
  - reflexivity.
  - vm_compute. set_solver.
  - right. exists "timed out". reflexivity.
Defined.

(** With the broker reachable and the user allowing, the executor runs. *)
Example gate_allow_runs_executor :
  ApprovalGate.handle (fun _ _ => ApprovalGate.ExecReturns "done")
    {| ApprovalGate.net_post := ApprovalGate.PostOk;
       ApprovalGate.net_poll := ApprovalGate.PollObject {[ "decision" := "allow" ]} |}
    "req-1"
    {| ApprovalGate.method := "tools/call"; ApprovalGate.msg_id := Some "7";
       ApprovalGate.params_name := "Bash";
       ApprovalGate.params_arguments := {[ "command" := "ls" ]} |}
  = [ApprovalGate.HttpPost "/api/approval/request" "req-1" "Bash"
       {[ "command" := "ls" ]};
     ApprovalGate.HttpPoll "req-1";
     ApprovalGate.RunExecutor "Bash" {[ "command" := "ls" ]};
     ApprovalGate.ReplyOk (Some "7")
       (ApprovalGate.BodyContent (ApprovalGate.TextResult "done") false)].
Proof. vm_compute. reflexivity. Qed.

(** ** The approval broker *)

Section BrokerFacts.

Import Broker.

Variable permission_rules_service : option rules_service.





Lemma inject_event_keeps_folders p chat_id ev :
  Provider._code_folders (fst (Provider.inject_event p chat_id ev))
  = Provider._code_folders p.
Proof.
  unfold Provider.inject_event.
  destruct (Provider._inject_queues p !! chat_id); reflexivity.
Qed.

Lemma serve_keeps_signalled_decided st c :
  signalled_decided st ->
  signalled_decided (fst (serve permission_rules_service st c)).
Proof.
  intros Hinv. destruct c as [rid chat tool inp | rid | rid d | rid chat qs | rid a];
    cbn [serve].
  - unfold api_approval_request.
    destruct (Py.truthy rid); cbn [negb]; [|exact Hinv].
    destruct (rules_allow _ tool inp);
      [|destruct (in_code_folder st chat tool inp)];
      unfold auto_allow; cbn [fst]; intros id; cbn [_events _decisions];
      destruct (decide (rid = id)) as [->|Hne];
      rewrite ?lookup_insert_eq, ?lookup_insert_ne by done;
      eauto; try discriminate; apply Hinv.
  - unfold api_approval_wait.
    destruct (_events st !! rid) as [ev|] eqn:Hev; [|exact Hinv].
    destruct (event_wait ev WAIT_TIMEOUT). cbn [fst].
    intros id; cbn [_events _decisions].
    destruct (decide (rid = id)) as [->|Hne];
      rewrite ?lookup_delete_eq, ?lookup_delete_ne by done;
      [discriminate | apply Hinv].
  - unfold api_approval_decide.
    destruct (Py.truthy rid); cbn [negb]; [|exact Hinv].
    destruct (bool_decide (d ∈ ["allow"; "deny"])); cbn [negb]; [|exact Hinv].
    destruct (_events st !! rid) as [ev|] eqn:Hev; [|exact Hinv].
    cbn [fst]. intros id; cbn [_events _decisions].
    destruct (decide (rid = id)) as [->|Hne];
      rewrite ?lookup_insert_eq, ?lookup_insert_ne by done;
      eauto; apply Hinv.
  - unfold api_approval_question.
    destruct (Py.truthy rid); cbn [negb]; [|exact Hinv].
    cbn [fst]. intros id; cbn [_events _decisions].
    destruct (decide (rid = id)) as [->|Hne];
      rewrite ?lookup_insert_eq, ?lookup_insert_ne by done;
      [discriminate | apply Hinv].
  - unfold api_approval_answer.
    destruct (Py.truthy rid); cbn [negb]; [|exact Hinv].
    destruct (_events st !! rid) as [ev|] eqn:Hev; [|exact Hinv].
    cbn [fst]. intros id; cbn [_events _decisions].
    destruct (decide (rid = id)) as [->|Hne];
      rewrite ?lookup_insert_eq, ?lookup_insert_ne by done;
      eauto; apply Hinv.
Qed.

Lemma serve_all_keeps_signalled_decided cs : forall st,
  signalled_decided st ->
  signalled_decided (fst (serve_all permission_rules_service st cs)).
Proof.
  induction cs as [|c rest IH]; intros st Hinv; [exact Hinv|].
  cbn [serve_all].
  pose proof (serve_keeps_signalled_decided st c Hinv) as H1.
  destruct (serve permission_rules_service st c) as [st1 r].
  specialize (IH st1 H1).
  destruct (serve_all permission_rules_service st1 rest) as [st2 rs].
  exact IH.
Qed.

Lemma empty_signalled_decided p : signalled_decided (empty_state p).
Proof. intros id. unfold empty_state; cbn [_events]. now rewrite lookup_empty. Qed.

(** C4. In a broker state reached from the empty registry by any
    sequence of calls, the long-poll on a registered request without a
    recorded decision blocks for the whole bound of 300 seconds and then
    answers deny; and whenever the long-poll on a registered request
    returns, its pending entry, decision slot and event are gone. *)
Theorem wait_timeout_denies_and_purges (p : Provider.provider)
    (calls : list call) (request_id : string) :
  let st := fst (serve_all permission_rules_service (empty_state p) calls) in
  registered st request_id ->
  let r := api_approval_wait st request_id in
  purged (fst (fst r)) request_id
  /\ (_decisions st !! request_id = None ->
      snd (fst r) = Decision "deny" /\ snd r = WAIT_TIMEOUT
      /\ WAIT_TIMEOUT = (5 * 60)%Z).
Proof.
  intros st [ev Hev] r.
  pose proof (serve_all_keeps_signalled_decided calls _ (empty_signalled_decided p))
    as Hinv.
  fold st in Hinv. subst r. unfold api_approval_wait. rewrite Hev.
  split.
  - destruct (event_wait ev WAIT_TIMEOUT). cbn [fst].
    unfold purged. cbn [_pending _decisions _events].
    rewrite !lookup_delete_eq. auto.
  - intros Hnone. destruct ev.
    + destruct (Hinv _ Hev) as [d Hd]. congruence.
    + cbn [event_wait fst snd]. rewrite Hnone. auto.
Qed.

Lemma decide_then_wait (st : state) (request_id decision : string) :
  registered st request_id ->
  Py.truthy request_id = true ->
  decision ∈ ["allow"; "deny"] ->
  let st1 := fst (api_approval_decide st request_id decision) in
  snd (api_approval_decide st request_id decision) = Decided decision
  /\ _decisions st1 !! request_id = Some decision
  /\ api_approval_wait st1 request_id
     = (fst (fst (api_approval_wait st1 request_id)), Decision decision, 0%Z)
  /\ purged (fst (fst (api_approval_wait st1 request_id))) request_id
  /\ forall later : string,
       exists status error,
         api_approval_decide (fst (fst (api_approval_wait st1 request_id)))
           request_id later
         = (fst (fst (api_approval_wait st1 request_id)), Rejected status error).
Proof.
  intros [ev Hev] Hid Hvalid st1.
  assert (api_approval_decide st request_id decision
          = ({| _pending := _pending st;
                _decisions := <[request_id := decision]> (_decisions st);
                _events := <[request_id := true]> (_events st);
                provider := provider st1 |}, Decided decision)) as Hdec.
  { subst st1. unfold api_approval_decide. rewrite Hid. cbn [negb].
    rewrite (bool_decide_eq_true_2 _ Hvalid). cbn [negb]. rewrite Hev.
    reflexivity. }
  subst st1. rewrite Hdec. cbn [fst snd].
  unfold api_approval_wait. cbn [_events _decisions _pending provider].
  rewrite !lookup_insert_eq. cbn [event_wait fst snd default].
  repeat split; cbn [_pending _decisions _events]; try apply lookup_delete_eq.
  intros later. unfold api_approval_decide. rewrite Hid. cbn [negb].
  destruct (bool_decide (later ∈ ["allow"; "deny"])); cbn [negb].
  - cbn [_events]. rewrite lookup_delete_eq. eauto.
  - eauto.
Qed.

Lemma eqb_false_ne (r request_id : string) :
  String.eqb r request_id = false -> r <> request_id.
Proof. intros H ->. now rewrite String.eqb_refl in H. Qed.

(** One call that neither registers nor polls the id keeps it
    registered; it changes the slot exactly when it writes it, and then
    the event is set. *)
Lemma serve_slot (st : state) (request_id : string) (c : call) :
  registered st request_id ->
  Py.truthy request_id = true ->
  opens_or_closes request_id c = false ->
  registered (fst (serve permission_rules_service st c)) request_id
  /\ _decisions (fst (serve permission_rules_service st c)) !! request_id
     = match slot_write request_id c with
       | Some d => Some d
       | None => _decisions st !! request_id
       end
  /\ (is_Some (slot_write request_id c) \/ _events st !! request_id = Some true ->
      _events (fst (serve permission_rules_service st c)) !! request_id = Some true).
Proof.
  intros [ev Hev] Hid Hc.
  assert (Hsame : registered st request_id
                  /\ _decisions st !! request_id = _decisions st !! request_id
                  /\ (is_Some (@None string) \/ _events st !! request_id = Some true ->
                      _events st !! request_id = Some true)).
  { split; [now exists ev|]. split; [reflexivity|].
    intros [[? [=]] | H]; exact H. }
  destruct c as [r chat tool inp | r | r d | r chat qs | r a];
    cbn [serve slot_write opens_or_closes registers] in *.
  - apply eqb_false_ne in Hc. unfold api_approval_request, auto_allow.
    destruct (Py.truthy r); cbn [negb]; [|exact Hsame].
    destruct (rules_allow permission_rules_service tool inp);
      [|destruct (in_code_folder st chat tool inp)];
      cbn [fst _events _decisions]; unfold registered; cbn [_events];
      rewrite ?lookup_insert_ne by congruence;
      (split; [now exists ev|]); (split; [reflexivity|]);
      intros [[? [=]] | H]; exact H.
  - apply eqb_false_ne in Hc. unfold api_approval_wait.
    destruct (_events st !! r) as [e|]; [|exact Hsame].
    destruct (event_wait e WAIT_TIMEOUT) as [? blocked].
    cbn [fst _events _decisions]. unfold registered. cbn [_events].
    rewrite !lookup_delete_ne by congruence.
    split; [now exists ev|]. split; [reflexivity|].
    intros [[? [=]] | H]; exact H.
  - unfold api_approval_decide.
    destruct (String.eqb_spec r request_id) as [-> | Hne]; cbn [andb].
    + rewrite Hid. cbn [negb].
      destruct (bool_decide (d ∈ ["allow"; "deny"])); cbn [negb]; [|exact Hsame].
      rewrite Hev. cbn [fst _events _decisions]. unfold registered. cbn [_events].
      rewrite !lookup_insert_eq. split; [eauto|]. split; reflexivity.
    + destruct (Py.truthy r); cbn [negb]; [|exact Hsame].
      destruct (bool_decide (d ∈ ["allow"; "deny"])); cbn [negb]; [|exact Hsame].
      destruct (_events st !! r); [|exact Hsame].
      cbn [fst _events _decisions]. unfold registered. cbn [_events].
      rewrite !lookup_insert_ne by congruence.
      split; [now exists ev|]. split; [reflexivity|].
      intros [[? [=]] | H]; exact H.
  - apply eqb_false_ne in Hc. unfold api_approval_question.
    destruct (Py.truthy r); cbn [negb]; [|exact Hsame].
    cbn [fst _events _decisions]. unfold registered. cbn [_events].
    rewrite !lookup_insert_ne by congruence.
    split; [now exists ev|]. split; [reflexivity|].
    intros [[? [=]] | H]; exact H.
  - unfold api_approval_answer.
    destruct (String.eqb_spec r request_id) as [-> | Hne].
    + rewrite Hid, Hev. cbn [negb fst _events _decisions]. unfold registered.
      cbn [_events]. rewrite !lookup_insert_eq. split; [eauto|].
      split; reflexivity.
    + destruct (Py.truthy r); cbn [negb]; [|exact Hsame].
      destruct (_events st !! r); [|exact Hsame].
      cbn [fst _events _decisions]. unfold registered. cbn [_events].
      rewrite !lookup_insert_ne by congruence.
      split; [now exists ev|]. split; [reflexivity|].
      intros [[? [=]] | H]; exact H.
Qed.

Lemma serve_all_cons (st : state) (c : call) (cs : list call) :
  fst (serve_all permission_rules_service st (c :: cs))
  = fst (serve_all permission_rules_service
           (fst (serve permission_rules_service st c)) cs).
Proof.
  cbn [serve_all]. destruct (serve permission_rules_service st c) as [st1 r].
  cbn [fst]. now destruct (serve_all permission_rules_service st1 cs).
Qed.

Lemma last_write_written (request_id : string) (cs : list call) (d : string) :
  is_Some (last_write request_id cs (Some d)).
Proof.
  revert d. induction cs as [|c cs IH]; intros d; cbn [last_write]; [eauto|].
  destruct (slot_write request_id c); apply IH.
Qed.

Lemma serve_all_slot (request_id : string) (cs : list call) : forall st : state,
  registered st request_id ->
  Py.truthy request_id = true ->
  forallb (fun c => negb (opens_or_closes request_id c)) cs = true ->
  registered (fst (serve_all permission_rules_service st cs)) request_id
  /\ _decisions (fst (serve_all permission_rules_service st cs)) !! request_id
     = last_write request_id cs (_decisions st !! request_id)
  /\ (is_Some (last_write request_id cs None) \/ _events st !! request_id = Some true ->
      _events (fst (serve_all permission_rules_service st cs)) !! request_id
      = Some true).
Proof.
  induction cs as [|c cs IH]; intros st Hreg Hid Hcs.
  - cbn [serve_all fst last_write]. split; [exact Hreg|]. split; [reflexivity|].
    intros [[? [=]] | H]; exact H.
  - cbn [forallb] in Hcs. apply andb_prop in Hcs as [Hc Hcs].
    apply negb_true_iff in Hc.
    destruct (serve_slot st request_id c Hreg Hid Hc) as (Hreg1 & Hslot & Hset).
    destruct (IH _ Hreg1 Hid Hcs) as (Hreg2 & Hslot2 & Hset2).
    rewrite serve_all_cons. cbn [last_write].
    split; [exact Hreg2|]. split; [now rewrite Hslot2, Hslot|].
    intros H. apply Hset2.
    destruct (slot_write request_id c) as [d|] eqn:Hw.
    + right. apply Hset. left. eauto.
    + destruct H as [H | H]; [now left|]. right. apply Hset. now right.
Qed.

(** A call that does not register the id leaves a purged id purged. *)
Lemma serve_purged (st : state) (request_id : string) (c : call) :
  purged st request_id ->
  registers request_id c = false ->
  purged (fst (serve permission_rules_service st c)) request_id.
Proof.
  intros Hp Hc. pose proof Hp as (Hpend & Hdec & Hev).
  destruct c as [r chat tool inp | r | r d | r chat qs | r a];
    cbn [serve registers] in *.
  - apply eqb_false_ne in Hc. unfold api_approval_request, auto_allow.
    destruct (Py.truthy r); cbn [negb]; [|exact Hp].
    destruct (rules_allow permission_rules_service tool inp);
      [|destruct (in_code_folder st chat tool inp)];
      unfold purged; cbn [fst _pending _events _decisions];
      rewrite ?lookup_insert_ne by congruence; auto.
  - unfold api_approval_wait.
    destruct (_events st !! r) as [e|] eqn:He; [|exact Hp].
    destruct (event_wait e WAIT_TIMEOUT) as [? blocked].
    assert (r <> request_id) by congruence.
    unfold purged. cbn [fst _pending _events _decisions].
    rewrite !lookup_delete_ne by congruence. auto.
  - unfold api_approval_decide.
    destruct (Py.truthy r); cbn [negb]; [|exact Hp].
    destruct (bool_decide (d ∈ ["allow"; "deny"])); cbn [negb]; [|exact Hp].
    destruct (_events st !! r) as [e|] eqn:He; [|exact Hp].
    assert (r <> request_id) by congruence.
    unfold purged. cbn [fst _pending _events _decisions].
    rewrite !lookup_insert_ne by congruence. auto.
  - apply eqb_false_ne in Hc. unfold api_approval_question.
    destruct (Py.truthy r); cbn [negb]; [|exact Hp].
    unfold purged. cbn [fst _pending _events _decisions].
    rewrite !lookup_insert_ne by congruence. auto.
  - unfold api_approval_answer.
    destruct (Py.truthy r); cbn [negb]; [|exact Hp].
    destruct (_events st !! r) as [e|] eqn:He; [|exact Hp].
    assert (r <> request_id) by congruence.
    unfold purged. cbn [fst _pending _events _decisions].
    rewrite !lookup_insert_ne by congruence. auto.
Qed.

Lemma serve_all_purged (request_id : string) (cs : list call) : forall st : state,
  purged st request_id ->
  forallb (fun c => negb (registers request_id c)) cs = true ->
  purged (fst (serve_all permission_rules_service st cs)) request_id.
Proof.
  induction cs as [|c cs IH]; intros st Hp Hcs; [exact Hp|].
  cbn [forallb] in Hcs. apply andb_prop in Hcs as [Hc Hcs].
  apply negb_true_iff in Hc. rewrite serve_all_cons.
  apply IH; [|exact Hcs]. now apply serve_purged.
Qed.

(** C3, as amended.  The decision slot of a registered request is not
    write-once.  An accepted [decide] puts its decision in the slot
    whatever the slot held, and the long-poll that follows hands out
    that decision without blocking and removes the entry.  Over any
    calls that neither register nor poll the id, the slot holds the last
    value written by a well-formed [decide] or by an [answer] for the
    id (what it held before when there was none); the long-poll hands
    out that value, deny when the slot is empty, at once when anything
    was written, and removes the entry.  From then on, over any calls
    that do not register the id again, the id stays removed and every
    [decide] and [answer] for it is rejected and changes nothing; a new
    request under the same id registers it afresh, and [decide] is
    accepted again. *)
Theorem decide_last_write_wins (st : state) (request_id decision : string)
    (cs cs' : list call) :
  registered st request_id ->
  Py.truthy request_id = true ->
  decision ∈ ["allow"; "deny"] ->
  forallb (fun c => negb (opens_or_closes request_id c)) cs = true ->
  forallb (fun c => negb (registers request_id c)) cs' = true ->
  (let st1 := fst (api_approval_decide st request_id decision) in
   snd (api_approval_decide st request_id decision) = Decided decision
   /\ _decisions st1 !! request_id = Some decision
   /\ api_approval_wait st1 request_id
      = (fst (fst (api_approval_wait st1 request_id)), Decision decision, 0%Z)
   /\ purged (fst (fst (api_approval_wait st1 request_id))) request_id
   /\ forall later : string,
        exists status error,
          api_approval_decide (fst (fst (api_approval_wait st1 request_id)))
            request_id later
          = (fst (fst (api_approval_wait st1 request_id)), Rejected status error))
  /\ (let stn := fst (serve_all permission_rules_service st cs) in
      let slot := last_write request_id cs (_decisions st !! request_id) in
      let st2 := fst (fst (api_approval_wait stn request_id)) in
      let st3 := fst (serve_all permission_rules_service st2 cs') in
      _decisions stn !! request_id = slot
      /\ snd (fst (api_approval_wait stn request_id))
         = Decision (default "deny" slot)
      /\ (is_Some (last_write request_id cs None) ->
          snd (api_approval_wait stn request_id) = 0%Z)
      /\ purged st2 request_id
      /\ purged st3 request_id
      /\ (forall later : string,
            exists status error,
              api_approval_decide st3 request_id later
              = (st3, Rejected status error))
      /\ (forall text : string,
            exists status error,
              api_approval_answer st3 request_id text
              = (st3, Rejected status error))
      /\ (forall (chat_id tool : string) (inp : gmap string string) (d : string),
            d ∈ ["allow"; "deny"] ->
            snd (api_approval_decide
                   (fst (api_approval_request permission_rules_service st3
                           request_id chat_id tool inp))
                   request_id d)
            = Decided d)).
Proof.
  intros Hreg Hid Hvalid Hcs Hcs'.
  split; [exact (decide_then_wait st request_id decision Hreg Hid Hvalid)|].
  cbv zeta.
  destruct (serve_all_slot request_id cs st Hreg Hid Hcs) as ([ev Hev] & Hslot & Hset).
  set (stn := fst (serve_all permission_rules_service st cs)) in *.
  assert (Hwait : api_approval_wait stn request_id
                  = ({| _pending := delete request_id (_pending stn);
                        _decisions := delete request_id (_decisions stn);
                        _events := delete request_id (_events stn);
                        provider := provider stn |},
                     Decision (default "deny" (_decisions stn !! request_id)),
                     snd (event_wait ev WAIT_TIMEOUT))).
  { unfold api_approval_wait. rewrite Hev.
    now destruct (event_wait ev WAIT_TIMEOUT). }
  rewrite Hwait. cbn [fst snd].
  assert (Hp2 : purged {| _pending := delete request_id (_pending stn);
                          _decisions := delete request_id (_decisions stn);
                          _events := delete request_id (_events stn);
                          provider := provider stn |} request_id).
  { unfold purged. cbn [_pending _decisions _events].
    rewrite !lookup_delete_eq. auto. }
  pose proof (serve_all_purged request_id cs' _ Hp2 Hcs') as Hp3.
  set (st3 := fst (serve_all permission_rules_service _ cs')) in *.
  split; [exact Hslot|]. split; [now rewrite Hslot|].
  split.
  { intros Hw. assert (ev = true) as ->; [|reflexivity].
    specialize (Hset (or_introl Hw)). congruence. }
  split; [exact Hp2|]. split; [exact Hp3|].
  destruct Hp3 as (_ & _ & Hev3).
  split; [|split].
  - intros later. unfold api_approval_decide. rewrite Hid. cbn [negb].
    destruct (bool_decide (later ∈ ["allow"; "deny"])); cbn [negb];
      [rewrite Hev3|]; eauto.
  - intros text. unfold api_approval_answer. rewrite Hid, Hev3. cbn [negb]. eauto.
  - intros chat_id tool inp d Hd.
    assert (Hreg' : is_Some (_events (fst (api_approval_request
                       permission_rules_service st3 request_id chat_id tool inp))
                     !! request_id)).
    { unfold api_approval_request, auto_allow. rewrite Hid. cbn [negb].
      destruct (rules_allow permission_rules_service tool inp);
        [|destruct (in_code_folder st3 chat_id tool inp)];
        cbn [fst _events]; rewrite lookup_insert_eq; eauto. }
    destruct Hreg' as [e He]. unfold api_approval_decide. rewrite Hid.
    cbn [negb]. rewrite (bool_decide_eq_true_2 _ Hd). cbn [negb].
    rewrite He. reflexivity.
Qed.

End BrokerFacts.



(** A file outside the code folder is surfaced instead. *)
Example outside_code_folder_is_surfaced :
  snd (Broker.api_approval_request None Broker.sample_state "req-2" "chat-1"
         "Write" {[ "file_path" := "/etc/passwd" ]})
  = Broker.Registered "req-2" None.
Proof. vm_compute. reflexivity. Qed.

Lemma wait_timeout_denies_and_purges_witness :
  snd (fst (Broker.api_approval_wait Broker.sample_pending "req-1"))
    = Broker.Decision "deny"
  /\ snd (Broker.api_approval_wait Broker.sample_pending "req-1") = 300%Z.
Proof.
  destruct (wait_timeout_denies_and_purges None
              (Provider.set_code_folder Provider.sample_provider "chat-1" "/work/app")
              Broker.sample_calls "req-1") as [_ H].
  - vm_compute. eauto.
  - destruct H as (Hd & Hb & _); [vm_compute; reflexivity|].
    split; [exact Hd | exact Hb].
Defined.

Lemma decide_last_write_wins_witness :
  snd (fst (Broker.api_approval_wait
              (fst (Broker.serve_all None Broker.sample_pending
                      [Broker.CallDecide "req-1" "deny";
                       Broker.CallAnswer "req-1" "allow"]))
              "req-1"))
  = Broker.Decision "allow".
Proof.
  refine (proj1 (proj2 (proj2 (decide_last_write_wins None Broker.sample_pending
                                 "req-1" "deny"
                                 [Broker.CallDecide "req-1" "deny";
                                  Broker.CallAnswer "req-1" "allow"]
                                 [Broker.CallWait "req-1"] _ _ _ _ _)))).
  - vm_compute. eauto.
  - reflexivity.
  - apply list_elem_of_further, list_elem_of_here.
  - reflexivity.
  - reflexivity.
Defined.

(** C3 as stated fails: after [decide req-1 allow], a second
    [decide req-1 deny] replaces the recorded decision. *)
Lemma write_once_counterexample : ~ Broker.write_once.
Proof.
  intros H.
  specialize (H (fst (Broker.api_approval_decide Broker.sample_pending "req-1" "allow"))
                "req-1" "allow" "deny").
  vm_compute in H. specialize (H eq_refl). discriminate H.
Qed.

(** The scenario of the spec: register, decide allow, and the long-poll
    returns allow at once. *)
Example decide_then_wait_returns_allow :
  snd (fst (Broker.api_approval_wait
              (fst (Broker.api_approval_decide Broker.sample_pending "req-1" "allow"))
              "req-1")) = Broker.Decision "allow"
  /\ snd (Broker.api_approval_wait
            (fst (Broker.api_approval_decide Broker.sample_pending "req-1" "allow"))
            "req-1") = 0%Z.
Proof. vm_compute. split; reflexivity. Qed.

(** ** The consuming loop and the run *)

Section RunFacts.

Import Provider.

Variable json_loads : string -> json_value.
Variable mcp_cfg : string.

Lemma after_nil r : after [] r = r.
Proof. destruct r as [[t ls] ex]. reflexivity. Qed.

Lemma after_after a1 a2 r : after a1 (after a2 r) = after (a1 ++ a2) r.
Proof. destruct r as [[t ls] ex]. unfold after. now rewrite app_assoc. Qed.

Lemma after_inv acts r t ls ex :
  after acts r = (t, ls, ex) -> exists t1, r = (t1, ls, ex) /\ t = acts ++ t1.
Proof.
  destruct r as [[t1 ls1] ex1]. unfold after. intros [= <- <- <-]. eauto.
Qed.

Lemma loop_body_continue chat_id item ls acts ls1 :
  loop_body json_loads chat_id item ls = Continue acts ls1 ->
  forallb plain acts = true
  /\ forallb (fun a => negb (is_spawn a) && negb (is_compact a)) acts = true
  /\ was_cancelled ls1 = was_cancelled ls.
Proof.
  destruct item as [line|line| | |ev|]; cbn [loop_body].
  - destruct (Py.truthy line); cbn [negb]; [|intros [= <- <-]; auto].
    destruct (json_loads line) as [| |ev]; try discriminate.
    + intros [= <- <-]. auto.
    + destruct (bool_decide (ev !! "type" = Some "result"));
        [destruct (Py.truthy (Py.get ev "session_id") && Py.truthy chat_id)|];
        intros [= <- <-]; cbn [add_stdout stdin_closed];
        destruct (stdin_closed ls); auto.
  - destruct (Py.truthy line); cbn [negb]; intros [= <- <-]; auto.
  - intros [= <- <-]; auto.
  - intros [= <- <-]; auto.
  - intros [= <- <-]; auto.
  - discriminate.
Qed.

Lemma loop_body_leave chat_id item ls acts ls1 ex :
  loop_body json_loads chat_id item ls = Leave acts ls1 ex ->
  (item = QCancel /\ acts = [Yield (YEvent Cancelled)]
   /\ ls1 = set_cancelled ls /\ ex = CancelSeen)
  \/ (acts = [] /\ ex = AttributeError /\ was_cancelled ls1 = was_cancelled ls).
Proof.
  destruct item as [line|line| | |ev|]; cbn [loop_body]; try discriminate.
  - destruct (Py.truthy line); cbn [negb]; [|discriminate].
    destruct (json_loads line) as [| |ev]; try discriminate.
    + intros [= <- <- <-]. right. auto.
    + destruct (bool_decide (ev !! "type" = Some "result"));
        [destruct (Py.truthy (Py.get ev "session_id") && Py.truthy chat_id)|];
        discriminate.
  - destruct (Py.truthy line); discriminate.
  - intros [= <- <- <-]. left. auto.
Qed.

(** A prefix that the loop consumes whole while it keeps waiting is
    followed by the loop on the rest of the queue. *)
Lemma consume_app chat_id pre : forall q ls t ls1,
  consume json_loads chat_id pre ls = (t, ls1, Starved) ->
  consume json_loads chat_id (pre ++ q) ls
  = after t (consume json_loads chat_id q ls1).
Proof.
  induction pre as [|item pre IH]; intros q ls t ls1; cbn [consume app].
  - destruct (out_done ls && err_done ls) eqn:Hdone; [discriminate|].
    intros [= <- <-]. rewrite after_nil.
    destruct q; cbn [consume]; rewrite Hdone; reflexivity.
  - destruct (out_done ls && err_done ls); [discriminate|].
    destruct (loop_body json_loads chat_id item ls) as [acts ls2|acts ls2 ex]
      eqn:Hbody.
    + intros H. apply after_inv in H as (t1 & H & ->).
      rewrite (IH q _ _ _ H). apply after_after.
    + intros [= <- <- ->].
      apply loop_body_leave in Hbody as [(_ & _ & _ & ?) | (_ & ? & _)];
        discriminate.
Qed.

(** The trace of the loop: plain actions, closed by the cancelled event
    exactly when the loop is left on the sentinel. *)
Lemma consume_shape chat_id q : forall ls t ls1 ex,
  consume json_loads chat_id q ls = (t, ls1, ex) ->
  (ex = CancelSeen /\ was_cancelled ls1 = true
   /\ exists t0, t = t0 ++ [Yield (YEvent Cancelled)] /\ forallb plain t0 = true)
  \/ (ex <> CancelSeen /\ was_cancelled ls1 = was_cancelled ls
      /\ forallb plain t = true).
Proof.
  induction q as [|item q IH]; intros ls t ls1 ex; cbn [consume].
  - destruct (out_done ls && err_done ls); intros [= <- <- <-]; right; auto.
  - destruct (out_done ls && err_done ls); [intros [= <- <- <-]; right; auto|].
    destruct (loop_body json_loads chat_id item ls) as [acts ls2|acts ls2 ex2]
      eqn:Hbody.
    + apply loop_body_continue in Hbody as (Hplain & _ & Hwc).
      intros H. apply after_inv in H as (t1 & H & ->).
      apply IH in H as [(-> & Hc & t0 & -> & Ht0) | (Hne & Hc & Ht1)].
      * left. repeat split; [exact Hc|].
        exists (acts ++ t0). rewrite forallb_app, Hplain, Ht0, app_assoc. auto.
      * right. rewrite forallb_app, Hplain, Ht1. split; [exact Hne|].
        split; [congruence | reflexivity].
    + intros [= <- <- <-].
      apply loop_body_leave in Hbody
        as [(_ & -> & -> & ->) | (-> & -> & Hwc)].
      * left. repeat split. exists []. auto.
      * right. repeat split; [discriminate | exact Hwc].
Qed.



Lemma forallb_weaken {A} (f g : A -> bool) (l : list A) :
  (forall x, f x = true -> g x = true) ->
  forallb f l = true -> forallb g l = true.
Proof.
  intros Hfg. induction l as [|x l IH]; cbn [forallb]; [reflexivity|].
  intros H. apply andb_prop in H as [Hx Hl]. now rewrite (Hfg _ Hx), IH.
Qed.


Lemma plain_not_cancelled a : plain a = true -> negb (is_cancelled a) = true.
Proof. unfold plain. intros H. now apply andb_prop in H as [H _]. Qed.





Lemma spawns_app t1 t2 : spawns (t1 ++ t2) = spawns t1 + spawns t2.
Proof. unfold spawns. now rewrite List.filter_app, List.length_app. Qed.


Lemma teardown_quiet a p chat_id ls :
  forallb quiet (fst (teardown a p chat_id ls)) = true
  /\ forallb plain (fst (teardown a p chat_id ls)) = true.
Proof.
  unfold teardown.
  destruct (was_cancelled ls), (a_exits_in_grace a), (Py.truthy chat_id),
    (stdin_closed ls); split; reflexivity.
Qed.

Lemma no_stdout_error_plain a ls : forallb plain (no_stdout_error a ls) = true.
Proof.
  unfold no_stdout_error. destruct (got_result ls), (stdout_lines ls); reflexivity.
Qed.

Lemma registered_session_map p chat_id :
  _session_map (if Py.truthy chat_id then register_run p chat_id else p)
  = _session_map p.
Proof. destruct (Py.truthy chat_id); reflexivity. Qed.


Lemma prompt_too_long_signature ls is_retry chat_id claude_session :
  prompt_too_long ls is_retry chat_id claude_session = true ->
  too_large_signature ls = true /\ is_retry = false /\ got_result ls = false.
Proof.
  unfold prompt_too_long, too_large_signature. intros H.
  repeat (apply andb_prop in H as [H ?]).
  destruct is_retry, (got_result ls); try discriminate. auto.
Qed.













Lemma cancel_terminal_skip t1 t2 :
  forallb (fun a => negb (is_cancelled a)) t1 = true ->
  cancel_terminal (t1 ++ t2) = cancel_terminal t2.
Proof.
  induction t1 as [|a t1 IH]; cbn [forallb app cancel_terminal]; [reflexivity|].
  intros H. apply andb_prop in H as [Ha Ht1].
  destruct (is_cancelled a); [discriminate | auto].
Qed.

Lemma cancel_terminal_none t :
  forallb (fun a => negb (is_cancelled a)) t = true -> cancel_terminal t = true.
Proof.
  intros H. rewrite <- (app_nil_r t). now rewrite cancel_terminal_skip.
Qed.

Lemma quiet_not_cancelled a : quiet a = true -> negb (is_cancelled a) = true.
Proof. destruct a as [[[]| |]| | | | | | |]; cbn; congruence. Qed.

Lemma cancel_terminal_spec t :
  cancel_terminal t = true ->
  forall t1 t2,
    t = t1 ++ Yield (YEvent Cancelled) :: t2 ->
    forallb (fun a => negb (is_cancelled a)) t1 = true
    /\ forallb quiet t2 = true.
Proof.
  intros Ht t1. revert t Ht.
  induction t1 as [|b t1 IH]; intros t Ht t2 ->; cbn [app] in Ht.
  - cbn [cancel_terminal is_cancelled] in Ht. auto.
  - cbn [cancel_terminal] in Ht. cbn [forallb].
    destruct (is_cancelled b) eqn:Hb.
    + rewrite forallb_app in Ht. apply andb_prop in Ht as [_ Ht].
      cbn [forallb quiet is_yield negb andb] in Ht. discriminate.
    + destruct (IH _ Ht t2 eq_refl) as [H1 H2]. rewrite H1. auto.
Qed.

(** While the loop is [Starved] it has not seen both end-of-file
    markers. *)
Lemma consume_starved_waiting chat_id q : forall ls t ls1,
  consume json_loads chat_id q ls = (t, ls1, Starved) ->
  out_done ls1 && err_done ls1 = false.
Proof.
  induction q as [|item q IH]; intros ls t ls1; cbn [consume].
  - destruct (out_done ls && err_done ls) eqn:Hdone; [discriminate|].
    now intros [= _ <-].
  - destruct (out_done ls && err_done ls); [discriminate|].
    destruct (loop_body json_loads chat_id item ls) as [acts ls2|acts ls2 ex]
      eqn:Hbody.
    + intros H. apply after_inv in H as (t1 & H & _). eauto.
    + intros [= _ _ ->].
      apply loop_body_leave in Hbody as [(_ & _ & _ & ?) | (_ & ? & _)];
        discriminate.
Qed.

(** In the trace of any run, a cancelled event is followed by quiet
    actions only. *)
Lemma run_cancel_terminal (script : list attempt) : forall (p : provider)
    (prompt workspace model chat_id orig : string)
    (images : list (gmap string string)) (is_retry : bool),
  cancel_terminal
    (fst (fst (_run_stream_impl json_loads mcp_cfg script p prompt workspace
                 model chat_id images is_retry orig))) = true.
Proof.
  induction script as [|a later IH]; intros p prompt workspace model chat_id
    orig images is_retry; [reflexivity|].
  cbn [_run_stream_impl].
  destruct (a_spawn a); [|reflexivity].
  destruct (a_stdin_write a); [reflexivity|].
  rewrite registered_session_map.
  destruct (consume json_loads chat_id (a_queue a) (loop_start (_session_map p)))
    as [[t ls] ex] eqn:Hloop.
  pose proof (teardown_quiet a (if Py.truthy chat_id then register_run p chat_id else p)
                chat_id ls) as [Hquiet Hfin].
  apply (forallb_weaken _ _ _ plain_not_cancelled) in Hfin.
  destruct (teardown a (if Py.truthy chat_id then register_run p chat_id else p)
              chat_id ls) as [fin p1].
  cbn [fst] in Hquiet, Hfin.
  pose proof (forallb_weaken _ _ _ plain_not_cancelled (no_stdout_error_plain a ls))
    as Herr.
  cbn [app cancel_terminal is_cancelled].
  destruct (consume_shape _ _ _ _ _ _ Hloop)
    as [(-> & Hwc & t0 & -> & Ht0) | (Hne & Hwc & Ht)].
  - rewrite Hwc. cbn [fst app cancel_terminal is_cancelled].
    apply (forallb_weaken _ _ _ plain_not_cancelled) in Ht0.
    rewrite <- app_assoc, cancel_terminal_skip by exact Ht0.
    cbn [app cancel_terminal is_cancelled]. exact Hquiet.
  - cbn [loop_start was_cancelled] in Hwc.
    apply (forallb_weaken _ _ _ plain_not_cancelled) in Ht.
    rewrite Hwc.
    destruct ex; [|contradiction| |]; cbn [fst].
    + destruct (prompt_too_long ls is_retry chat_id
                  (Py.get (_session_map p) chat_id)).
      * destruct (a_compact_ok a).
        -- specialize (IH p1 prompt workspace model chat_id "" images true).
           destruct (_run_stream_impl json_loads mcp_cfg later p1 prompt
                       workspace model chat_id images true "") as [[t' p'] ex'].
           cbn [fst app cancel_terminal is_cancelled] in *.
           rewrite cancel_terminal_skip by exact Ht.
           rewrite cancel_terminal_skip by exact Hfin. exact IH.
        -- specialize (IH (with_session_map p1 (delete chat_id (_session_map p1)))
                         prompt workspace model chat_id "" images true).
           destruct (_run_stream_impl json_loads mcp_cfg later
                       (with_session_map p1 (delete chat_id (_session_map p1)))
                       prompt workspace model chat_id images true "")
             as [[t' p'] ex'].
           cbn [fst app cancel_terminal is_cancelled] in *.
           rewrite cancel_terminal_skip by exact Ht.
           rewrite cancel_terminal_skip by exact Hfin. exact IH.
      * cbn [fst app cancel_terminal is_cancelled]. apply cancel_terminal_none.
        rewrite !forallb_app, Ht, Hfin, Herr. reflexivity.
    + cbn [app cancel_terminal is_cancelled]. apply cancel_terminal_none.
      rewrite !forallb_app, Ht, Hfin. reflexivity.
    + cbn [app cancel_terminal is_cancelled]. apply cancel_terminal_none.
      exact Ht.
Qed.

Lemma filter_cancelled_none t :
  forallb (fun a => negb (is_cancelled a)) t = true ->
  List.filter is_cancelled t = [].
Proof.
  induction t as [|a t IH]; cbn [forallb List.filter]; [reflexivity|].
  intros H. apply andb_prop in H as [Ha Ht].
  destruct (is_cancelled a); [discriminate | auto].
Qed.

(** C5. In the trace of every run, a cancelled event is preceded by no
    other cancelled event and followed by quiet actions only: nothing
    more is yielded (no recovery event, no error event), no compaction
    is run and nothing is spawned.  And when the consuming loop takes a
    cancellation sentinel off the queue, whatever end-of-file markers
    it has or has not seen, the run yields the cancelled event at that
    point, exactly once, leaves the rest of the queue alone and
    returns. *)
Theorem cancel_sentinel_is_terminal (script : list attempt) (p : provider)
    (prompt workspace model chat_id orig : string)
    (images : list (gmap string string)) (is_retry : bool) :
  let r := _run_stream_impl json_loads mcp_cfg script p prompt workspace model
             chat_id images is_retry orig in
  (forall t1 t2,
     fst (fst r) = t1 ++ Yield (YEvent Cancelled) :: t2 ->
     forallb (fun a => negb (is_cancelled a)) t1 = true
     /\ forallb quiet t2 = true)
  /\ (forall a later pre rest t ls,
        script = a :: later ->
        a_spawn a = SpawnOk ->
        a_stdin_write a = None ->
        a_queue a = pre ++ QCancel :: rest ->
        consume json_loads chat_id pre (loop_start (_session_map p))
          = (t, ls, Starved) ->
        snd r = Returned
        /\ length (List.filter is_cancelled (fst (fst r))) = 1
        /\ exists fin,
             fst (fst r)
             = [Yield (YEvent (Debug (build_cmd mcp_cfg (claude_cli p) model
                                        (Py.get (_session_map p) chat_id))));
                Spawn (build_cmd mcp_cfg (claude_cli p) model
                         (Py.get (_session_map p) chat_id)) workspace;
                WriteStdin (content_blocks images prompt)]
               ++ t ++ Yield (YEvent Cancelled) :: fin
             /\ forallb plain t = true
             /\ forallb quiet fin = true).
Proof.
  intros r. split.
  - apply cancel_terminal_spec. apply run_cancel_terminal.
  - intros a later pre rest t ls -> Hspawn Hwrite Hq Hpre. subst r.
    cbn [_run_stream_impl].
    rewrite Hspawn, Hwrite, registered_session_map, Hq.
    rewrite (consume_app _ _ _ _ _ _ Hpre). cbn [consume].
    rewrite (consume_starved_waiting _ _ _ _ _ Hpre). cbn [loop_body after].
    pose proof (teardown_quiet a
                  (if Py.truthy chat_id then register_run p chat_id else p)
                  chat_id (set_cancelled ls)) as [Hquiet _].
    destruct (teardown a (if Py.truthy chat_id then register_run p chat_id else p)
                chat_id (set_cancelled ls)) as [fin p1].
    cbn [fst] in Hquiet. cbn [set_cancelled was_cancelled fst snd].
    destruct (consume_shape _ _ _ _ _ _ Hpre) as [(? & _) | (_ & _ & Hplain)];
      [discriminate|].
    split; [reflexivity|]. split.
    + cbn [app List.filter is_cancelled].
      rewrite <- app_assoc, !List.filter_app.
      rewrite (filter_cancelled_none t)
        by exact (forallb_weaken _ _ _ plain_not_cancelled Hplain).
      rewrite (filter_cancelled_none fin)
        by exact (forallb_weaken _ _ _ quiet_not_cancelled Hquiet).
      reflexivity.
    + exists fin. rewrite <- app_assoc. auto.
Qed.

(** C7, as amended. When the loop takes a result line off the queue, it
    writes the reported session id into the session map and saves the
    map exactly when the id is non-empty and the run has a non-empty
    chat id; the save comes first, then stdin is closed if it is still
    open, then the line is yielded. *)
Theorem result_event_persists_session (chat_id line : string)
    (ev : gmap string string) (rest : list qitem) (ls : loop_state) :
  out_done ls && err_done ls = false ->
  Py.truthy line = true ->
  json_loads line = JObject ev ->
  ev !! "type" = Some "result" ->
  let sid := Py.get ev "session_id" in
  let persisted := Py.truthy sid && Py.truthy chat_id in
  let m := if persisted then <[chat_id := sid]> (sessions ls) else sessions ls in
  let acts :=
    (if persisted then [SaveSessions m] else [])
      ++ close_stdin_if_open (stdin_closed ls) ++ [Yield (YLine line)] in
  consume json_loads chat_id (QOut line :: rest) ls
  = after acts (consume json_loads chat_id rest (set_result (add_stdout ls line) m))
  /\ existsb is_save acts = persisted
  /\ sessions (set_result (add_stdout ls line) m) = m
  /\ stdin_closed (set_result (add_stdout ls line) m) = true.
Proof.
  intros Hrun Hline Hev Htype sid persisted m acts.
  subst acts m persisted sid. cbn [consume]. rewrite Hrun.
  cbn [loop_body]. rewrite Hline. cbn [negb]. rewrite Hev.
  rewrite (bool_decide_eq_true_2 _ Htype).
  destruct (Py.truthy (Py.get ev "session_id") && Py.truthy chat_id);
    cbn [add_stdout stdin_closed sessions set_result];
    destruct (stdin_closed ls); repeat split.
Qed.

(** C9, as amended. A stderr line that the loop takes off the queue is
    yielded as an error event when it is not empty, and recorded; an
    empty one is skipped. *)
Theorem stderr_line_surfaced (chat_id line : string) (pre rest : list qitem)
    (ls ls1 : loop_state) (t : list action) :
  consume json_loads chat_id pre ls = (t, ls1, Starved) ->
  consume json_loads chat_id (pre ++ QErr line :: rest) ls
  = (if Py.truthy line
     then after (t ++ [Yield (YEvent (Error (ErrStderr line)))])
                (consume json_loads chat_id rest (add_stderr ls1 line))
     else after t (consume json_loads chat_id rest ls1))
  /\ (Py.truthy line = true ->
      In (Yield (YEvent (Error (ErrStderr line))))
         (fst (fst (consume json_loads chat_id (pre ++ QErr line :: rest) ls)))).
Proof.
  intros Hpre.
  assert (consume json_loads chat_id (pre ++ QErr line :: rest) ls
          = (if Py.truthy line
             then after (t ++ [Yield (YEvent (Error (ErrStderr line)))])
                    (consume json_loads chat_id rest (add_stderr ls1 line))
             else after t (consume json_loads chat_id rest ls1))) as Heq.
  { rewrite (consume_app _ _ _ _ _ _ Hpre). cbn [consume].
    rewrite (consume_starved_waiting _ _ _ _ _ Hpre). cbn [loop_body].
    destruct (Py.truthy line); cbn [negb];
      [now rewrite after_after | now rewrite after_nil]. }
  split; [exact Heq|]. intros Hline. rewrite Heq, Hline.
  destruct (consume json_loads chat_id rest (add_stderr ls1 line)) as [[t2 ls2] ex2].
  cbn [after fst]. rewrite !in_app_iff. cbn [In]. auto.
Qed.

End RunFacts.

(** ** Scenarios of the run *)

Lemma cancel_sentinel_is_terminal_witness :
  let r := Provider._run_stream_impl Provider.sample_json_loads "{}"
             [Provider.cancelled_attempt] Provider.sample_provider "hello"
             "/work/app" "" "chat-1" [] false "hello" in
  snd r = Provider.Returned
  /\ length (List.filter Provider.is_cancelled (fst (fst r))) = 1.
Proof.
  intros r.
  destruct (cancel_sentinel_is_terminal Provider.sample_json_loads "{}"
              [Provider.cancelled_attempt] Provider.sample_provider "hello"
              "/work/app" "" "chat-1" "hello" [] false) as [_ H].
  destruct (H Provider.cancelled_attempt []
              [Provider.QOut "event:assistant"; Provider.QErr "warning"]
              [Provider.QErr "late"; Provider.QOutEof; Provider.QErrEof]
              [Provider.Yield (Provider.YLine "event:assistant");
               Provider.Yield (Provider.YEvent
                                 (Provider.Error (Provider.ErrStderr "warning")))]
              (Provider.add_stderr
                 (Provider.add_stdout (Provider.loop_start ∅) "event:assistant")
                 "warning")
              eq_refl eq_refl eq_refl eq_refl) as (Hret & Hone & _).
  - vm_compute. reflexivity.
  - split; [exact Hret | exact Hone].
Defined.

(** Both end-of-file markers and no sentinel: the loop ends normally and
    no cancelled event is yielded. *)
Example eof_without_cancel :
  let r := Provider.sample_run
             [Provider.sample_attempt
                [Provider.QOut "event:assistant"; Provider.QOutEof; Provider.QErrEof]]
             Provider.sample_provider "chat-1" in
  snd r = Provider.Returned
  /\ List.filter Provider.is_cancelled (fst (fst r)) = []
  /\ List.filter Provider.is_yield (skipn 1 (fst (fst r)))
     = [Provider.Yield (Provider.YLine "event:assistant")].
Proof. vm_compute. repeat split. Qed.

(** A line queued behind the sentinel is never consumed. *)
Example cancelled_run_yields :
  List.filter Provider.is_yield
    (skipn 1 (fst (fst (Provider.sample_run [Provider.cancelled_attempt]
                          Provider.sample_provider "chat-1"))))
  = [Provider.Yield (Provider.YLine "event:assistant");
     Provider.Yield (Provider.YEvent (Provider.Error (Provider.ErrStderr "warning")));
     Provider.Yield (Provider.YEvent Provider.Cancelled)].
Proof. vm_compute. reflexivity. Qed.



(** A first run over a too-large session compacts once, retries, and the
    retry, failing the same way, ends on the plain error. *)
Example too_long_twice :
  let r := Provider.sample_run
             [Provider.too_long_attempt; Provider.too_long_attempt;
              Provider.too_long_attempt]
             Provider.sample_session_provider "chat-1" in
  snd r = Provider.Returned
  /\ Provider.compactions (fst (fst r)) = 1
  /\ Provider.spawns (fst (fst r)) = 2
  /\ List.last (fst (fst r)) Provider.CloseStdin
     = Provider.Yield (Provider.YEvent (Provider.Error
         (Provider.ErrNoStdout 0 "Error: Prompt is too long"))).
Proof. vm_compute. repeat split. Qed.

Lemma result_event_persists_session_witness :
  existsb Provider.is_save
    (fst (fst (Provider.consume Provider.sample_json_loads "chat-1"
                 [Provider.QOut "result:s1"] (Provider.loop_start ∅)))) = true.
Proof.
  destruct (result_event_persists_session Provider.sample_json_loads "chat-1"
              "result:s1" {[ "type" := "result"; "session_id" := "s1" ]} []
              (Provider.loop_start ∅)) as (Heq & _).
  - reflexivity.
  - reflexivity.
  - vm_compute. reflexivity.
  - vm_compute. reflexivity.
  - rewrite Heq. vm_compute. reflexivity.
Defined.

(** C7 as stated fails: with an empty chat id, a result event that
    reports the session id [s1] saves nothing. *)
Lemma saved_iff_reported_counterexample :
  ~ Provider.saved_iff_reported Provider.sample_json_loads.
Proof.
  intros H.
  specialize (H "" "result:s1" {[ "type" := "result"; "session_id" := "s1" ]}
                (Provider.loop_start ∅)).
  vm_compute in H.
  destruct (H eq_refl eq_refl eq_refl eq_refl) as [H1 _].
  specialize (H1 eq_refl). discriminate H1.
Qed.

(** The same on a whole run: nothing is saved and the session map stays
    empty. *)
Example run_without_chat_id_saves_nothing :
  let r := Provider.sample_run
             [Provider.sample_attempt
                [Provider.QOut "result:s1"; Provider.QOutEof; Provider.QErrEof]]
             Provider.sample_provider "" in
  snd r = Provider.Returned
  /\ existsb Provider.is_save (fst (fst r)) = false
  /\ Provider._session_map (snd (fst r)) = ∅.
Proof. vm_compute. repeat split. Qed.

Lemma stderr_line_surfaced_witness :
  In (Provider.Yield (Provider.YEvent (Provider.Error (Provider.ErrStderr "warning"))))
     (fst (fst (Provider.consume Provider.sample_json_loads "chat-1"
                  ([Provider.QOut "event:assistant"]
                     ++ Provider.QErr "warning"
                     :: [Provider.QOutEof; Provider.QErrEof])
                  (Provider.loop_start ∅)))).
Proof.
  refine (proj2 (stderr_line_surfaced Provider.sample_json_loads "chat-1"
                   "warning" [Provider.QOut "event:assistant"]
                   [Provider.QOutEof; Provider.QErrEof] (Provider.loop_start ∅)
                   (Provider.add_stdout (Provider.loop_start ∅) "event:assistant")
                   [Provider.Yield (Provider.YLine "event:assistant")] _) _).
  - vm_compute. reflexivity.
  - reflexivity.
Defined.

(** C9 as stated fails: an empty stderr line is taken off the queue and
    no error event is yielded for it. *)
Lemma stderr_always_surfaced_counterexample :
  ~ Provider.stderr_always_surfaced Provider.sample_json_loads.
Proof.
  intros H.
  specialize (H "chat-1" "" [Provider.QOutEof; Provider.QErrEof]
                (Provider.loop_start ∅) eq_refl).
  vm_compute in H. exact H.
Qed.

(** * Further properties *)

(** ** The rule engine and its store *)

Section RuleStoreFacts.

Variable shlex_split : string -> option (list string).
Variable fnmatch : string -> string -> bool.

Import PermissionRules.

Lemma check_by_passes rules tool inp :
  check shlex_split fnmatch rules tool inp
  = if check_action shlex_split fnmatch "deny" rules tool inp then "deny"
    else if check_action shlex_split fnmatch "allow" rules tool inp then "allow"
    else "ask".
Proof. reflexivity. Qed.

Lemma check_allow_rule rules tool inp :
  check shlex_split fnmatch rules tool inp = "allow" ->
  exists r, In r rules /\ r !! "action" = Some "allow"
            /\ _matches shlex_split fnmatch r tool inp = true.
Proof.
  rewrite check_by_passes.
  destruct (check_action shlex_split fnmatch "deny" rules tool inp);
    [discriminate|].
  destruct (check_action shlex_split fnmatch "allow" rules tool inp) eqn:Ha;
    [|discriminate].
  intros _. now apply check_action_spec.
Qed.

(** X1. The verdict of [check], in full: deny exactly when some deny
    rule matches the call; allow exactly when no deny rule matches and
    some allow rule does; ask exactly when neither kind matches. *)
Theorem check_verdict (rules : list (gmap string string)) (tool : string)
    (inp : gmap string string) :
  let hit action :=
    exists r, In r rules /\ r !! "action" = Some action
              /\ _matches shlex_split fnmatch r tool inp = true in
  (check shlex_split fnmatch rules tool inp = "deny" <-> hit "deny")
  /\ (check shlex_split fnmatch rules tool inp = "allow"
      <-> ~ hit "deny" /\ hit "allow")
  /\ (check shlex_split fnmatch rules tool inp = "ask"
      <-> ~ hit "deny" /\ ~ hit "allow").
Proof.
  intros hit. subst hit. cbv beta. rewrite check_by_passes.
  rewrite <- !check_action_spec.
  destruct (check_action shlex_split fnmatch "deny" rules tool inp),
    (check_action shlex_split fnmatch "allow" rules tool inp);
    repeat split; try discriminate; try tauto; intros [? ?]; try tauto;
    try discriminate; exfalso; auto.
Qed.

Lemma check_action_ext action rules1 rules2 tool inp :
  (forall r, In r rules1 <-> In r rules2) ->
  check_action shlex_split fnmatch action rules1 tool inp
  = check_action shlex_split fnmatch action rules2 tool inp.
Proof.
  intros Hsame.
  pose proof (check_action_spec shlex_split fnmatch action rules1 tool inp) as S1.
  pose proof (check_action_spec shlex_split fnmatch action rules2 tool inp) as S2.
  destruct (check_action shlex_split fnmatch action rules1 tool inp),
    (check_action shlex_split fnmatch action rules2 tool inp);
    try reflexivity.
  - destruct (proj1 S1 eq_refl) as (r & Hin & H).
    symmetry. apply S2. exists r. split; [apply Hsame|]; auto.
  - destruct (proj1 S2 eq_refl) as (r & Hin & H).
    apply S1. exists r. split; [apply Hsame|]; auto.
Qed.

(** X2. The verdict depends on which rules are present only: two rule
    lists with the same members, in any order and with any repetition,
    give every call the same verdict. *)
Theorem check_same_members (rules1 rules2 : list (gmap string string))
    (tool : string) (inp : gmap string string) :
  (forall r, In r rules1 <-> In r rules2) ->
  check shlex_split fnmatch rules1 tool inp
  = check shlex_split fnmatch rules2 tool inp.
Proof.
  intros Hsame. rewrite !check_by_passes.
  now rewrite !(check_action_ext _ rules1 rules2 tool inp Hsame).
Qed.

(** X3. A prefix rule for the call's tool, on a command from which no
    first token comes out (the split fails or gives no word), matches
    exactly when its pattern is the empty string. *)
Theorem prefix_rule_on_unsplit_command (r inp : gmap string string)
    (tool : string) :
  r !! "tool" = Some tool ->
  r !! "match_type" = Some "prefix" ->
  shlex_split (Py.strip (Py.get inp "command")) = None
  \/ shlex_split (Py.strip (Py.get inp "command")) = Some [] ->
  _matches shlex_split fnmatch r tool inp = true <-> Py.get r "pattern" = "".
Proof.
  intros Htool Hmt Hsplit. unfold _matches.
  rewrite (bool_decide_eq_true_2 _ Htool). cbn [negb]. rewrite Hmt.
  rewrite bool_decide_eq_false_2 by discriminate.
  rewrite bool_decide_eq_true_2 by reflexivity. cbv zeta.
  unfold suggest_bash_pattern.
  assert (forall x : option string,
            match shlex_split (Py.strip (Py.get inp "command")) with
            | Some (p :: _) => x
            | _ => None
            end = None) as Hnone by (intros x; destruct Hsplit as [-> | ->]; auto).
  destruct (Py.truthy (Py.strip (Py.get inp "command"))); cbn [negb].
  - destruct Hsplit as [-> | ->]; rewrite String.eqb_eq; split; congruence.
  - destruct Hsplit as [-> | ->]; rewrite String.eqb_eq; split; congruence.
Qed.

Lemma dangerous_base_of_matching_prefix (r inp : gmap string string)
    (p : string) (ps : list string) :
  shlex_split (Py.strip (Py.get inp "command")) = Some (p :: ps) ->
  Py.basename p ∈ DANGEROUS ->
  r !! "match_type" = Some "prefix" ->
  _matches shlex_split fnmatch r "Bash" inp = true ->
  Py.get r "pattern" ∈ DANGEROUS.
Proof.
  intros Hsplit Hd Hmt. unfold _matches.
  destruct (bool_decide (r !! "tool" = Some "Bash")); cbn [negb]; [|discriminate].
  rewrite Hmt. rewrite bool_decide_eq_false_2 by discriminate.
  rewrite bool_decide_eq_true_2 by reflexivity. cbv zeta.
  rewrite (suggest_none_of_dangerous shlex_split _ _ _ Hsplit Hd), Hsplit.
  intros H. apply String.eqb_eq in H. now rewrite <- H.
Qed.

(** X4. For a [Bash] call whose command starts with a dangerous base
    name, no rule list in which every allow rule for [Bash] is a prefix
    rule with a pattern outside the dangerous set answers allow; the
    seed rules are such a list, so they never auto-allow such a call. *)
Theorem dangerous_never_auto_allowed (inp : gmap string string) (p : string)
    (ps : list string) :
  shlex_split (Py.strip (Py.get inp "command")) = Some (p :: ps) ->
  Py.basename p ∈ DANGEROUS ->
  (forall rules,
     forallb RulesStore.spares_dangerous rules = true ->
     check shlex_split fnmatch rules "Bash" inp <> "allow")
  /\ check shlex_split fnmatch _DEFAULT_RULES "Bash" inp <> "allow".
Proof.
  intros Hsplit Hd.
  assert (forall rules,
            forallb RulesStore.spares_dangerous rules = true ->
            check shlex_split fnmatch rules "Bash" inp <> "allow") as Hgen.
  { intros rules Hsafe Hallow.
    destruct (check_allow_rule rules "Bash" inp Hallow) as (r & Hin & Hact & Hm).
    rewrite forallb_forall in Hsafe. specialize (Hsafe r Hin).
    unfold RulesStore.spares_dangerous in Hsafe.
    rewrite (bool_decide_eq_true_2 _ Hact) in Hsafe. cbn [negb orb] in Hsafe.
    assert (r !! "tool" = Some "Bash") as Htool.
    { unfold _matches in Hm.
      destruct (bool_decide (r !! "tool" = Some "Bash")) eqn:Ht;
        [now apply bool_decide_eq_true in Ht | discriminate]. }
    rewrite (bool_decide_eq_true_2 _ Htool) in Hsafe. cbn [negb orb] in Hsafe.
    apply andb_prop in Hsafe as [Hmt Hpat].
    apply bool_decide_eq_true in Hmt.
    apply negb_true_iff, bool_decide_eq_false in Hpat.
    apply Hpat. eapply dangerous_base_of_matching_prefix; eauto. }
  split; [exact Hgen|]. apply Hgen. vm_compute. reflexivity.
Qed.

Lemma check_action_app action rules1 rules2 tool inp :
  check_action shlex_split fnmatch action (rules1 ++ rules2) tool inp
  = check_action shlex_split fnmatch action rules1 tool inp
    || check_action shlex_split fnmatch action rules2 tool inp.
Proof.
  induction rules1 as [|r rules1 IH]; cbn [app check_action]; [reflexivity|].
  destruct (bool_decide (r !! "action" = Some action)); cbn [negb]; [|exact IH].
  destruct (_matches shlex_split fnmatch r tool inp); [reflexivity | exact IH].
Qed.

Lemma check_action_one action r tool inp :
  check_action shlex_split fnmatch action [r] tool inp
  = bool_decide (r !! "action" = Some action)
    && _matches shlex_split fnmatch r tool inp.
Proof.
  cbn [check_action].
  destruct (bool_decide (r !! "action" = Some action)); cbn [negb andb];
    [|reflexivity].
  destruct (_matches shlex_split fnmatch r tool inp); reflexivity.
Qed.

Lemma new_rule_fields id tool match_type pattern action :
  RulesStore.new_rule id tool match_type pattern action !! "id" = Some id
  /\ RulesStore.new_rule id tool match_type pattern action !! "tool" = Some tool
  /\ RulesStore.new_rule id tool match_type pattern action !! "match_type"
     = Some match_type
  /\ Py.get (RulesStore.new_rule id tool match_type pattern action) "pattern"
     = pattern
  /\ RulesStore.new_rule id tool match_type pattern action !! "action"
     = Some action.
Proof. unfold Py.get. repeat split; reflexivity. Qed.

(** X5. What [suggest_bash_pattern] offers works and is safe: the
    suggested name is outside the dangerous set, the allow rule made
    from it matches the command it was suggested for, and once added to
    the store that call is allowed unless a deny rule of the store
    matches it. *)
Theorem suggestion_round_trip (svc : RulesStore.service) (disk : RulesStore.write_outcome)
    (id b : string) (inp : gmap string string) :
  suggest_bash_pattern shlex_split (Py.get inp "command") = Some b ->
  (b ∉ DANGEROUS)
  /\ _matches shlex_split fnmatch
       (RulesStore.new_rule id "Bash" "prefix" b "allow") "Bash" inp = true
  /\ check shlex_split fnmatch
       (RulesStore._rules
          (fst (RulesStore.add_rule svc disk id "Bash" "prefix" b "allow")))
       "Bash" inp
     = (if check_action shlex_split fnmatch "deny" (RulesStore._rules svc)
             "Bash" inp
        then "deny" else "allow").
Proof.
  intros Hs.
  assert (b ∉ DANGEROUS) as Hsafe.
  { unfold suggest_bash_pattern in Hs.
    destruct (Py.truthy (Py.strip (Py.get inp "command"))); cbn [negb] in Hs;
      [|discriminate].
    destruct (shlex_split (Py.strip (Py.get inp "command"))) as [[|p ps]|];
      try discriminate.
    cbv zeta in Hs.
    destruct (bool_decide (Py.basename p ∈ DANGEROUS)) eqn:Hd; [discriminate|].
    apply bool_decide_eq_false in Hd. now injection Hs as <-. }
  destruct (new_rule_fields id "Bash" "prefix" b "allow")
    as (_ & Htool & Hmt & Hpat & Hact).
  assert (_matches shlex_split fnmatch
            (RulesStore.new_rule id "Bash" "prefix" b "allow") "Bash" inp = true)
    as Hm.
  { unfold _matches. rewrite (bool_decide_eq_true_2 _ Htool). cbn [negb].
    rewrite Hmt, Hpat. rewrite bool_decide_eq_false_2 by discriminate.
    rewrite bool_decide_eq_true_2 by reflexivity. cbv zeta.
    rewrite Hs. apply String.eqb_refl. }
  split; [exact Hsafe|]. split; [exact Hm|].
  unfold RulesStore.add_rule.
  rewrite !bool_decide_eq_true_2 by set_solver. cbn [negb fst].
  assert (forall s, RulesStore._rules (RulesStore._save disk s)
                    = RulesStore._rules s) as Hsave
    by (intros s0; unfold RulesStore._save; destruct disk as [| |[]]; reflexivity).
  rewrite Hsave. cbn [RulesStore._rules].
  rewrite check_by_passes, !check_action_app, !check_action_one.
  rewrite Hact, Hm.
  rewrite bool_decide_eq_false_2 by discriminate.
  rewrite bool_decide_eq_true_2 by reflexivity.
  cbn [andb]. rewrite orb_false_r, orb_true_r. reflexivity.
Qed.

(** X6. [add_rule] rejects a match type other than glob and prefix, and
    an action other than allow and deny, and then leaves the store and
    its file as they were; otherwise it appends the rule.  From then on
    a call the new rule does not match keeps its verdict, and a call a
    new deny rule matches is denied. *)
Theorem add_rule_effect (svc : RulesStore.service) (disk : RulesStore.write_outcome)
    (id tool match_type pattern action : string) :
  let r := RulesStore.new_rule id tool match_type pattern action in
  let res := RulesStore.add_rule svc disk id tool match_type pattern action in
  (match_type ∉ ["glob"; "prefix"] \/ action ∉ ["allow"; "deny"] ->
   fst res = svc /\ exists e, snd res = inr e)
  /\ (match_type ∈ ["glob"; "prefix"] -> action ∈ ["allow"; "deny"] ->
      snd res = inl r
      /\ RulesStore._rules (fst res) = RulesStore._rules svc ++ [r]
      /\ (forall call_tool inp,
            _matches shlex_split fnmatch r call_tool inp = false ->
            check shlex_split fnmatch (RulesStore._rules (fst res)) call_tool inp
            = check shlex_split fnmatch (RulesStore._rules svc) call_tool inp)
      /\ (forall call_tool inp,
            action = "deny" ->
            _matches shlex_split fnmatch r call_tool inp = true ->
            check shlex_split fnmatch (RulesStore._rules (fst res)) call_tool inp
            = "deny")).
Proof.
  intros r res. subst res. unfold RulesStore.add_rule. split.
  - intros [Hmt | Hact].
    + rewrite (bool_decide_eq_false_2 _ Hmt). cbn [negb fst snd]. eauto.
    + destruct (bool_decide (match_type ∈ ["glob"; "prefix"])); cbn [negb];
        [|cbn [fst snd]; eauto].
      rewrite (bool_decide_eq_false_2 _ Hact). cbn [negb fst snd]. eauto.
  - intros Hmt Hact.
    rewrite (bool_decide_eq_true_2 _ Hmt), (bool_decide_eq_true_2 _ Hact).
    cbn [negb fst snd]. fold r.
    assert (RulesStore._rules
              (RulesStore._save disk
                 {| RulesStore._rules := RulesStore._rules svc ++ [r];
                    RulesStore._path := RulesStore._path svc |})
            = RulesStore._rules svc ++ [r]) as ->
      by (unfold RulesStore._save; destruct disk as [| |[]]; reflexivity).
    split; [reflexivity|]. split; [reflexivity|]. split.
    + intros call_tool inp Hm.
      rewrite !check_by_passes, !check_action_app, !check_action_one, Hm.
      rewrite !andb_false_r, !orb_false_r. reflexivity.
    + intros call_tool inp -> Hm.
      rewrite check_by_passes, check_action_app, check_action_one, Hm.
      destruct (new_rule_fields id tool match_type pattern "deny")
        as (_ & _ & _ & _ & Ha).
      subst r. rewrite (bool_decide_eq_true_2 _ Ha). cbn [andb].
      rewrite orb_true_r. reflexivity.
Qed.

Lemma filter_length_lt {A} (f : A -> bool) (l : list A) :
  (length (List.filter f l) <? length l)%nat = true
  <-> exists x, In x l /\ f x = false.
Proof.
  rewrite Nat.ltb_lt. induction l as [|a l IH]; cbn [List.filter length In].
  - split; [lia | intros (x & [] & _)].
  - pose proof (List.filter_length_le f l) as Hle.
    destruct (f a) eqn:Hfa; cbn [length].
    + rewrite <- Nat.succ_lt_mono, IH. split.
      * intros (x & Hin & Hx). eauto.
      * intros (x & [<- | Hin] & Hx); [congruence | eauto].
    + split; [intros _; eauto | lia].
Qed.

Lemma filter_all_kept {A} (f : A -> bool) (l : list A) :
  (forall x, In x l -> f x = true) -> List.filter f l = l.
Proof.
  induction l as [|a l IH]; cbn [List.filter]; intros H; [reflexivity|].
  rewrite (H a (or_introl eq_refl)). f_equal. apply IH. intros x Hx.
  apply H. now right.
Qed.

Lemma filter_sublist {A} (f : A -> bool) (l : list A) :
  List.filter f l `sublist_of` l.
Proof.
  induction l as [|a l IH]; cbn [List.filter]; [constructor|].
  destruct (f a); now constructor.
Qed.

Lemma filter_length_split {A} (f : A -> bool) (l : list A) :
  length (List.filter f l) + length (List.filter (fun x => negb (f x)) l)
  = length l.
Proof.
  induction l as [|a l IH]; cbn [List.filter]; [reflexivity|].
  destruct (f a); cbn [negb length]; lia.
Qed.

(** X7. [remove_rule] answers true exactly when some rule carries the
    id; afterwards the store holds the rules with another id (or none)
    and no rule with that id, in the order they had and as many times as
    they occurred: what is left is a subsequence of the rules, shorter
    by the number of rules that carried the id.  Removing an id no rule
    carries changes nothing, and removing the id of a rule just added
    under a fresh id brings the rules back. *)
Theorem remove_rule_effect (svc : RulesStore.service) (disk : RulesStore.write_outcome)
    (rule_id : string) :
  let res := RulesStore.remove_rule svc disk rule_id in
  (snd res = true
   <-> exists r, In r (RulesStore._rules svc) /\ r !! "id" = Some rule_id)
  /\ (forall r, In r (RulesStore._rules (fst res))
        <-> In r (RulesStore._rules svc) /\ r !! "id" <> Some rule_id)
  /\ RulesStore._rules (fst res) `sublist_of` RulesStore._rules svc
  /\ length (RulesStore._rules (fst res))
     + length (List.filter (fun r => bool_decide (r !! "id" = Some rule_id))
                 (RulesStore._rules svc))
     = length (RulesStore._rules svc)
  /\ (snd res = false -> fst res = svc)
  /\ (forall disk' tool match_type pattern action,
        snd res = false ->
        match_type ∈ ["glob"; "prefix"] -> action ∈ ["allow"; "deny"] ->
        RulesStore._rules
          (fst (RulesStore.remove_rule
                  (fst (RulesStore.add_rule svc disk' rule_id tool match_type
                          pattern action))
                  disk rule_id))
        = RulesStore._rules svc).
Proof.
  intros res. subst res. unfold RulesStore.remove_rule. cbv zeta.
  cbn [RulesStore._rules].
  assert (forall s, RulesStore._rules (RulesStore._save disk s)
                    = RulesStore._rules s) as Hsave
    by (intros s0; unfold RulesStore._save; destruct disk as [| |[]]; reflexivity).
  assert (forall r : gmap string string,
            RulesStore.keeps rule_id r = false <-> r !! "id" = Some rule_id)
    as Hkeeps.
  { intros r. unfold RulesStore.keeps.
    rewrite negb_false_iff, bool_decide_eq_true. reflexivity. }
  pose proof (filter_length_lt (RulesStore.keeps rule_id) (RulesStore._rules svc))
    as Hlt.
  assert (forall r, In r (List.filter (RulesStore.keeps rule_id)
                            (RulesStore._rules svc))
                    <-> In r (RulesStore._rules svc) /\ r !! "id" <> Some rule_id)
    as Hmem.
  { intros r. rewrite List.filter_In. rewrite <- Hkeeps.
    destruct (RulesStore.keeps rule_id r); split; intros [? ?]; split;
      auto; congruence. }
  pose proof (filter_sublist (RulesStore.keeps rule_id) (RulesStore._rules svc))
    as Hsub.
  assert (length (List.filter (RulesStore.keeps rule_id) (RulesStore._rules svc))
          + length (List.filter (fun r => bool_decide (r !! "id" = Some rule_id))
                      (RulesStore._rules svc))
          = length (RulesStore._rules svc)) as Hcount.
  { rewrite (List.filter_ext
               (fun r : gmap string string => bool_decide (r !! "id" = Some rule_id))
               (fun r => negb (RulesStore.keeps rule_id r))).
    - apply filter_length_split.
    - intros r. unfold RulesStore.keeps. now rewrite negb_involutive. }
  destruct (length (List.filter (RulesStore.keeps rule_id) (RulesStore._rules svc))
            <? length (RulesStore._rules svc))%nat eqn:Hcmp; cbn [fst snd].
  - split; [|split; [|split; [|split; [|split]]]].
    + split; [intros _|reflexivity].
      destruct (proj1 Hlt eq_refl) as (r & Hin & Hr). exists r.
      split; [exact Hin | now apply Hkeeps].
    + intros r. rewrite Hsave. cbn [RulesStore._rules]. apply Hmem.
    + rewrite Hsave. exact Hsub.
    + rewrite Hsave. exact Hcount.
    + discriminate.
    + discriminate.
  - assert (forall r, In r (RulesStore._rules svc)
                      -> RulesStore.keeps rule_id r = true) as Hall.
    { intros r Hin. destruct (RulesStore.keeps rule_id r) eqn:Hk; [reflexivity|].
      assert (false = true) by (apply Hlt; eauto).
      discriminate. }
    split; [|split; [|split; [|split; [|split]]]].
    + split; [discriminate|]. intros (r & Hin & Hr).
      apply Hkeeps in Hr. rewrite (Hall r Hin) in Hr. discriminate.
    + intros r. cbn [RulesStore._rules]. apply Hmem.
    + exact Hsub.
    + exact Hcount.
    + intros _. rewrite (filter_all_kept _ _ Hall). destruct svc; reflexivity.
    + intros disk' tool match_type pattern action _ Hmt Hact.
      unfold RulesStore.add_rule.
      rewrite (bool_decide_eq_true_2 _ Hmt), (bool_decide_eq_true_2 _ Hact).
      cbn [negb fst].
      assert (forall s, RulesStore._rules (RulesStore._save disk' s)
                        = RulesStore._rules s) as Hsave'
        by (intros s0; unfold RulesStore._save; destruct disk' as [| |[]]; reflexivity).
      rewrite Hsave'. cbn [RulesStore._rules].
      rewrite List.filter_app, (filter_all_kept _ _ Hall).
      cbn [List.filter].
      assert (RulesStore.keeps rule_id
                (RulesStore.new_rule rule_id tool match_type pattern action)
              = false) as ->
        by (apply Hkeeps; apply new_rule_fields).
      rewrite app_nil_r.
      match goal with
      | |- RulesStore._rules (fst (if ?c then _ else _)) = _ =>
          destruct c; cbn [fst]; rewrite ?Hsave; reflexivity
      end.
Qed.

Lemma with_id_lookup (r : gmap string string) (u k : string) :
  k <> "id" -> (r ∪ {[ "id" := u ]}) !! k = r !! k.
Proof.
  intros Hk. rewrite lookup_union, lookup_singleton_ne by congruence.
  destruct (r !! k); reflexivity.
Qed.

Lemma matches_with_id (r : gmap string string) (u tool : string)
    (inp : gmap string string) :
  _matches shlex_split fnmatch (r ∪ {[ "id" := u ]}) tool inp
  = _matches shlex_split fnmatch r tool inp.
Proof.
  unfold _matches, Py.get. rewrite !with_id_lookup by discriminate. reflexivity.
Qed.

Lemma check_action_seeded action tool inp (l : list (gmap string string)) :
  forall g : nat -> string,
    check_action shlex_split fnmatch action
      (imap (fun i r => r ∪ {[ "id" := g i ]}) l) tool inp
    = check_action shlex_split fnmatch action l tool inp.
Proof.
  induction l as [|r l IH]; intros g; [reflexivity|].
  rewrite imap_cons. cbn [check_action].
  rewrite with_id_lookup by discriminate. rewrite matches_with_id.
  assert (check_action shlex_split fnmatch action
            (imap ((fun i r0 => r0 ∪ {[ "id" := g i ]}) ∘ S) l) tool inp
          = check_action shlex_split fnmatch action l tool inp) as ->
    by exact (IH (fun n => g (S n))).
  reflexivity.
Qed.

(** X8. A first start, with the rules file missing or unreadable, seeds
    the default table: the store answers every call as the table does,
    and its rule number [i] carries the id drawn for it.  When the save
    succeeds every later start reads the same rules back and draws no
    new ids, also when the save raised with the whole text written.
    When it fails otherwise, the file is as it was if it could not be
    opened, and is left unreadable if the write was cut short after the
    file was created or truncated; either way the next start seeds
    again, with the ids it draws then. *)
Theorem first_start_seeds_defaults (uuid : nat -> string) (disk : RulesStore.write_outcome)
    (file : RulesStore.rules_file) :
  file = RulesStore.FileMissing \/ file = RulesStore.FileUnreadable ->
  let svc := RulesStore._load uuid disk file in
  (forall tool inp,
     check shlex_split fnmatch (RulesStore._rules svc) tool inp
     = check shlex_split fnmatch _DEFAULT_RULES tool inp)
  /\ (forall i r, RulesStore._rules svc !! i = Some r -> r !! "id" = Some (uuid i))
  /\ (disk = RulesStore.WriteOk \/ disk = RulesStore.WriteFails true ->
      forall uuid' disk',
        RulesStore._load uuid' disk' (RulesStore._path svc) = svc)
  /\ (disk = RulesStore.OpenFails -> RulesStore._path svc = file)
  /\ (disk = RulesStore.WriteFails false ->
      RulesStore._path svc = RulesStore.FileUnreadable)
  /\ (disk = RulesStore.OpenFails \/ disk = RulesStore.WriteFails false ->
      forall uuid' disk',
        RulesStore._rules (RulesStore._load uuid' disk' (RulesStore._path svc))
        = RulesStore.seeded uuid').
Proof.
  intros Hfile svc.
  assert (svc = RulesStore._save disk
                  {| RulesStore._rules := RulesStore.seeded uuid;
                     RulesStore._path := file |}) as Hsvc
    by (subst svc; destruct Hfile as [-> | ->]; reflexivity).
  assert (RulesStore._rules svc = RulesStore.seeded uuid) as Hrules
    by (rewrite Hsvc; unfold RulesStore._save; destruct disk as [| |[]]; reflexivity).
  split; [|split; [|split; [|split; [|split]]]].
  - intros tool inp. rewrite Hrules, !check_by_passes.
    unfold RulesStore.seeded. rewrite !check_action_seeded. reflexivity.
  - intros i r. rewrite Hrules. unfold RulesStore.seeded.
    rewrite list_lookup_imap.
    destruct (_DEFAULT_RULES !! i) as [r0|] eqn:Hr0; [|discriminate].
    intros [= <-].
    assert (r0 !! "id" = None) as Hnone.
    { assert (forallb (fun x : gmap string string =>
                         bool_decide (x !! "id" = None)) _DEFAULT_RULES = true)
        as Hall by (vm_compute; reflexivity).
      rewrite forallb_forall in Hall.
      apply (bool_decide_eq_true_1 _), Hall.
      apply list_elem_of_In, list_elem_of_lookup. eauto. }
    rewrite lookup_union, Hnone, lookup_singleton_eq. reflexivity.
  - intros [-> | ->]; intros uuid' disk'; rewrite Hsvc; reflexivity.
  - intros ->. rewrite Hsvc. reflexivity.
  - intros ->. rewrite Hsvc. reflexivity.
  - intros [-> | ->] uuid' disk'; rewrite Hsvc;
      cbn [RulesStore._save RulesStore._path]; [destruct Hfile as [-> | ->]|];
      cbn [RulesStore._load]; unfold RulesStore._save;
      destruct disk' as [| |[]]; reflexivity.
Qed.

End RuleStoreFacts.


Lemma check_verdict_witness :
  PermissionRules.check PyLib.shlex_split PyLib.fnmatch
    [PermissionRules.mk_rule "Bash" "prefix" "ls" "allow";
     PermissionRules.mk_rule "Bash" "prefix" "rm" "deny"]
    "Bash" {[ "command" := "rm -rf build" ]} = "deny".
Proof.
  apply (proj2 (proj1 (check_verdict PyLib.shlex_split PyLib.fnmatch
                         [PermissionRules.mk_rule "Bash" "prefix" "ls" "allow";
                          PermissionRules.mk_rule "Bash" "prefix" "rm" "deny"]
                         "Bash" {[ "command" := "rm -rf build" ]}))).
  exists (PermissionRules.mk_rule "Bash" "prefix" "rm" "deny").
  split; [cbn [In]; tauto|]. split; vm_compute; reflexivity.
Defined.

Lemma check_same_members_witness :
  PermissionRules.check PyLib.shlex_split PyLib.fnmatch
    [PermissionRules.mk_rule "Bash" "prefix" "ls" "allow";
     PermissionRules.mk_rule "Bash" "prefix" "rm" "deny";
     PermissionRules.mk_rule "Bash" "prefix" "ls" "allow"]
    "Bash" {[ "command" := "ls -l" ]}
  = PermissionRules.check PyLib.shlex_split PyLib.fnmatch
      [PermissionRules.mk_rule "Bash" "prefix" "rm" "deny";
       PermissionRules.mk_rule "Bash" "prefix" "ls" "allow"]
      "Bash" {[ "command" := "ls -l" ]}.
Proof.
  apply (check_same_members PyLib.shlex_split PyLib.fnmatch).
  intros r. cbn [In]. tauto.
Defined.

Lemma prefix_rule_on_unsplit_command_witness :
  PermissionRules._matches PyLib.shlex_split PyLib.fnmatch
    (PermissionRules.mk_rule "Bash" "prefix" "" "allow") "Bash"
    {[ "command" := "rm -rf / 'x" ]} = true.
Proof.
  apply (prefix_rule_on_unsplit_command PyLib.shlex_split PyLib.fnmatch
           (PermissionRules.mk_rule "Bash" "prefix" "" "allow")
           {[ "command" := "rm -rf / 'x" ]} "Bash").
  - vm_compute. reflexivity.
  - vm_compute. reflexivity.
  - left. vm_compute. reflexivity.
  - vm_compute. reflexivity.
Defined.

Lemma dangerous_never_auto_allowed_witness :
  PermissionRules.check PyLib.shlex_split PyLib.fnmatch
    PermissionRules._DEFAULT_RULES "Bash" {[ "command" := "pkill -9 node" ]}
  <> "allow".
Proof.
  refine (proj2 (dangerous_never_auto_allowed PyLib.shlex_split PyLib.fnmatch
                   {[ "command" := "pkill -9 node" ]} "pkill" ["-9"; "node"] _ _)).
  - vm_compute. reflexivity.
  - vm_compute. set_solver.
Defined.

Lemma suggestion_round_trip_witness :
  PermissionRules.check PyLib.shlex_split PyLib.fnmatch
    (RulesStore._rules
       (fst (RulesStore.add_rule RulesStore.sample_service RulesStore.WriteOk "rule-2" "Bash"
               "prefix" "make" "allow")))
    "Bash" {[ "command" := "make test" ]} = "allow".
Proof.
  refine (proj2 (proj2 (suggestion_round_trip PyLib.shlex_split PyLib.fnmatch
                          RulesStore.sample_service RulesStore.WriteOk "rule-2" "make"
                          {[ "command" := "make test" ]} _))).
  vm_compute. reflexivity.
Defined.

Lemma add_rule_effect_witness :
  PermissionRules.check PyLib.shlex_split PyLib.fnmatch
    (RulesStore._rules
       (fst (RulesStore.add_rule RulesStore.sample_service RulesStore.WriteOk "rule-2" "Bash"
               "prefix" "ls" "deny")))
    "Bash" {[ "command" := "ls -l" ]} = "deny".
Proof.
  destruct (add_rule_effect PyLib.shlex_split PyLib.fnmatch
              RulesStore.sample_service RulesStore.WriteOk "rule-2" "Bash" "prefix" "ls" "deny")
    as [_ H].
  destruct H as (_ & _ & _ & H); [set_solver | set_solver |].
  apply H; [reflexivity | vm_compute; reflexivity].
Defined.

Lemma remove_rule_effect_witness :
  RulesStore._rules
    (fst (RulesStore.remove_rule
            (fst (RulesStore.add_rule RulesStore.sample_service RulesStore.WriteOk "rule-2"
                    "Bash" "prefix" "make" "allow"))
            RulesStore.WriteOk "rule-2"))
  = RulesStore._rules RulesStore.sample_service.
Proof.
  destruct (remove_rule_effect RulesStore.sample_service RulesStore.WriteOk "rule-2")
    as (_ & _ & _ & _ & _ & H).
  apply H; [vm_compute; reflexivity | set_solver | set_solver].
Defined.

Lemma first_start_seeds_defaults_witness :
  let uuid := fun i => "id-" +:+ Executors.string_of_nat i in
  let uuid' := fun i => "new-" +:+ Executors.string_of_nat i in
  let failed := RulesStore._load uuid (RulesStore.WriteFails false) RulesStore.FileMissing in
  PermissionRules.check PyLib.shlex_split PyLib.fnmatch
    (RulesStore._rules
       (RulesStore._load uuid RulesStore.WriteOk RulesStore.FileMissing))
    "Bash" {[ "command" := "git status" ]}
  = PermissionRules.check PyLib.shlex_split PyLib.fnmatch
      PermissionRules._DEFAULT_RULES "Bash" {[ "command" := "git status" ]}
  /\ RulesStore._path failed = RulesStore.FileUnreadable
  /\ RulesStore._rules
       (RulesStore._load uuid' RulesStore.WriteOk (RulesStore._path failed))
     = RulesStore.seeded uuid'.
Proof.
  intros uuid uuid' failed.
  pose proof (first_start_seeds_defaults PyLib.shlex_split PyLib.fnmatch uuid
                RulesStore.WriteOk RulesStore.FileMissing (or_introl eq_refl))
    as Hok.
  pose proof (first_start_seeds_defaults PyLib.shlex_split PyLib.fnmatch uuid
                (RulesStore.WriteFails false) RulesStore.FileMissing
                (or_introl eq_refl))
    as Hfailed.
  cbv zeta in Hok, Hfailed.
  destruct Hok as (Hcheck & _).
  destruct Hfailed as (_ & _ & _ & _ & Hpath & Hagain).
  split; [apply Hcheck|]. split; [now apply Hpath|].
  apply Hagain. now right.
Defined.

(** ** The approval client, further *)

Section GateMoreFacts.

Import ApprovalGate.

Variable executor : string -> tool_input -> exec_outcome.

Lemma request_approval_allows net request_id tool inp :
  fst (_request_approval net request_id tool inp) = "allow"
  <-> net_post net = PostOk
      /\ exists data, net_poll net = PollObject data
                      /\ data !! "decision" = Some "allow".
Proof.
  unfold _request_approval.
  destruct (net_post net) as [|exc]; [|split; [discriminate | intros [? _]; discriminate]].
  destruct (net_poll net) as [exc| |data]; cbn [fst].
  - split; [discriminate | intros (_ & d & ? & _); discriminate].
  - split; [discriminate | intros (_ & d & ? & _); discriminate].
  - destruct (data !! "decision") as [d|] eqn:Hd; simpl.
    + split.
      * intros ->. split; [reflexivity|]. exists data. auto.
      * intros (_ & d' & [= <-] & Hd'). congruence.
    + split; [discriminate|]. intros (_ & d' & [= <-] & Hd'). congruence.
Qed.

Lemma existsb_ran_app l1 l2 :
  existsb ran_executor (l1 ++ l2)
  = existsb ran_executor l1 || existsb ran_executor l2.
Proof. apply existsb_app. Qed.

Lemma request_approval_quiet net request_id tool inp :
  existsb ran_executor (snd (_request_approval net request_id tool inp)) = false.
Proof.
  unfold _request_approval.
  destruct (net_post net); [destruct (net_poll net)|]; reflexivity.
Qed.

Lemma user_answer_quiet net request_id inp :
  existsb ran_executor (snd (_request_user_answer net request_id inp)) = false.
Proof.
  unfold _request_user_answer.
  destruct (net_post net); [destruct (net_poll net)|]; reflexivity.
Qed.

(** The [tools/call] branch runs the executor exactly when the tool is
    gated and the approval came back as allow. *)
Lemma tools_call_runs net request_id msg :
  existsb ran_executor (tools_call executor net request_id msg)
  = bool_decide (params_name msg ∈ _EXECUTORS)
    && String.eqb (fst (_request_approval net request_id (params_name msg)
                          (params_arguments msg))) "allow".
Proof.
  unfold tools_call.
  destruct (String.eqb (params_name msg) "AskUserQuestion") eqn:Hq.
  - apply String.eqb_eq in Hq. rewrite Hq.
    pose proof (user_answer_quiet net request_id (params_arguments msg)) as Hu.
    destruct (_request_user_answer net request_id (params_arguments msg))
      as [answer eff]. cbn [snd] in Hu.
    rewrite existsb_ran_app, Hu. reflexivity.
  - destruct (bool_decide (params_name msg ∈ _EXECUTORS)); cbn [negb andb];
      [|reflexivity].
    pose proof (request_approval_quiet net request_id (params_name msg)
                  (params_arguments msg)) as Hr.
    destruct (_request_approval net request_id (params_name msg)
                (params_arguments msg)) as [decision eff].
    cbn [fst snd] in *.
    destruct (String.eqb decision "allow"); cbn [negb].
    + destruct (executor (params_name msg) (params_arguments msg));
        rewrite existsb_ran_app, Hr; reflexivity.
    + rewrite existsb_ran_app, Hr. reflexivity.
Qed.

(** X9. Handling one message runs an executor exactly when the message
    is a [tools/call] for a gated tool, the registration went through
    and the long-poll returned an object whose decision is allow; the
    executor then run is the one named in the call, on the arguments of
    the call. *)
Theorem executor_runs_iff_allowed (net : network) (request_id : string)
    (msg : message) :
  (existsb ran_executor (handle executor net request_id msg) = true
   <-> method msg = "tools/call"
       /\ params_name msg ∈ _EXECUTORS
       /\ net_post net = PostOk
       /\ exists data, net_poll net = PollObject data
                       /\ data !! "decision" = Some "allow")
  /\ (forall e, In e (handle executor net request_id msg) ->
        ran_executor e = true ->
        e = RunExecutor (params_name msg) (params_arguments msg)).
Proof.
  split.
  - unfold handle.
    destruct (String.eqb (method msg) "initialize") eqn:H1;
      [apply String.eqb_eq in H1; rewrite H1;
       split; [discriminate | intros [? _]; discriminate]|].
    destruct (String.eqb (method msg) "notifications/initialized") eqn:H2;
      [apply String.eqb_eq in H2; rewrite H2;
       split; [discriminate | intros [? _]; discriminate]|].
    destruct (String.eqb (method msg) "tools/list") eqn:H3;
      [apply String.eqb_eq in H3; rewrite H3;
       split; [discriminate | intros [? _]; discriminate]|].
    destruct (String.eqb (method msg) "tools/call") eqn:H4.
    + apply String.eqb_eq in H4. rewrite tools_call_runs.
      rewrite andb_true_iff, bool_decide_eq_true, String.eqb_eq.
      rewrite request_approval_allows. tauto.
    + apply String.eqb_neq in H4.
      destruct (msg_id msg); split; try discriminate; intros [? _]; contradiction.
  - intros e. unfold handle.
    destruct (String.eqb (method msg) "initialize");
      [intros [<- | []]; discriminate|].
    destruct (String.eqb (method msg) "notifications/initialized");
      [intros []|].
    destruct (String.eqb (method msg) "tools/list");
      [intros [<- | []]; discriminate|].
    destruct (String.eqb (method msg) "tools/call").
    + unfold tools_call, _request_user_answer, _request_approval.
      destruct (String.eqb (params_name msg) "AskUserQuestion"),
        (bool_decide (params_name msg ∈ _EXECUTORS)),
        (net_post net); try destruct (net_poll net) as [exc| |data];
        cbn [negb app In fst snd];
        try destruct (String.eqb (default "deny" (data !! "decision")) "allow");
        cbn [negb app In];
        try destruct (executor (params_name msg) (params_arguments msg));
        cbn [app In]; intros H Hran;
        repeat (destruct H as [<- | H]; [try discriminate; try reflexivity|]);
        try contradiction.
    + destruct (msg_id msg); [intros [<- | []]; discriminate | intros []].
Qed.

Lemma handle_replies net request_id msg :
  length (List.filter Observe.is_reply (handle executor net request_id msg))
  = if Observe.is_request msg then 1 else 0.
Proof.
  unfold handle, Observe.is_request.
  destruct (String.eqb (method msg) "initialize") eqn:H1;
    [apply String.eqb_eq in H1; rewrite H1; reflexivity|].
  destruct (String.eqb (method msg) "notifications/initialized") eqn:H2;
    [apply String.eqb_eq in H2; rewrite H2; reflexivity|].
  destruct (String.eqb (method msg) "tools/list") eqn:H3;
    [apply String.eqb_eq in H3; rewrite H3; reflexivity|].
  destruct (String.eqb (method msg) "tools/call") eqn:H4.
  - apply String.eqb_eq in H4. rewrite H4.
    rewrite bool_decide_eq_true_2 by set_solver. cbn [orb].
    unfold tools_call, _request_user_answer, _request_approval.
    destruct (String.eqb (params_name msg) "AskUserQuestion"),
      (bool_decide (params_name msg ∈ _EXECUTORS)),
      (net_post net); try destruct (net_poll net) as [exc| |data];
      cbn [negb app fst snd];
      try destruct (String.eqb (default "deny" (data !! "decision")) "allow");
      cbn [negb app];
      try destruct (executor (params_name msg) (params_arguments msg));
      reflexivity.
  - apply String.eqb_neq in H1, H3, H4.
    rewrite bool_decide_eq_false_2
      by (rewrite !elem_of_cons, elem_of_nil; intuition congruence).
    cbn [orb negb andb].
    destruct (msg_id msg) as [i|].
    + rewrite bool_decide_eq_true_2 by eauto. reflexivity.
    + rewrite bool_decide_eq_false_2 by (intros [? ?]; discriminate). reflexivity.
Qed.

(** X10. Over a whole session of the JSON-RPC loop, whatever the broker
    connection and the executors do, the client writes exactly one
    reply per request it reads, and none for a notification or for an
    unknown method sent without an id. *)
Theorem one_reply_per_request (stdin : list (message * string * network)) :
  length (List.filter Observe.is_reply (main executor stdin))
  = length (List.filter (fun x => Observe.is_request (fst (fst x))) stdin).
Proof.
  induction stdin as [|[[msg rid] net] rest IH]; [reflexivity|].
  cbn [main List.filter fst].
  rewrite List.filter_app, List.length_app, handle_replies, IH.
  destruct (Observe.is_request msg); reflexivity.
Qed.

(** X11. A question call is never gated: its reply is never flagged as
    an error and no executor runs, also when the broker cannot be
    reached, in which case the reply text carries the transport error. *)
Theorem question_never_flagged (net : network) (request_id : string)
    (msg : message) :
  method msg = "tools/call" ->
  params_name msg = "AskUserQuestion" ->
  existsb Observe.flagged_error (handle executor net request_id msg) = false
  /\ existsb ran_executor (handle executor net request_id msg) = false
  /\ (forall exc,
        net_post net = PostRaises exc
        \/ (net_post net = PostOk /\ net_poll net = PollRaises exc) ->
        In (ReplyOk (msg_id msg) (BodyContent (TextAnswerError exc) false))
           (handle executor net request_id msg)).
Proof.
  intros Hm Hq. unfold handle. rewrite Hm.
  cbn [String.eqb Ascii.eqb Bool.eqb]. unfold tools_call. rewrite Hq.
  cbn [String.eqb Ascii.eqb Bool.eqb]. unfold _request_user_answer.
  destruct (net_post net) as [|exc0]; [destruct (net_poll net) as [exc0| |data]|];
    cbn [app existsb Observe.flagged_error ran_executor orb In];
    (split; [reflexivity|]); (split; [reflexivity|]);
    intros exc [H | [H1 H]]; try discriminate; inversion H; subst; auto.
Qed.

End GateMoreFacts.


Lemma executor_runs_iff_allowed_witness :
  existsb ApprovalGate.ran_executor
    (ApprovalGate.handle (fun _ _ => ApprovalGate.ExecReturns "done")
       {| ApprovalGate.net_post := ApprovalGate.PostOk;
          ApprovalGate.net_poll :=
            ApprovalGate.PollObject {[ "decision" := "allow" ]} |}
       "req-1"
       {| ApprovalGate.method := "tools/call"; ApprovalGate.msg_id := Some "1";
          ApprovalGate.params_name := "Write";
          ApprovalGate.params_arguments := {[ "file_path" := "/work/a.txt" ]} |})
  = true.
Proof.
  apply (proj2 (proj1 (executor_runs_iff_allowed
                         (fun _ _ => ApprovalGate.ExecReturns "done")
                         {| ApprovalGate.net_post := ApprovalGate.PostOk;
                            ApprovalGate.net_poll :=
                              ApprovalGate.PollObject {[ "decision" := "allow" ]} |}
                         "req-1"
                         {| ApprovalGate.method := "tools/call";
                            ApprovalGate.msg_id := Some "1";
                            ApprovalGate.params_name := "Write";
                            ApprovalGate.params_arguments :=
                              {[ "file_path" := "/work/a.txt" ]} |}))).
  split; [reflexivity|]. split; [apply list_elem_of_here|].
  split; [reflexivity|].
  exists {[ "decision" := "allow" ]}. split; reflexivity.
Defined.

Lemma question_never_flagged_witness :
  In (ApprovalGate.ReplyOk (Some "9")
        (ApprovalGate.BodyContent (ApprovalGate.TextAnswerError "refused") false))
     (ApprovalGate.handle (fun _ _ => ApprovalGate.ExecReturns "done")
        {| ApprovalGate.net_post := ApprovalGate.PostRaises "refused";
           ApprovalGate.net_poll := ApprovalGate.PollNotObject |}
        "req-9"
        {| ApprovalGate.method := "tools/call"; ApprovalGate.msg_id := Some "9";
           ApprovalGate.params_name := "AskUserQuestion";
           ApprovalGate.params_arguments := ∅ |}).
Proof.
  refine (proj2 (proj2 (question_never_flagged
            (fun _ _ => ApprovalGate.ExecReturns "done")
            {| ApprovalGate.net_post := ApprovalGate.PostRaises "refused";
               ApprovalGate.net_poll := ApprovalGate.PollNotObject |}
            "req-9"
            {| ApprovalGate.method := "tools/call"; ApprovalGate.msg_id := Some "9";
               ApprovalGate.params_name := "AskUserQuestion";
               ApprovalGate.params_arguments := ∅ |} _ _)) "refused" _).
  - reflexivity.
  - reflexivity.
  - left. reflexivity.
Defined.

(** ** The tool executors *)

Section ExecutorFacts.

Import Executors.

Variable os : os_behaviour.

Lemma prefix_split (p s : string) :
  String.prefix p s = true <-> exists t, s = p +:+ t.
Proof.
  revert s. induction p as [|a p IH]; intros s.
  - split; [intros _; exists s; reflexivity | intros _; destruct s; reflexivity].
  - destruct s as [|b s].
    + split; [discriminate | intros [t Ht]; discriminate Ht].
    + change (String.prefix (String a p) (String b s))
        with (match ascii_dec a b with
              | left _ => String.prefix p s
              | right _ => false
              end).
      destruct (ascii_dec a b) as [->|Hne].
      * rewrite IH. split; intros [t Ht]; exists t.
        -- rewrite Ht. reflexivity.
        -- change (String b p +:+ t) with (String b (p +:+ t)) in Ht.
           now injection Ht.
      * split; [discriminate|]. intros [t Ht].
        change (String a p +:+ t) with (String a (p +:+ t)) in Ht.
        injection Ht as Hab _. congruence.
Qed.

Lemma drop_chars_app (p t : string) :
  drop_chars (String.length p) (p +:+ t) = t.
Proof. induction p as [|a p IH]; simpl; [destruct t; reflexivity | exact IH]. Qed.

Lemma contains_eq (s p : string) :
  Py.contains s p
  = String.prefix p s
    || match s with
       | EmptyString => false
       | String _ r => Py.contains r p
       end.
Proof. destruct s; reflexivity. Qed.

Lemma replace_first_eq (s old new : string) :
  replace_first s old new
  = if String.prefix old s then new +:+ drop_chars (String.length old) s
    else match s with
         | EmptyString => EmptyString
         | String c r => String c (replace_first r old new)
         end.
Proof. destruct s; reflexivity. Qed.

Lemma contains_split (s old : string) :
  Py.contains s old = true <-> exists pre post, s = pre +:+ old +:+ post.
Proof.
  split.
  - induction s as [|c s IH]; rewrite contains_eq; intros H;
      apply orb_prop in H as [H | H]; try discriminate.
    + apply prefix_split in H as [t ->]. exists "", t. reflexivity.
    + apply prefix_split in H as [t ->]. exists "", t. reflexivity.
    + destruct (IH H) as (pre & post & ->). exists (String c pre), post.
      reflexivity.
  - intros (pre & post & ->). induction pre as [|c pre IH]; rewrite contains_eq.
    + assert (String.prefix old ("" +:+ old +:+ post) = true) as ->
        by (apply prefix_split; exists post; reflexivity).
      reflexivity.
    + change (String c pre +:+ old +:+ post)
        with (String c (pre +:+ old +:+ post)).
      cbv iota. rewrite IH. apply orb_true_r.
Qed.

Lemma drop_prefix (s old t : string) :
  s = old +:+ t -> drop_chars (String.length old) s = t.
Proof. intros ->. apply drop_chars_app. Qed.

(** The first occurrence, and only it, is replaced. *)
Lemma replace_first_spec (s old new : string) :
  Py.contains s old = true ->
  exists pre post,
    s = pre +:+ old +:+ post
    /\ replace_first s old new = pre +:+ new +:+ post
    /\ forall pre' post',
         s = pre' +:+ old +:+ post' -> String.length pre <= String.length pre'.
Proof.
  induction s as [|c s IH]; rewrite contains_eq, replace_first_eq; intros H.
  - destruct (String.prefix old "") eqn:Hp; [|discriminate].
    apply prefix_split in Hp as [t Ht]. exists "", t.
    rewrite (drop_prefix _ _ _ Ht).
    split; [exact Ht|]. split; [reflexivity|]. intros; simpl; lia.
  - destruct (String.prefix old (String c s)) eqn:Hp.
    + apply prefix_split in Hp as [t Ht]. exists "", t.
      rewrite (drop_prefix _ _ _ Ht).
      split; [exact Ht|]. split; [reflexivity|]. intros; simpl; lia.
    + cbn [orb] in H. destruct (IH H) as (pre & post & Hs & Hr & Hmin).
      exists (String c pre), post. rewrite Hr. split; [|split].
      * change (String c pre +:+ old +:+ post)
          with (String c (pre +:+ old +:+ post)).
        now rewrite <- Hs.
      * reflexivity.
      * intros pre' post' Hs'. destruct pre' as [|c' pre'].
        -- assert (String.prefix old (String c s) = true) as Hp'
             by (apply prefix_split; exists post'; exact Hs').
           congruence.
        -- change (String c' pre' +:+ old +:+ post')
             with (String c' (pre' +:+ old +:+ post')) in Hs'.
           injection Hs' as _ Hs'.
           specialize (Hmin pre' post' Hs'). simpl. lia.
Qed.

Lemma replace_first_same (s old : string) : replace_first s old old = s.
Proof.
  induction s as [|c s IH]; rewrite replace_first_eq.
  - destruct (String.prefix old "") eqn:Hp; [|reflexivity].
    apply prefix_split in Hp as [t Ht].
    rewrite (drop_prefix _ _ _ Ht). now symmetry.
  - destruct (String.prefix old (String c s)) eqn:Hp; [|now rewrite IH].
    apply prefix_split in Hp as [t Ht].
    rewrite (drop_prefix _ _ _ Ht). now symmetry.
Qed.

Lemma substring_none (s : string) : String.substring 0 0 s = "".
Proof. destruct s; reflexivity. Qed.

Lemma universal_newlines_eq (s : string) :
  universal_newlines s
  = match s with
    | EmptyString => EmptyString
    | String c r =>
        if Ascii.eqb c CR then
          match r with
          | String d r' =>
              if Ascii.eqb d Py.newline_char
              then String Py.newline_char (universal_newlines r')
              else String Py.newline_char (universal_newlines r)
          | EmptyString => String Py.newline_char EmptyString
          end
        else String c (universal_newlines r)
    end.
Proof. destruct s; reflexivity. Qed.

(** Content without a carriage return is read as it is. *)
Lemma universal_newlines_plain (s : string) :
  Py.has_char CR s = false -> universal_newlines s = s.
Proof.
  induction s as [|c s IH]; [reflexivity|].
  rewrite universal_newlines_eq. cbn [Py.has_char]. intros H.
  apply orb_false_elim in H as [Hc Hs]. rewrite Ascii.eqb_sym in Hc.
  rewrite Hc. now rewrite IH.
Qed.

(** How [write_text] can end. *)
Lemma write_text_cases fs path content :
  write_text os fs path content = (fs, Some (OSError path))
  \/ (exists written exc,
        write_text os fs path content
        = (with_file os fs path (String.substring 0 written content), Some exc)
        /\ raised_before_write exc = false)
  \/ (utf8_valid content = true
      /\ write_text os fs path content = (with_file os fs path content, None)).
Proof.
  unfold write_text.
  destruct (opens_for_writing os fs path) as [| |written]; [|auto|];
    destruct (utf8_valid content); cbn [negb]; auto.
  - right. left. exists 0, (UnicodeEncodeError path).
    now rewrite substring_none.
  - right. left. exists written, (OSError path). auto.
  - right. left. exists 0, (UnicodeEncodeError path).
    now rewrite substring_none.
Qed.

Lemma confined_unchanged target fs exc : confined os target fs (fs, Raises exc).
Proof.
  unfold confined. cbn [fst snd].
  repeat split; auto.
Qed.

(** A write to the target, after at most some directories were made. *)
Lemma confined_write fs fs1 path content text :
  files fs1 = files fs ->
  dirs fs ⊆ dirs fs1 ->
  (dirs fs1 = dirs fs -> fs1 = fs) ->
  confined os (Some path) fs (finish (write_text os fs1 path content) text).
Proof.
  intros Hfiles Hdirs Hsame.
  assert (Hother : forall k c, Some k <> resolve os <$> Some path ->
                     files (with_file os fs1 path c) !! k = files fs !! k).
  { intros k c Hk. cbn [with_file files]. rewrite Hfiles.
    apply lookup_insert_ne. cbn in Hk. congruence. }
  destruct (write_text_cases fs1 path content)
    as [-> | [(written & exc & -> & Hexc) | (Hvalid & ->)]];
    unfold confined; cbn [finish fst snd with_file files dirs].
  - split; [intros k _; now rewrite Hfiles|]. split; [exact Hdirs|].
    intros exc [= <-]; discriminate.
  - split; [intros k Hk; exact (Hother k _ Hk)|]. split; [exact Hdirs|].
    intros exc' [= <-]; congruence.
  - split; [intros k Hk; exact (Hother k _ Hk)|]. split; [exact Hdirs|].
    discriminate.
Qed.

Lemma writes_text_unchanged path text fs fs1 exc :
  files fs1 = files fs -> writes_text os path text fs (fs1, Raises exc).
Proof.
  intros Hfiles. unfold writes_text. cbn [fst snd].
  split; [intros; now left | discriminate].
Qed.

Lemma writes_text_finish fs fs1 path text shown :
  files fs1 = files fs ->
  writes_text os path text fs (finish (write_text os fs1 path text) shown).
Proof.
  intros Hfiles.
  destruct (write_text_cases fs1 path text)
    as [-> | [(written & exc & -> & Hexc) | (Hvalid & ->)]];
    unfold writes_text; cbn [finish fst snd with_file files].
  - split; [intros; now left | discriminate].
  - split; [|discriminate]. intros exc' _. right. exists written.
    now rewrite Hfiles.
  - split; [discriminate|]. intros shown' _. now rewrite Hfiles.
Qed.

Lemma finish_dirs fs path content text :
  dirs (fst (finish (write_text os fs path content) text)) = dirs fs.
Proof.
  destruct (write_text_cases fs path content)
    as [-> | [(written & exc & -> & _) | (_ & ->)]]; reflexivity.
Qed.

(** X12. What the file executors can do to the file system.  Each one
    touches the bytes of no file but the one its own [file_path] names,
    and removes no directory; Edit and MultiEdit create none.  One that
    raises before it opens its target for writing (a missing key, a
    file that is missing or does not decode, a text that is not found,
    a failing edit of a multi-edit) changes nothing at all.  One that
    raises otherwise leaves the files as they were, or its target
    holding the first bytes of the text it was writing, possibly none:
    the open truncates before the write.  One that returns has written
    that text to its target: the content of the call for Write, the
    text read with the replacement made for Edit, and with all the
    replacements made in order for MultiEdit. *)
Theorem executor_effects_confined (fs : filesystem) (inp : gmap string string)
    (file_path : option string) (edits : option (list (string * string))) :
  confined os (inp !! "file_path") fs (_exec_write os fs inp)
  /\ confined os (inp !! "file_path") fs (_exec_edit os fs inp)
  /\ dirs (fst (_exec_edit os fs inp)) = dirs fs
  /\ confined os file_path fs (_exec_multiedit os fs file_path edits)
  /\ dirs (fst (_exec_multiedit os fs file_path edits)) = dirs fs
  /\ (forall path content,
        inp !! "file_path" = Some path -> inp !! "content" = Some content ->
        writes_text os path content fs (_exec_write os fs inp))
  /\ (forall path old new original,
        inp !! "file_path" = Some path -> inp !! "old_string" = Some old ->
        inp !! "new_string" = Some new ->
        read_text os fs path = inl original ->
        writes_text os path (replace_first original old new) fs
          (_exec_edit os fs inp))
  /\ (forall path es content content',
        file_path = Some path -> edits = Some es ->
        read_text os fs path = inl content ->
        apply_edits 0 path content es = inl content' ->
        writes_text os path content' fs (_exec_multiedit os fs file_path edits)).
Proof.
  split; [|split; [|split; [|split; [|split; [|split; [|split]]]]]].
  - unfold _exec_write.
    destruct (inp !! "file_path") as [path|]; [|apply confined_unchanged].
    destruct (inp !! "content") as [content|]; [|apply confined_unchanged].
    cbv zeta. destruct (Py.truthy (dirname (abspath os path))).
    + unfold run_makedirs.
      destruct (makedirs os fs (dirname (abspath os path))) as [made ok].
      destruct ok; cbn [negb].
      * apply confined_write; cbn [files dirs]; [reflexivity | |].
        -- apply union_subseteq_l.
        -- intros H. destruct fs as [f d]. cbn [files dirs] in *. now rewrite H.
      * unfold confined. cbn [fst snd files dirs].
        split; [reflexivity|]. split; [apply union_subseteq_l|].
        intros exc [= <-]; discriminate.
    + cbn [negb]. now apply confined_write.
  - unfold _exec_edit.
    destruct (inp !! "file_path") as [path|]; [|apply confined_unchanged].
    destruct (inp !! "old_string") as [old|]; [|apply confined_unchanged].
    destruct (inp !! "new_string") as [new|]; [|apply confined_unchanged].
    destruct (read_text os fs path) as [original|exc]; [|apply confined_unchanged].
    destruct (Py.contains original old); cbn [negb]; [|apply confined_unchanged].
    now apply confined_write.
  - unfold _exec_edit.
    destruct (inp !! "file_path") as [path|]; [|reflexivity].
    destruct (inp !! "old_string") as [old|]; [|reflexivity].
    destruct (inp !! "new_string") as [new|]; [|reflexivity].
    destruct (read_text os fs path) as [original|exc]; [|reflexivity].
    destruct (Py.contains original old); cbn [negb]; [|reflexivity].
    apply finish_dirs.
  - unfold _exec_multiedit.
    destruct file_path as [path|]; [|apply confined_unchanged].
    destruct edits as [edits|]; [|apply confined_unchanged].
    destruct (read_text os fs path) as [content|exc]; [|apply confined_unchanged].
    destruct (apply_edits 0 path content edits) as [content'|exc];
      [|apply confined_unchanged].
    now apply confined_write.
  - unfold _exec_multiedit.
    destruct file_path as [path|]; [|reflexivity].
    destruct edits as [edits|]; [|reflexivity].
    destruct (read_text os fs path) as [content|exc]; [|reflexivity].
    destruct (apply_edits 0 path content edits) as [content'|exc]; [|reflexivity].
    apply finish_dirs.
  - intros path content Hpath Hcontent. unfold _exec_write.
    rewrite Hpath, Hcontent. cbv zeta.
    destruct (Py.truthy (dirname (abspath os path))).
    + unfold run_makedirs.
      destruct (makedirs os fs (dirname (abspath os path))) as [made ok].
      destruct ok; cbn [negb].
      * now apply writes_text_finish.
      * now apply writes_text_unchanged.
    + cbn [negb]. now apply writes_text_finish.
  - intros path old new original Hpath Hold Hnew Hread. unfold _exec_edit.
    rewrite Hpath, Hold, Hnew, Hread.
    destruct (Py.contains original old); cbn [negb].
    + now apply writes_text_finish.
    + now apply writes_text_unchanged.
  - intros path es content content' -> -> Hread Hedits. unfold _exec_multiedit.
    rewrite Hread, Hedits. now apply writes_text_finish.
Qed.

Lemma read_text_ok fs path text :
  read_text os fs path = inl text ->
  exists bytes,
    files fs !! resolve os path = Some bytes
    /\ utf8_valid bytes = true
    /\ text = universal_newlines bytes.
Proof.
  unfold read_text.
  destruct (opens_for_reading os fs path); cbn [negb]; [|discriminate].
  destruct (files fs !! resolve os path) as [bytes|]; [|discriminate].
  destruct (utf8_valid bytes) eqn:Hv; [|discriminate].
  intros [= <-]. eauto.
Qed.

(** X13. A successful edit reads the file as text, its bytes decoded and
    every [CR LF] and lone [CR] read as [LF], and rewrites it with the
    first occurrence of [old_string] in that text, and only it, replaced
    by [new_string]: the text before that occurrence is the shortest
    that is followed by [old_string].  An edit whose two strings are
    equal writes the text as read, which leaves the file system as it
    was when the file holds no carriage return. *)
Theorem edit_replaces_first_occurrence (fs : filesystem)
    (inp : gmap string string) (text : string) :
  snd (_exec_edit os fs inp) = Returns text ->
  exists path old new bytes pre post,
    inp !! "file_path" = Some path
    /\ inp !! "old_string" = Some old
    /\ inp !! "new_string" = Some new
    /\ files fs !! resolve os path = Some bytes
    /\ utf8_valid bytes = true
    /\ universal_newlines bytes = pre +:+ old +:+ post
    /\ files (fst (_exec_edit os fs inp)) !! resolve os path
       = Some (pre +:+ new +:+ post)
    /\ (forall pre' post',
          universal_newlines bytes = pre' +:+ old +:+ post' ->
          String.length pre <= String.length pre')
    /\ (old = new ->
        files (fst (_exec_edit os fs inp)) !! resolve os path
        = Some (universal_newlines bytes))
    /\ (old = new -> Py.has_char CR bytes = false ->
        fst (_exec_edit os fs inp) = fs).
Proof.
  unfold _exec_edit.
  destruct (inp !! "file_path") as [path|]; [|discriminate].
  destruct (inp !! "old_string") as [old|]; [|discriminate].
  destruct (inp !! "new_string") as [new|]; [|discriminate].
  destruct (read_text os fs path) as [original|exc] eqn:Hread; [|discriminate].
  destruct (read_text_ok _ _ _ Hread) as (bytes & Hfile & Hvalid & ->).
  destruct (Py.contains (universal_newlines bytes) old) eqn:Hc; cbn [negb];
    [|discriminate].
  destruct (replace_first_spec (universal_newlines bytes) old new Hc)
    as (pre & post & Ho & Hr & Hmin).
  destruct (write_text_cases fs path
              (replace_first (universal_newlines bytes) old new))
    as [-> | [(written & exc & -> & _) | (_ & ->)]]; try discriminate.
  cbn [finish fst snd with_file files]. intros _.
  exists path, old, new, bytes, pre, post.
  rewrite lookup_insert_eq, Hr.
  split; [reflexivity|]. split; [reflexivity|]. split; [reflexivity|].
  split; [exact Hfile|]. split; [exact Hvalid|]. split; [exact Ho|].
  split; [reflexivity|]. split; [exact Hmin|]. split.
  - intros <-. now rewrite <- Ho.
  - intros <- Hcr. rewrite <- Ho, (universal_newlines_plain _ Hcr).
    unfold with_file. rewrite (insert_id _ _ _ Hfile). now destruct fs.
Qed.

Lemma apply_edits_failure path edits : forall i content j path' old40,
  apply_edits i path content edits = inr (EditNotFound j path' old40) ->
  exists before old new later reached,
    edits = before ++ (old, new) :: later
    /\ j = i + length before
    /\ apply_edits i path content before = inl reached
    /\ Py.contains reached old = false
    /\ path' = path
    /\ old40 = take_chars 40 old.
Proof.
  induction edits as [|[old new] edits IH]; intros i content j path' old40;
    cbn [apply_edits]; [discriminate|].
  destruct (Py.contains content old) eqn:Hc; cbn [negb].
  - intros H. destruct (IH _ _ _ _ _ H)
      as (before & old' & new' & later & reached & -> & -> & Hb & Hr & -> & ->).
    exists ((old, new) :: before), old', new', later, reached.
    cbn [apply_edits app length]. rewrite Hc. cbn [negb].
    repeat split; auto; lia.
  - intros [= <- <- <-]. exists [], old, new, edits, content.
    cbn [apply_edits app length]. repeat split; auto; lia.
Qed.

(** X14. When a multi-edit fails on an edit, the index it reports is
    that of the first edit whose [old_string] is missing from the
    content as the edits before it have left it, those edits having all
    applied in order to the text read from the file; nothing is
    written. *)
Theorem multiedit_reports_first_failure (fs : filesystem)
    (path : string) (edits : list (string * string)) (j : nat)
    (path' old40 : string) :
  snd (_exec_multiedit os fs (Some path) (Some edits))
    = Raises (EditNotFound j path' old40) ->
  exists bytes content before old new later reached,
    files fs !! resolve os path = Some bytes
    /\ content = universal_newlines bytes
    /\ edits = before ++ (old, new) :: later
    /\ j = length before
    /\ apply_edits 0 path content before = inl reached
    /\ Py.contains reached old = false
    /\ fst (_exec_multiedit os fs (Some path) (Some edits)) = fs.
Proof.
  unfold _exec_multiedit.
  destruct (read_text os fs path) as [content|exc] eqn:Hread.
  - destruct (read_text_ok _ _ _ Hread) as (bytes & Hfile & _ & ->).
    destruct (apply_edits 0 path (universal_newlines bytes) edits)
      as [content'|exc] eqn:Ha.
    + destruct (write_text_cases fs path content')
        as [-> | [(written & exc & -> & Hexc) | (_ & ->)]];
        cbn [finish snd]; try discriminate.
      intros [= ->]. discriminate Hexc.
    + cbn [fst snd]. intros [= ->].
      destruct (apply_edits_failure _ _ _ _ _ _ _ Ha)
        as (before & old & new & later & reached & He & Hj & Hb & Hr & _ & _).
      exists bytes, (universal_newlines bytes), before, old, new, later, reached.
      cbn [Nat.add] in Hj. repeat split; auto.
  - cbn [snd]. intros [= ->]. unfold read_text in Hread.
    destruct (opens_for_reading os fs path); cbn [negb] in Hread; [|discriminate].
    destruct (files fs !! resolve os path) as [bytes|]; [|discriminate].
    destruct (utf8_valid bytes); discriminate.
Qed.

End ExecutorFacts.


Lemma executor_effects_confined_witness :
  let failed_edit :=
    Executors._exec_edit Observe.sample_os Observe.sample_fs
      {[ "file_path" := "/work/notes.md"; "old_string" := "gamma";
         "new_string" := "delta" ]} in
  let cut_write :=
    Executors._exec_write Observe.sample_os Observe.sample_fs
      {[ "file_path" := "/full/log.txt"; "content" := "new content" ]} in
  fst failed_edit = Observe.sample_fs
  /\ Executors.files (fst cut_write) !! "/work/notes.md" = Some "alpha beta alpha"
  /\ Executors.writes_text Observe.sample_os "/full/log.txt" "new content"
       Observe.sample_fs cut_write.
Proof.
  cbv zeta.
  pose proof (executor_effects_confined Observe.sample_os Observe.sample_fs
                {[ "file_path" := "/work/notes.md"; "old_string" := "gamma";
                   "new_string" := "delta" ]} None None)
    as (_ & (_ & _ & Hedit) & _).
  pose proof (executor_effects_confined Observe.sample_os Observe.sample_fs
                {[ "file_path" := "/full/log.txt"; "content" := "new content" ]}
                None None)
    as ((Hother & _) & _ & _ & _ & _ & Hwrite & _).
  split; [|split].
  - apply (Hedit (Executors.OldStringNotFound "/work/notes.md"));
      vm_compute; reflexivity.
  - rewrite (Hother "/work/notes.md"); [vm_compute; reflexivity|].
    vm_compute. discriminate.
  - apply Hwrite; vm_compute; reflexivity.
Defined.

Lemma edit_replaces_first_occurrence_witness :
  let inp : gmap string string :=
    {[ "file_path" := "/work/dos.txt"; "old_string" := "two";
       "new_string" := "2" ]} in
  let fs' := fst (Executors._exec_edit Observe.sample_os Observe.sample_fs inp) in
  exists path old new bytes pre post,
    inp !! "file_path" = Some path
    /\ inp !! "old_string" = Some old
    /\ inp !! "new_string" = Some new
    /\ Executors.files Observe.sample_fs !! path = Some bytes
    /\ Executors.utf8_valid bytes = true
    /\ Executors.universal_newlines bytes = pre +:+ old +:+ post
    /\ Executors.files fs' !! path = Some (pre +:+ new +:+ post)
    /\ (forall pre' post',
          Executors.universal_newlines bytes = pre' +:+ old +:+ post' ->
          String.length pre <= String.length pre')
    /\ (old = new ->
        Executors.files fs' !! path = Some (Executors.universal_newlines bytes))
    /\ (old = new -> Py.has_char Executors.CR bytes = false ->
        fs' = Observe.sample_fs).
Proof.
  apply (edit_replaces_first_occurrence Observe.sample_os Observe.sample_fs
           {[ "file_path" := "/work/dos.txt"; "old_string" := "two";
              "new_string" := "2" ]} "Edited /work/dos.txt").
  vm_compute. reflexivity.
Defined.

(** The file whose lines end in [CR LF] comes out of an edit with [LF]
    line ends; a write cut short leaves the first bytes of the new text
    where the old content was; a write that cannot be opened has made
    the directories all the same; and the length reported counts the
    characters, not the bytes. *)
Example edit_rewrites_line_ends :
  Executors.files
    (fst (Executors._exec_edit Observe.sample_os Observe.sample_fs
            {[ "file_path" := "/work/dos.txt"; "old_string" := "two";
               "new_string" := "2" ]}))
  !! "/work/dos.txt"
  = Some ("one" +:+ Py.newline +:+ "2" +:+ Py.newline).
Proof. vm_compute. reflexivity. Qed.

Example interrupted_write_truncates :
  let r := Executors._exec_write Observe.sample_os Observe.sample_fs
             {[ "file_path" := "/full/log.txt"; "content" := "new content" ]} in
  snd r = Executors.Raises (Executors.OSError "/full/log.txt")
  /\ Executors.files (fst r) !! "/full/log.txt" = Some "new".
Proof. vm_compute. auto. Qed.

Example refused_write_leaves_directories :
  let r := Executors._exec_write Observe.sample_os Observe.sample_fs
             {[ "file_path" := "/ro/deep/x.txt"; "content" := "text" ]} in
  snd r = Executors.Raises (Executors.OSError "/ro/deep/x.txt")
  /\ Executors.files (fst r) = Executors.files Observe.sample_fs
  /\ "/ro/deep" ∈ Executors.dirs (fst r)
  /\ "/ro/deep" ∉ Executors.dirs Observe.sample_fs.
Proof.
  split; [vm_compute; reflexivity|]. split; [vm_compute; reflexivity|].
  split.
  - apply elem_of_union_r, elem_of_singleton. vm_compute. reflexivity.
  - cbn [Observe.sample_fs Executors.dirs].
    rewrite elem_of_union, !elem_of_singleton. intros [H | H]; discriminate H.
Qed.

Example len_counts_characters :
  Executors.len (String (ascii_of_nat 195) (String (ascii_of_nat 169) "!")) = 2
  /\ Executors.take_chars 1
       (String (ascii_of_nat 195) (String (ascii_of_nat 169) "!"))
     = String (ascii_of_nat 195) (String (ascii_of_nat 169) "").
Proof. vm_compute. auto. Qed.

Lemma multiedit_reports_first_failure_witness :
  let edits := [("alpha", "one"); ("gamma", "two")] in
  exists bytes content before old new later reached,
    Executors.files Observe.sample_fs !! "/work/notes.md" = Some bytes
    /\ content = Executors.universal_newlines bytes
    /\ edits = before ++ (old, new) :: later
    /\ 1 = length before
    /\ Executors.apply_edits 0 "/work/notes.md" content before = inl reached
    /\ Py.contains reached old = false
    /\ fst (Executors._exec_multiedit Observe.sample_os Observe.sample_fs
              (Some "/work/notes.md") (Some edits))
       = Observe.sample_fs.
Proof.
  apply (multiedit_reports_first_failure Observe.sample_os Observe.sample_fs
           "/work/notes.md" [("alpha", "one"); ("gamma", "two")] 1
           "/work/notes.md" "gamma").
  vm_compute. reflexivity.
Defined.

(** ** The approval broker, further *)

Section BrokerMoreFacts.

Import Broker.

Variable permission_rules_service : option rules_service.

(** X15. A call the broker rejects changes nothing, in the registry or
    in the provider.  The long-poll and a well-formed decide on an id
    that is not registered are rejected as not found, and a decide whose
    decision is neither allow nor deny is rejected as a bad request,
    registered or not. *)
Theorem rejected_calls_change_nothing (st : state) (c : call) :
  (forall status error,
     snd (serve permission_rules_service st c) = Rejected status error ->
     fst (serve permission_rules_service st c) = st)
  /\ (forall request_id,
        _events st !! request_id = None ->
        (exists error,
           api_approval_wait st request_id = (st, Rejected 404 error, 0%Z))
        /\ (forall decision,
              Py.truthy request_id = true -> decision ∈ ["allow"; "deny"] ->
              exists error,
                api_approval_decide st request_id decision
                = (st, Rejected 404 error)))
  /\ (forall request_id decision,
        Py.truthy request_id = true -> decision ∉ ["allow"; "deny"] ->
        exists error,
          api_approval_decide st request_id decision = (st, Rejected 400 error)).
Proof.
  split; [|split].
  - intros status error.
    destruct c as [rid chat tool inp | rid | rid d | rid chat qs | rid a];
      cbn [serve].
    + unfold api_approval_request, auto_allow.
      destruct (Py.truthy rid); cbn [negb]; [|reflexivity].
      destruct (rules_allow permission_rules_service tool inp);
        [discriminate|].
      destruct (in_code_folder st chat tool inp); discriminate.
    + unfold api_approval_wait.
      destruct (_events st !! rid) as [ev|]; [|reflexivity].
      destruct (event_wait ev WAIT_TIMEOUT). discriminate.
    + unfold api_approval_decide.
      destruct (Py.truthy rid); cbn [negb]; [|reflexivity].
      destruct (bool_decide (d ∈ ["allow"; "deny"])); cbn [negb]; [|reflexivity].
      destruct (_events st !! rid); [discriminate | reflexivity].
    + unfold api_approval_question.
      destruct (Py.truthy rid); cbn [negb]; [discriminate | reflexivity].
    + unfold api_approval_answer.
      destruct (Py.truthy rid); cbn [negb]; [|reflexivity].
      destruct (_events st !! rid); [discriminate | reflexivity].
  - intros rid Hnone. split.
    + unfold api_approval_wait. rewrite Hnone. eauto.
    + intros d Hid Hd. unfold api_approval_decide. rewrite Hid. cbn [negb].
      rewrite (bool_decide_eq_true_2 _ Hd). cbn [negb]. rewrite Hnone. eauto.
  - intros rid d Hid Hd. unfold api_approval_decide. rewrite Hid. cbn [negb].
    rewrite (bool_decide_eq_false_2 _ Hd). cbn [negb]. eauto.
Qed.


(** X17. A request left for a human reaches the chat's stream when that
    chat has a live run: one permission-request item goes to the tail of
    its queue, and nothing else in the provider changes.  When the chat
    has no live run nothing is delivered, the request stays pending, and
    with no decision recorded for the id the long-poll that follows runs
    out its bound and answers deny. *)
Theorem surfaced_request_delivery (st : state)
    (request_id chat_id tool : string) (inp : gmap string string) :
  Py.truthy request_id = true ->
  rules_allow permission_rules_service tool inp = false ->
  in_code_folder st chat_id tool inp = false ->
  let st1 := fst (api_approval_request permission_rules_service st request_id
                    chat_id tool inp) in
  (forall q,
     Provider._inject_queues (provider st) !! chat_id = Some q ->
     exists ev,
       Provider._inject_queues (provider st1)
       = <[chat_id := q ++ [Provider.QInject ev]]>
           (Provider._inject_queues (provider st))
       /\ injects_permission_request (Provider.QInject ev) = true
       /\ Provider.with_inject_queues (provider st1)
            (Provider._inject_queues (provider st)) = provider st)
  /\ (Provider._inject_queues (provider st) !! chat_id = None ->
      provider st1 = provider st
      /\ (_decisions st !! request_id = None ->
          snd (fst (api_approval_wait st1 request_id)) = Decision "deny"
          /\ snd (api_approval_wait st1 request_id) = WAIT_TIMEOUT
          /\ purged (fst (fst (api_approval_wait st1 request_id))) request_id)).
Proof.
  intros Hid Hrules Hfolder st1. subst st1. unfold api_approval_request.
  rewrite Hid, Hrules, Hfolder. cbn [negb fst provider]. split.
  - intros q Hq. unfold Provider.inject_event. rewrite Hq. cbn [fst].
    eexists. cbn [Provider._inject_queues Provider.with_inject_queues].
    split; [reflexivity|]. split; [reflexivity|].
    destruct (provider st); reflexivity.
  - intros Hq. unfold Provider.inject_event. rewrite Hq. cbn [fst].
    split; [reflexivity|]. intros Hd.
    unfold api_approval_wait. cbn [_events _decisions _pending].
    rewrite lookup_insert_eq, Hd. cbn [event_wait fst snd].
    repeat split; cbn [_pending _decisions _events]; apply lookup_delete_eq.
Qed.

(** X18. The answer endpoint is the decide endpoint without its check:
    on any registered id, a tool request included, the text it stores is
    what the long-poll hands out, at once, purging the entry.  Fed back
    to the approval client, that text is the decision the client acts
    on. *)
Theorem answer_decides_tool_request (st : state) (request_id answer : string)
    (gate_id tool : string) (inp : gmap string string) :
  registered st request_id ->
  Py.truthy request_id = true ->
  let st1 := fst (api_approval_answer st request_id answer) in
  let polled := api_approval_wait st1 request_id in
  snd (fst polled) = Decision answer
  /\ snd polled = 0%Z
  /\ purged (fst (fst polled)) request_id
  /\ fst (ApprovalGate._request_approval
            {| ApprovalGate.net_post := ApprovalGate.PostOk;
               ApprovalGate.net_poll := Observe.poll_of (snd (fst polled)) |}
            gate_id tool inp) = answer.
Proof.
  intros [ev Hev] Hid st1 polled. subst polled st1.
  unfold api_approval_answer. rewrite Hid. cbn [negb]. rewrite Hev.
  cbn [fst]. unfold api_approval_wait. cbn [_events _decisions _pending].
  rewrite !lookup_insert_eq. cbn [event_wait fst snd].
  split; [reflexivity|]. split; [reflexivity|]. split.
  - repeat split; cbn [_pending _decisions _events]; apply lookup_delete_eq.
  - unfold ApprovalGate._request_approval, Observe.poll_of.
    cbn [ApprovalGate.net_post ApprovalGate.net_poll fst].
    rewrite lookup_singleton_eq. reflexivity.
Qed.

Lemma serve_keeps_domains st c :
  (forall id, is_Some (_pending st !! id) <-> is_Some (_events st !! id)) ->
  (forall id, is_Some (_decisions st !! id) -> is_Some (_events st !! id)) ->
  (forall id, is_Some (_pending (fst (serve permission_rules_service st c)) !! id)
              <-> is_Some (_events (fst (serve permission_rules_service st c)) !! id))
  /\ (forall id,
        is_Some (_decisions (fst (serve permission_rules_service st c)) !! id)
        -> is_Some (_events (fst (serve permission_rules_service st c)) !! id)).
Proof.
  intros Hpe Hde.
  destruct c as [rid chat tool inp | rid | rid d | rid chat qs | rid a];
    cbn [serve].
  - unfold api_approval_request, auto_allow.
    destruct (Py.truthy rid); cbn [negb]; [|auto].
    destruct (rules_allow permission_rules_service tool inp);
      [|destruct (in_code_folder st chat tool inp)];
      cbn [fst _pending _events _decisions]; split; intros id;
      destruct (decide (rid = id)) as [->|Hne];
      rewrite ?lookup_insert_eq, ?lookup_insert_ne by done;
      try (split; eauto); eauto; try apply Hpe; try apply Hde.
  - unfold api_approval_wait.
    destruct (_events st !! rid) as [ev|]; [|auto].
    destruct (event_wait ev WAIT_TIMEOUT).
    cbn [fst _pending _events _decisions]; split; intros id;
      destruct (decide (rid = id)) as [->|Hne];
      rewrite ?lookup_delete_eq, ?lookup_delete_ne by done;
      try (split; intros [? ?]; discriminate); try (intros [? ?]; discriminate);
      try apply Hpe; try apply Hde.
  - unfold api_approval_decide.
    destruct (Py.truthy rid); cbn [negb]; [|auto].
    destruct (bool_decide (d ∈ ["allow"; "deny"])); cbn [negb]; [|auto].
    destruct (_events st !! rid) as [ev|] eqn:Hev; [|auto].
    cbn [fst _pending _events _decisions]; split; intros id;
      destruct (decide (rid = id)) as [->|Hne];
      rewrite ?lookup_insert_eq, ?lookup_insert_ne by done;
      try apply Hpe; try apply Hde; eauto.
    rewrite Hpe, Hev. split; eauto.
  - unfold api_approval_question.
    destruct (Py.truthy rid); cbn [negb]; [|auto].
    cbn [fst _pending _events _decisions]; split; intros id;
      destruct (decide (rid = id)) as [->|Hne];
      rewrite ?lookup_insert_eq, ?lookup_insert_ne by done;
      try (split; eauto); eauto; try apply Hpe; try apply Hde.
  - unfold api_approval_answer.
    destruct (Py.truthy rid); cbn [negb]; [|auto].
    destruct (_events st !! rid) as [ev|] eqn:Hev; [|auto].
    cbn [fst _pending _events _decisions]; split; intros id;
      destruct (decide (rid = id)) as [->|Hne];
      rewrite ?lookup_insert_eq, ?lookup_insert_ne by done;
      try apply Hpe; try apply Hde; eauto.
    rewrite Hpe, Hev. split; eauto.
Qed.

(** X19. However the broker is driven from an empty registry, the three
    dictionaries stay in step: an id has a pending entry exactly when it
    has an event, and a decision is only ever held for an id that has
    both. *)
Theorem registry_stays_in_step (p : Provider.provider) (calls : list call) :
  let st := fst (serve_all permission_rules_service (empty_state p) calls) in
  (forall id, is_Some (_pending st !! id) <-> is_Some (_events st !! id))
  /\ (forall id, is_Some (_decisions st !! id) -> is_Some (_events st !! id)).
Proof.
  cbv zeta.
  assert (forall cs st,
            (forall id, is_Some (_pending st !! id) <-> is_Some (_events st !! id)) ->
            (forall id, is_Some (_decisions st !! id) -> is_Some (_events st !! id)) ->
            (forall id,
               is_Some (_pending (fst (serve_all permission_rules_service st cs)) !! id)
               <-> is_Some (_events (fst (serve_all permission_rules_service st cs)) !! id))
            /\ (forall id,
                  is_Some (_decisions (fst (serve_all permission_rules_service st cs)) !! id)
                  -> is_Some (_events (fst (serve_all permission_rules_service st cs)) !! id)))
    as Hall.
  { induction cs as [|c cs IH]; intros st Hpe Hde; [auto|].
    cbn [serve_all].
    destruct (serve_keeps_domains st c Hpe Hde) as [H1 H2].
    destruct (serve permission_rules_service st c) as [st1 r]. cbn [fst] in H1, H2.
    specialize (IH st1 H1 H2).
    destruct (serve_all permission_rules_service st1 cs) as [st2 rs]. exact IH. }
  apply Hall; intros id; unfold empty_state; cbn [_pending _events _decisions];
    rewrite ?lookup_empty; [split|]; intros [? ?]; discriminate.
Qed.

(** X20. An accepted decide tells the chat that asked: when the pending
    entry names a chat with a live run, one decision notice, approved
    exactly for allow, goes to the tail of that chat's queue; when the
    entry names no chat, or the chat has no live run, the provider is
    left as it was. *)
Theorem decide_notifies_chat (st : state) (request_id decision : string)
    (entry : pending_entry) :
  registered st request_id ->
  Py.truthy request_id = true ->
  decision ∈ ["allow"; "deny"] ->
  _pending st !! request_id = Some entry ->
  let st1 := fst (api_approval_decide st request_id decision) in
  (forall q,
     Py.truthy (pending_chat entry) = true ->
     Provider._inject_queues (provider st) !! pending_chat entry = Some q ->
     Provider._inject_queues (provider st1)
     = <[pending_chat entry :=
           q ++ [Provider.QInject
                   (Provider.PermissionDecision request_id
                      (String.eqb decision "allow"))]]>
         (Provider._inject_queues (provider st)))
  /\ (Py.truthy (pending_chat entry) = false
      \/ Provider._inject_queues (provider st) !! pending_chat entry = None ->
      provider st1 = provider st).
Proof.
  intros [ev Hev] Hid Hd Hentry st1. subst st1. unfold api_approval_decide.
  rewrite Hid. cbn [negb]. rewrite (bool_decide_eq_true_2 _ Hd). cbn [negb].
  rewrite Hev, Hentry. cbn [fmap option_fmap option_map default fst provider].
  split.
  - intros q Hchat Hq. simpl. rewrite Hchat. unfold Provider.inject_event.
    rewrite Hq. reflexivity.
  - intros [Hchat | Hq]; simpl.
    + rewrite Hchat. reflexivity.
    + destruct (Py.truthy (pending_chat entry)); [|reflexivity].
      unfold Provider.inject_event. rewrite Hq. reflexivity.
Qed.

End BrokerMoreFacts.


Lemma rejected_calls_change_nothing_witness :
  fst (Broker.serve None Broker.sample_state (Broker.CallDecide "req-9" "allow"))
  = Broker.sample_state.
Proof.
  apply (proj1 (rejected_calls_change_nothing None Broker.sample_state
                  (Broker.CallDecide "req-9" "allow"))
           404%Z "No pending request for this request_id").
  vm_compute. reflexivity.
Defined.


Lemma surfaced_request_delivery_witness :
  let live := Broker.empty_state Observe.sample_live_provider in
  let st1 := fst (Broker.api_approval_request None live "req-1" "chat-1" "Bash"
                    {[ "command" := "make test" ]}) in
  (exists ev,
     Provider._inject_queues (Broker.provider st1)
     = <["chat-1" := [] ++ [Provider.QInject ev]]>
         (Provider._inject_queues (Broker.provider live))
     /\ Broker.injects_permission_request (Provider.QInject ev) = true
     /\ Provider.with_inject_queues (Broker.provider st1)
          (Provider._inject_queues (Broker.provider live))
        = Broker.provider live)
  /\ Broker.provider
       (fst (Broker.api_approval_request None Broker.sample_state "req-1"
               "chat-1" "Bash" {[ "command" := "make test" ]}))
     = Broker.provider Broker.sample_state.
Proof.
  split.
  - refine (proj1 (surfaced_request_delivery None
                     (Broker.empty_state Observe.sample_live_provider) "req-1"
                     "chat-1" "Bash" {[ "command" := "make test" ]} _ _ _) [] _).
    + reflexivity.
    + reflexivity.
    + reflexivity.
    + vm_compute. reflexivity.
  - refine (proj1 (proj2 (surfaced_request_delivery None Broker.sample_state
                            "req-1" "chat-1" "Bash"
                            {[ "command" := "make test" ]} _ _ _) _)).
    + reflexivity.
    + reflexivity.
    + reflexivity.
    + vm_compute. reflexivity.
Defined.

(** On the live run, the request is the one item in the chat's queue. *)
Example surfaced_request_is_queued :
  Provider._inject_queues
    (Broker.provider
       (fst (Broker.api_approval_request None
               (Broker.empty_state Observe.sample_live_provider) "req-1" "chat-1"
               "Bash" {[ "command" := "make test" ]})))
  !! "chat-1"
  = Some [Provider.QInject
            (Provider.PermissionRequest "req-1" "Bash" "" "make test"
               {[ "command" := "make test" ]} None)].
Proof. vm_compute. reflexivity. Qed.

Lemma answer_decides_tool_request_witness :
  snd (fst (Broker.api_approval_wait
              (fst (Broker.api_approval_answer Broker.sample_pending "req-1" "allow"))
              "req-1"))
  = Broker.Decision "allow".
Proof.
  refine (proj1 (answer_decides_tool_request Broker.sample_pending "req-1" "allow"
                   "gate-1" "Bash" {[ "command" := "make test" ]} _ _)).
  - vm_compute. eauto.
  - reflexivity.
Defined.

Lemma registry_stays_in_step_witness :
  is_Some
    (Broker._events
       (fst (Broker.serve_all None (Broker.empty_state Provider.sample_provider)
               Broker.sample_calls)) !! "req-1").
Proof.
  apply (proj1 (proj1 (registry_stays_in_step None Provider.sample_provider
                         Broker.sample_calls) "req-1")).
  vm_compute. eauto.
Defined.

Lemma decide_notifies_chat_witness :
  Provider._inject_queues
    (Broker.provider
       (fst (Broker.api_approval_decide Observe.sample_live_pending "req-1" "deny")))
  !! "chat-1"
  = Some [Provider.QInject
            (Provider.PermissionRequest "req-1" "Bash" "" "make test"
               {[ "command" := "make test" ]} None);
          Provider.QInject (Provider.PermissionDecision "req-1" false)].
Proof.
  assert (Hreg : Broker.registered Observe.sample_live_pending "req-1")
    by (vm_compute; eauto).
  assert (Hdec : "deny" ∈ ["allow"; "deny"])
    by apply list_elem_of_further, list_elem_of_here.
  assert (Hpend : Broker._pending Observe.sample_live_pending !! "req-1"
                  = Some (Broker.PendingTool "chat-1" "Bash"
                            {[ "command" := "make test" ]}))
    by (vm_compute; reflexivity).
  assert (Hq : Provider._inject_queues (Broker.provider Observe.sample_live_pending)
               !! "chat-1"
               = Some [Provider.QInject
                         (Provider.PermissionRequest "req-1" "Bash" "" "make test"
                            {[ "command" := "make test" ]} None)])
    by (vm_compute; reflexivity).
  rewrite (proj1 (decide_notifies_chat Observe.sample_live_pending "req-1" "deny"
                    _ Hreg eq_refl Hdec Hpend) _ eq_refl Hq).
  apply lookup_insert_eq.
Defined.

(** ** Code folders and the sessions file *)

Section SessionFacts.

Import Provider Sessions.

Lemma falsy_empty (s : string) : Py.truthy s = false -> s = "".
Proof. destruct s; [reflexivity | discriminate]. Qed.

(** X21. [get_code_folder] reads back what [set_code_folder] was given,
    the empty path included (which unregisters the folder), and the
    folders of the other chats are not touched; registered folders stay
    non-empty paths. *)
Theorem code_folder_round_trip (p : provider) (chat_id path : string) :
  get_code_folder (set_code_folder p chat_id path) chat_id = path
  /\ (forall other, other <> chat_id ->
        get_code_folder (set_code_folder p chat_id path) other
        = get_code_folder p other)
  /\ (folders_nonempty p -> folders_nonempty (set_code_folder p chat_id path))
  /\ _session_map (set_code_folder p chat_id path) = _session_map p.
Proof.
  unfold get_code_folder, set_code_folder, Py.get.
  destruct (Py.truthy path) eqn:Hp; cbn [with_code_folders _code_folders _session_map].
  - rewrite lookup_insert_eq. split; [reflexivity|]. split; [|split; [|reflexivity]].
    + intros other Hne. now rewrite lookup_insert_ne.
    + intros Hall c cf. cbn [_code_folders with_code_folders].
      destruct (decide (chat_id = c)) as [->|Hne].
      * rewrite lookup_insert_eq. now intros [= <-].
      * rewrite lookup_insert_ne by done. apply Hall.
  - rewrite lookup_delete_eq. split; [symmetry; now apply falsy_empty|].
    split; [|split; [|reflexivity]].
    + intros other Hne. now rewrite lookup_delete_ne.
    + intros Hall c cf. cbn [_code_folders with_code_folders].
      destruct (decide (chat_id = c)) as [->|Hne].
      * now rewrite lookup_delete_eq.
      * rewrite lookup_delete_ne by done. apply Hall.
Qed.

Lemma stored_session_to_store folders chat_id sid :
  stored_session (to_store folders chat_id sid) = Some sid.
Proof.
  unfold to_store. destruct (Py.truthy (Py.get folders chat_id)); [|reflexivity].
  cbn [stored_session]. unfold Py.get at 1.
  rewrite lookup_insert_eq. reflexivity.
Qed.

Lemma stored_folder_to_store folders chat_id sid :
  stored_folder (to_store folders chat_id sid)
  = if Py.truthy (Py.get folders chat_id) then Some (Py.get folders chat_id)
    else None.
Proof.
  unfold to_store. destruct (Py.truthy (Py.get folders chat_id)) eqn:Hcf;
    [|reflexivity].
  cbn [stored_folder]. unfold Py.get at 1 3.
  rewrite lookup_insert_ne by discriminate. rewrite lookup_singleton_eq.
  cbn [default]. simpl. rewrite Hcf. reflexivity.
Qed.

(** X22. What a successful save writes, a later start reads back: every
    session id, and the code folder of every chat that has a session.  A
    code folder registered for a chat that has no session yet is not in
    the file, so it is gone after the restart. *)
Theorem sessions_survive_restart (p fresh : provider) (file : sessions_file) :
  _session_map fresh = ∅ ->
  _code_folders fresh = ∅ ->
  exists p',
    _load_sessions fresh (_save_sessions true true p file) = Some p'
    /\ _session_map p' = _session_map p
    /\ (forall chat_id,
          _code_folders p' !! chat_id
          = match _session_map p !! chat_id with
            | Some _ =>
                if Py.truthy (Py.get (_code_folders p) chat_id)
                then Some (Py.get (_code_folders p) chat_id) else None
            | None => None
            end)
    /\ (forall chat_id cf,
          _session_map p !! chat_id = None ->
          _code_folders p !! chat_id = Some cf ->
          _code_folders p' !! chat_id = None).
Proof.
  intros Hs Hf. unfold _save_sessions, _load_sessions. cbn [andb].
  eexists. split; [reflexivity|].
  cbn [with_code_folders with_session_map _session_map _code_folders].
  rewrite Hs, Hf.
  assert (forall chat_id,
            (omap stored_folder
               (map_imap (fun c sid => Some (to_store (_code_folders p) c sid))
                  (_session_map p)) ∪ ∅) !! chat_id
            = match _session_map p !! chat_id with
              | Some _ =>
                  if Py.truthy (Py.get (_code_folders p) chat_id)
                  then Some (Py.get (_code_folders p) chat_id) else None
              | None => None
              end) as Hfold.
  { intros chat_id. rewrite lookup_union, lookup_empty, lookup_omap,
      map_lookup_imap.
    destruct (_session_map p !! chat_id) as [sid|]; cbn; [|reflexivity].
    rewrite stored_folder_to_store.
    destruct (Py.truthy (Py.get (_code_folders p) chat_id)); reflexivity. }
  split; [|split].
  - apply map_eq. intros chat_id.
    rewrite lookup_union, lookup_empty, lookup_omap, map_lookup_imap.
    destruct (_session_map p !! chat_id) as [sid|]; cbn; [|reflexivity].
    rewrite stored_session_to_store. reflexivity.
  - exact Hfold.
  - intros chat_id cf Hnone _. rewrite Hfold, Hnone. reflexivity.
Qed.

End SessionFacts.


Lemma code_folder_round_trip_witness :
  Sessions.folders_nonempty
    (Provider.set_code_folder Provider.sample_provider "chat-1" "/work/app").
Proof.
  apply (proj1 (proj2 (proj2 (code_folder_round_trip Provider.sample_provider
                                "chat-1" "/work/app")))).
  intros chat_id cf H. cbn in H. rewrite lookup_empty in H. discriminate.
Defined.

Lemma sessions_survive_restart_witness :
  exists p',
    Sessions._load_sessions Provider.sample_provider
      (snd (Sessions.set_code_folder_saved true true
              Provider.sample_session_provider Sessions.NoFile "chat-1"
              "/work/app"))
    = Some p'
    /\ Provider._session_map p' !! "chat-1" = Some "sess-0"
    /\ Provider.get_code_folder p' "chat-1" = "/work/app".
Proof.
  destruct (sessions_survive_restart
              (Provider.set_code_folder Provider.sample_session_provider "chat-1"
                 "/work/app")
              Provider.sample_provider Sessions.NoFile eq_refl eq_refl)
    as (p' & Hload & Hsessions & Hfolders & _).
  exists p'. split; [exact Hload|]. split.
  - rewrite Hsessions. vm_compute. reflexivity.
  - unfold Provider.get_code_folder, Py.get. rewrite Hfolders.
    vm_compute. reflexivity.
Defined.

(** ** The run, further *)

Section RunMoreFacts.

Import Provider.

Variable json_loads : string -> json_value.
Variable mcp_cfg : string.




(** X24. An event injected for a chat with a live run goes to the tail
    of that run's queue, and the loop, once it has consumed what arrived
    before, yields it verbatim right after what those items yielded,
    without recording it or touching the loop's state.  For a chat with
    no live run, [inject_event] answers false and changes nothing. *)
Theorem injected_event_arrives_in_order (p : provider) (chat_id : string)
    (ev : injected) :
  (_inject_queues p !! chat_id = None -> inject_event p chat_id ev = (p, false))
  /\ (forall q t ls ls1 later,
        _inject_queues p !! chat_id = Some q ->
        consume json_loads chat_id q ls = (t, ls1, Starved) ->
        snd (inject_event p chat_id ev) = true
        /\ _inject_queues (fst (inject_event p chat_id ev)) !! chat_id
           = Some (q ++ [QInject ev])
        /\ consume json_loads chat_id ((q ++ [QInject ev]) ++ later) ls
           = after (t ++ [Yield (YInjected ev)])
                   (consume json_loads chat_id later ls1)).
Proof.
  split.
  - intros Hq. unfold inject_event. rewrite Hq. reflexivity.
  - intros q t ls ls1 later Hq Hc. unfold inject_event. rewrite Hq.
    cbn [fst snd with_inject_queues _inject_queues].
    rewrite lookup_insert_eq. split; [reflexivity|]. split; [reflexivity|].
    rewrite <- app_assoc. rewrite (consume_app json_loads _ _ _ _ _ _ Hc).
    cbn [app consume]. rewrite (consume_starved_waiting json_loads _ _ _ _ _ Hc).
    cbn [loop_body]. now rewrite after_after.
Qed.

(** X25. [cancel] answers false and changes nothing when the chat has no
    process registered or the process has already exited.  Otherwise it
    puts the sentinel at the tail of the chat's queue, and the loop, once
    it has consumed what arrived before, yields the cancelled event and
    stops, whatever arrives later. *)
Theorem cancel_reaches_live_run (p : provider) (chat_id : string)
    (alive : bool) :
  (chat_id ∉ _process_map p \/ alive = false -> cancel p chat_id alive = (p, false))
  /\ (forall q t ls ls1 later,
        chat_id ∈ _process_map p -> alive = true ->
        _inject_queues p !! chat_id = Some q ->
        consume json_loads chat_id q ls = (t, ls1, Starved) ->
        snd (cancel p chat_id alive) = true
        /\ _inject_queues (fst (cancel p chat_id alive)) !! chat_id
           = Some (q ++ [QCancel])
        /\ consume json_loads chat_id ((q ++ [QCancel]) ++ later) ls
           = (t ++ [Yield (YEvent Cancelled)], set_cancelled ls1, CancelSeen)).
Proof.
  split.
  - intros [Hp | ->]; unfold cancel.
    + rewrite (bool_decide_eq_false_2 _ Hp). reflexivity.
    + rewrite orb_true_r. reflexivity.
  - intros q t ls ls1 later Hp -> Hq Hc. unfold cancel.
    rewrite (bool_decide_eq_true_2 _ Hp). cbn [negb orb]. rewrite Hq.
    cbn [fst snd with_inject_queues _inject_queues].
    rewrite lookup_insert_eq. split; [reflexivity|]. split; [reflexivity|].
    rewrite <- app_assoc. rewrite (consume_app json_loads _ _ _ _ _ _ Hc).
    cbn [app consume]. rewrite (consume_starved_waiting json_loads _ _ _ _ _ Hc).
    cbn [loop_body after]. reflexivity.
Qed.

Lemma closes_app t1 t2 :
  Observe.closes (t1 ++ t2) = Observe.closes t1 + Observe.closes t2.
Proof. unfold Observe.closes. now rewrite List.filter_app, List.length_app. Qed.

Lemma closes_cons a t :
  Observe.closes (a :: t) = Nat.b2n (Observe.is_close a) + Observe.closes t.
Proof. unfold Observe.closes. cbn [List.filter]. now destruct (Observe.is_close a). Qed.

Lemma spawns_cons a t : spawns (a :: t) = Nat.b2n (is_spawn a) + spawns t.
Proof. unfold spawns. cbn [List.filter]. now destruct (is_spawn a). Qed.

Lemma loop_body_closes chat_id item ls :
  match loop_body json_loads chat_id item ls with
  | Continue acts ls1 | Leave acts ls1 _ =>
      Observe.closes acts + Nat.b2n (stdin_closed ls) = Nat.b2n (stdin_closed ls1)
  end.
Proof.
  destruct item as [line|line| | |ev|]; cbn [loop_body]; try reflexivity.
  - destruct (Py.truthy line); cbn [negb]; [|reflexivity].
    destruct (json_loads line) as [| |ev]; try reflexivity.
    destruct (bool_decide (ev !! "type" = Some "result"));
      [destruct (Py.truthy (Py.get ev "session_id") && Py.truthy chat_id)|];
      cbn [add_stdout set_result stdin_closed]; destruct (stdin_closed ls);
      reflexivity.
  - destruct (Py.truthy line); reflexivity.
Qed.

Lemma consume_closes chat_id q : forall ls t ls1 ex,
  consume json_loads chat_id q ls = (t, ls1, ex) ->
  Observe.closes t + Nat.b2n (stdin_closed ls) = Nat.b2n (stdin_closed ls1).
Proof.
  induction q as [|item q IH]; intros ls t ls1 ex; cbn [consume].
  - destruct (out_done ls && err_done ls); intros [= <- <- <-]; reflexivity.
  - destruct (out_done ls && err_done ls); [intros [= <- <- <-]; reflexivity|].
    pose proof (loop_body_closes chat_id item ls) as Hbody.
    destruct (loop_body json_loads chat_id item ls) as [acts ls2|acts ls2 ex2].
    + intros H. apply after_inv in H as (t1 & H & ->).
      apply IH in H. rewrite closes_app. lia.
    + intros [= <- <- <-]. exact Hbody.
Qed.

Lemma teardown_closes a p chat_id ls :
  Observe.closes (fst (teardown a p chat_id ls)) + Nat.b2n (stdin_closed ls) <= 1.
Proof.
  unfold teardown.
  destruct (was_cancelled ls), (a_exits_in_grace a), (Py.truthy chat_id),
    (stdin_closed ls); cbn; lia.
Qed.

Lemma no_stdout_error_closes a ls : Observe.closes (no_stdout_error a ls) = 0.
Proof.
  unfold no_stdout_error. destruct (got_result ls), (stdout_lines ls); reflexivity.
Qed.

(** X26. Over a whole run, retry included, the stdin of the CLI is
    closed at most once per process spawned: the close on a result event
    and the close of the final block never both happen for one
    process. *)
Theorem stdin_closed_at_most_once_per_spawn (script : list attempt) :
  forall (p : provider) (prompt workspace model chat_id orig : string)
    (images : list (gmap string string)) (is_retry : bool),
    Observe.closes
      (fst (fst (_run_stream_impl json_loads mcp_cfg script p prompt workspace
                   model chat_id images is_retry orig)))
    <= spawns
         (fst (fst (_run_stream_impl json_loads mcp_cfg script p prompt workspace
                      model chat_id images is_retry orig))).
Proof.
  induction script as [|a later IH]; intros p prompt workspace model chat_id
    orig images is_retry; [cbn; lia|].
  cbn [_run_stream_impl].
  destruct (a_spawn a);
    [|cbn [fst]; rewrite !closes_cons, !spawns_cons; cbn; lia].
  destruct (a_stdin_write a);
    [cbn [fst]; rewrite !closes_cons, !spawns_cons; cbn; lia|].
  rewrite registered_session_map.
  destruct (consume json_loads chat_id (a_queue a) (loop_start (_session_map p)))
    as [[t ls] ex] eqn:Hloop.
  pose proof (consume_closes _ _ _ _ _ _ Hloop) as Hc.
  cbn [loop_start stdin_closed Nat.b2n] in Hc.
  pose proof (teardown_closes a (if Py.truthy chat_id then register_run p chat_id else p)
                chat_id ls) as Hf.
  destruct (teardown a (if Py.truthy chat_id then register_run p chat_id else p)
              chat_id ls) as [fin p1].
  cbn [fst] in Hf.
  pose proof (no_stdout_error_closes a ls) as He.
  assert (Hfinish : forall rest,
             Observe.closes rest <= spawns rest ->
             Observe.closes
               ([Yield (YEvent (Debug (build_cmd mcp_cfg (claude_cli p) model
                                         (Py.get (_session_map p) chat_id))));
                 Spawn (build_cmd mcp_cfg (claude_cli p) model
                          (Py.get (_session_map p) chat_id)) workspace;
                 WriteStdin (content_blocks images prompt)] ++ t ++ fin ++ rest)
             <= spawns
                  ([Yield (YEvent (Debug (build_cmd mcp_cfg (claude_cli p) model
                                            (Py.get (_session_map p) chat_id))));
                    Spawn (build_cmd mcp_cfg (claude_cli p) model
                             (Py.get (_session_map p) chat_id)) workspace;
                    WriteStdin (content_blocks images prompt)] ++ t ++ fin ++ rest)).
  { intros rest Hrest. cbn [app].
    rewrite !closes_cons, !spawns_cons, !closes_app, !spawns_app.
    cbn [Observe.is_close is_spawn Nat.b2n]. lia. }
  assert (Hnil : Observe.closes [] <= spawns []) by (cbn; lia).
  destruct ex.
  - destruct (was_cancelled ls); cbn [fst].
    { specialize (Hfinish [] Hnil). now rewrite app_nil_r in Hfinish. }
    destruct (prompt_too_long ls is_retry chat_id (Py.get (_session_map p) chat_id)).
    + destruct (a_compact_ok a).
      * specialize (IH p1 prompt workspace model chat_id "" images true).
        destruct (_run_stream_impl json_loads mcp_cfg later p1 prompt
                    workspace model chat_id images true "") as [[t' p'] ex'].
        cbn [fst] in *. apply Hfinish. cbn [app].
        rewrite !closes_cons, !spawns_cons. cbn. lia.
      * specialize (IH (with_session_map p1 (delete chat_id (_session_map p1)))
                      prompt workspace model chat_id "" images true).
        destruct (_run_stream_impl json_loads mcp_cfg later
                    (with_session_map p1 (delete chat_id (_session_map p1)))
                    prompt workspace model chat_id images true "")
          as [[t' p'] ex'].
        cbn [fst] in *. apply Hfinish. cbn [app].
        rewrite !closes_cons, !spawns_cons. cbn. lia.
    + cbn [fst]. apply Hfinish. rewrite He. lia.
  - destruct (was_cancelled ls); cbn [fst].
    { specialize (Hfinish [] Hnil). now rewrite app_nil_r in Hfinish. }
    destruct (prompt_too_long ls is_retry chat_id (Py.get (_session_map p) chat_id)).
    + destruct (a_compact_ok a).
      * specialize (IH p1 prompt workspace model chat_id "" images true).
        destruct (_run_stream_impl json_loads mcp_cfg later p1 prompt
                    workspace model chat_id images true "") as [[t' p'] ex'].
        cbn [fst] in *. apply Hfinish. cbn [app].
        rewrite !closes_cons, !spawns_cons. cbn. lia.
      * specialize (IH (with_session_map p1 (delete chat_id (_session_map p1)))
                      prompt workspace model chat_id "" images true).
        destruct (_run_stream_impl json_loads mcp_cfg later
                    (with_session_map p1 (delete chat_id (_session_map p1)))
                    prompt workspace model chat_id images true "")
          as [[t' p'] ex'].
        cbn [fst] in *. apply Hfinish. cbn [app].
        rewrite !closes_cons, !spawns_cons. cbn. lia.
    + cbn [fst]. apply Hfinish. rewrite He. lia.
  - cbn [fst]. specialize (Hfinish [] Hnil). now rewrite app_nil_r in Hfinish.
  - cbn [fst app]. rewrite !closes_cons, !spawns_cons.
    cbn [Observe.is_close is_spawn Nat.b2n]. lia.
Qed.

Lemma teardown_not_live a p chat_id ls :
  ~ Observe.live p chat_id ->
  ~ Observe.live
      (snd (teardown a (if Py.truthy chat_id then register_run p chat_id else p)
              chat_id ls)) chat_id.
Proof.
  intros Hp. unfold teardown. destruct (Py.truthy chat_id); cbn [snd].
  - unfold Observe.live. cbn [deregister_run with_session_map register_run
      _inject_queues _stdin_map _process_map].
    rewrite lookup_delete_eq.
    intros [[? [=]] | [H | H]]; apply elem_of_difference in H as [_ H];
      apply H; now apply elem_of_singleton.
  - exact Hp.
Qed.

(** X27. A run that finds its chat unregistered leaves it unregistered
    whenever it ends, by returning or by raising, on any path: the queue,
    the stdin and the process of the chat are gone from the three maps.
    While the run waits on its queue, a chat with a non-empty id is
    registered, so that events and cancellation can reach it. *)
Theorem ended_run_is_deregistered (script : list attempt) :
  forall (p : provider) (prompt workspace model chat_id orig : string)
    (images : list (gmap string string)) (is_retry : bool),
    ~ Observe.live p chat_id ->
    (snd (_run_stream_impl json_loads mcp_cfg script p prompt workspace
            model chat_id images is_retry orig) <> Blocked ->
     ~ Observe.live
         (snd (fst (_run_stream_impl json_loads mcp_cfg script p prompt workspace
                      model chat_id images is_retry orig))) chat_id)
    /\ (snd (_run_stream_impl json_loads mcp_cfg script p prompt workspace
               model chat_id images is_retry orig) = Blocked ->
        Py.truthy chat_id = true ->
        Observe.live
          (snd (fst (_run_stream_impl json_loads mcp_cfg script p prompt workspace
                       model chat_id images is_retry orig))) chat_id).
Proof.
  induction script as [|a later IH]; intros p prompt workspace model chat_id
    orig images is_retry Hp; [split; [auto | discriminate]|].
  cbn [_run_stream_impl].
  destruct (a_spawn a); [|split; [auto | discriminate]].
  destruct (a_stdin_write a); [split; [auto | discriminate]|].
  rewrite registered_session_map.
  destruct (consume json_loads chat_id (a_queue a) (loop_start (_session_map p)))
    as [[t ls] ex].
  pose proof (teardown_not_live a p chat_id ls Hp) as Hp1.
  destruct (teardown a (if Py.truthy chat_id then register_run p chat_id else p)
              chat_id ls) as [fin p1].
  cbn [snd] in Hp1.
  assert (Hdone : forall t0 : list action,
             (snd (t0, p1, Returned) <> Blocked ->
              ~ Observe.live (snd (fst (t0, p1, Returned))) chat_id)
             /\ (snd (t0, p1, Returned) = Blocked ->
                 Py.truthy chat_id = true ->
                 Observe.live (snd (fst (t0, p1, Returned))) chat_id)).
  { intros t0. split; [auto | discriminate]. }
  assert (Hcancel :
            ~ Observe.live
                (if Py.truthy chat_id
                 then with_cancelled_prompts p1
                        (<[chat_id := Py.or_else orig prompt]> (_cancelled_prompts p1))
                 else p1) chat_id).
  { destruct (Py.truthy chat_id); exact Hp1. }
  destruct ex.
  - destruct (was_cancelled ls); [split; [auto | discriminate]|].
    destruct (prompt_too_long ls is_retry chat_id (Py.get (_session_map p) chat_id));
      [|apply Hdone].
    destruct (a_compact_ok a).
    + specialize (IH p1 prompt workspace model chat_id "" images true Hp1).
      destruct (_run_stream_impl json_loads mcp_cfg later p1 prompt
                  workspace model chat_id images true "") as [[t' p'] ex'].
      exact IH.
    + specialize (IH (with_session_map p1 (delete chat_id (_session_map p1)))
                    prompt workspace model chat_id "" images true Hp1).
      destruct (_run_stream_impl json_loads mcp_cfg later
                  (with_session_map p1 (delete chat_id (_session_map p1)))
                  prompt workspace model chat_id images true "")
        as [[t' p'] ex'].
      exact IH.
  - destruct (was_cancelled ls); [split; [auto | discriminate]|].
    destruct (prompt_too_long ls is_retry chat_id (Py.get (_session_map p) chat_id));
      [|apply Hdone].
    destruct (a_compact_ok a).
    + specialize (IH p1 prompt workspace model chat_id "" images true Hp1).
      destruct (_run_stream_impl json_loads mcp_cfg later p1 prompt
                  workspace model chat_id images true "") as [[t' p'] ex'].
      exact IH.
    + specialize (IH (with_session_map p1 (delete chat_id (_session_map p1)))
                    prompt workspace model chat_id "" images true Hp1).
      destruct (_run_stream_impl json_loads mcp_cfg later
                  (with_session_map p1 (delete chat_id (_session_map p1)))
                  prompt workspace model chat_id images true "")
        as [[t' p'] ex'].
      exact IH.
  - split; [auto | discriminate].
  - split; [intros H; now contradiction H|].
    intros _ Hchat. rewrite Hchat. left. cbn [snd fst with_session_map
      register_run _inject_queues]. rewrite lookup_insert_eq. eauto.
Qed.

Lemma same_elsewhere_refl chat_id p : Observe.same_elsewhere chat_id p p.
Proof. unfold Observe.same_elsewhere. intuition. Qed.

Lemma same_elsewhere_trans chat_id p1 p2 p3 :
  Observe.same_elsewhere chat_id p1 p2 ->
  Observe.same_elsewhere chat_id p2 p3 ->
  Observe.same_elsewhere chat_id p1 p3.
Proof.
  intros (Hc1 & Hf1 & H1) (Hc2 & Hf2 & H2).
  split; [congruence|]. split; [congruence|].
  intros other Hne.
  destruct (H1 other Hne) as (A1 & B1 & C1 & D1 & E1).
  destruct (H2 other Hne) as (A2 & B2 & C2 & D2 & E2).
  repeat split; try congruence; tauto.
Qed.

Lemma same_elsewhere_register chat_id p :
  Observe.same_elsewhere chat_id p (register_run p chat_id).
Proof.
  split; [reflexivity|]. split; [reflexivity|]. intros other Hne.
  cbn [register_run _session_map _inject_queues _stdin_map _process_map
       _cancelled_prompts].
  rewrite lookup_insert_ne by congruence.
  rewrite !elem_of_union, !elem_of_singleton. tauto.
Qed.

Lemma same_elsewhere_deregister chat_id p :
  Observe.same_elsewhere chat_id p (deregister_run p chat_id).
Proof.
  split; [reflexivity|]. split; [reflexivity|]. intros other Hne.
  cbn [deregister_run _session_map _inject_queues _stdin_map _process_map
       _cancelled_prompts].
  rewrite lookup_delete_ne by congruence.
  rewrite !elem_of_difference, !elem_of_singleton. tauto.
Qed.

Lemma same_elsewhere_sessions chat_id p m :
  (forall other, other <> chat_id -> m !! other = _session_map p !! other) ->
  Observe.same_elsewhere chat_id p (with_session_map p m).
Proof.
  intros Hm. split; [reflexivity|]. split; [reflexivity|]. intros other Hne.
  cbn [with_session_map _session_map _inject_queues _stdin_map _process_map
       _cancelled_prompts].
  rewrite (Hm other Hne). tauto.
Qed.

Lemma same_elsewhere_cancelled chat_id p m :
  (forall other, other <> chat_id -> m !! other = _cancelled_prompts p !! other) ->
  Observe.same_elsewhere chat_id p (with_cancelled_prompts p m).
Proof.
  intros Hm. split; [reflexivity|]. split; [reflexivity|]. intros other Hne.
  cbn [with_cancelled_prompts _session_map _inject_queues _stdin_map _process_map
       _cancelled_prompts].
  rewrite (Hm other Hne). tauto.
Qed.

Lemma loop_body_sessions chat_id item ls other :
  other <> chat_id ->
  match loop_body json_loads chat_id item ls with
  | Continue _ ls1 | Leave _ ls1 _ => sessions ls1 !! other = sessions ls !! other
  end.
Proof.
  intros Hne. destruct item as [line|line| | |ev|]; cbn [loop_body]; try reflexivity.
  - destruct (Py.truthy line); cbn [negb]; [|reflexivity].
    destruct (json_loads line) as [| |ev]; try reflexivity.
    destruct (bool_decide (ev !! "type" = Some "result"));
      [destruct (Py.truthy (Py.get ev "session_id") && Py.truthy chat_id)|];
      cbn [add_stdout set_result sessions]; try reflexivity.
    now rewrite lookup_insert_ne by congruence.
  - destruct (Py.truthy line); reflexivity.
Qed.

Lemma consume_sessions chat_id other q : forall ls t ls1 ex,
  other <> chat_id ->
  consume json_loads chat_id q ls = (t, ls1, ex) ->
  sessions ls1 !! other = sessions ls !! other.
Proof.
  induction q as [|item q IH]; intros ls t ls1 ex Hne; cbn [consume].
  - destruct (out_done ls && err_done ls); intros [= <- <- <-]; reflexivity.
  - destruct (out_done ls && err_done ls); [intros [= <- <- <-]; reflexivity|].
    pose proof (loop_body_sessions chat_id item ls other Hne) as Hbody.
    destruct (loop_body json_loads chat_id item ls) as [acts ls2|acts ls2 ex2].
    + intros H. apply after_inv in H as (t1 & H & _).
      rewrite (IH _ _ _ _ Hne H). exact Hbody.
    + intros [= <- <- <-]. exact Hbody.
Qed.

Lemma same_elsewhere_registered chat_id p :
  Observe.same_elsewhere chat_id p
    (if Py.truthy chat_id then register_run p chat_id else p).
Proof.
  destruct (Py.truthy chat_id);
    [apply same_elsewhere_register | apply same_elsewhere_refl].
Qed.

Lemma same_elsewhere_teardown a p chat_id ls :
  (forall other, other <> chat_id -> sessions ls !! other = _session_map p !! other) ->
  Observe.same_elsewhere chat_id p
    (snd (teardown a (if Py.truthy chat_id then register_run p chat_id else p)
            chat_id ls)).
Proof.
  intros Hm. unfold teardown.
  assert (Observe.same_elsewhere chat_id p
            (with_session_map
               (if Py.truthy chat_id then register_run p chat_id else p)
               (sessions ls))) as Hs.
  { eapply same_elsewhere_trans; [apply same_elsewhere_registered|].
    apply same_elsewhere_sessions. intros other Hne.
    rewrite registered_session_map. auto. }
  destruct (Py.truthy chat_id) eqn:Hchat; cbn [snd]; [|exact Hs].
  eapply same_elsewhere_trans; [exact Hs | apply same_elsewhere_deregister].
Qed.

Lemma impl_same_elsewhere (script : list attempt) :
  forall (p : provider) (prompt workspace model chat_id orig : string)
    (images : list (gmap string string)) (is_retry : bool),
    Observe.same_elsewhere chat_id p
      (snd (fst (_run_stream_impl json_loads mcp_cfg script p prompt workspace
                   model chat_id images is_retry orig))).
Proof.
  induction script as [|a later IH]; intros p prompt workspace model chat_id
    orig images is_retry; [apply same_elsewhere_refl|].
  cbn [_run_stream_impl].
  destruct (a_spawn a); [|apply same_elsewhere_refl].
  destruct (a_stdin_write a); [apply same_elsewhere_refl|].
  rewrite registered_session_map.
  destruct (consume json_loads chat_id (a_queue a) (loop_start (_session_map p)))
    as [[t ls] ex] eqn:Hloop.
  assert (Hm : forall other, other <> chat_id ->
                 sessions ls !! other = _session_map p !! other).
  { intros other Hne. exact (consume_sessions _ _ _ _ _ _ _ Hne Hloop). }
  pose proof (same_elsewhere_teardown a p chat_id ls Hm) as Hp1.
  destruct (teardown a (if Py.truthy chat_id then register_run p chat_id else p)
              chat_id ls) as [fin p1].
  cbn [snd] in Hp1.
  assert (Hcancel :
            Observe.same_elsewhere chat_id p
              (if Py.truthy chat_id
               then with_cancelled_prompts p1
                      (<[chat_id := Py.or_else orig prompt]> (_cancelled_prompts p1))
               else p1)).
  { destruct (Py.truthy chat_id); [|exact Hp1].
    eapply same_elsewhere_trans; [exact Hp1|].
    apply same_elsewhere_cancelled. intros other Hne.
    now rewrite lookup_insert_ne by congruence. }
  assert (Hreset :
            Observe.same_elsewhere chat_id p
              (with_session_map p1 (delete chat_id (_session_map p1)))).
  { eapply same_elsewhere_trans; [exact Hp1|].
    apply same_elsewhere_sessions. intros other Hne.
    now rewrite lookup_delete_ne by congruence. }
  destruct ex.
  - destruct (was_cancelled ls); [exact Hcancel|].
    destruct (prompt_too_long ls is_retry chat_id (Py.get (_session_map p) chat_id));
      [|exact Hp1].
    destruct (a_compact_ok a).
    + specialize (IH p1 prompt workspace model chat_id "" images true).
      destruct (_run_stream_impl json_loads mcp_cfg later p1 prompt
                  workspace model chat_id images true "") as [[t' p'] ex'].
      exact (same_elsewhere_trans _ _ _ _ Hp1 IH).
    + specialize (IH (with_session_map p1 (delete chat_id (_session_map p1)))
                    prompt workspace model chat_id "" images true).
      destruct (_run_stream_impl json_loads mcp_cfg later
                  (with_session_map p1 (delete chat_id (_session_map p1)))
                  prompt workspace model chat_id images true "")
        as [[t' p'] ex'].
      exact (same_elsewhere_trans _ _ _ _ Hreset IH).
  - destruct (was_cancelled ls); [exact Hcancel|].
    destruct (prompt_too_long ls is_retry chat_id (Py.get (_session_map p) chat_id));
      [|exact Hp1].
    destruct (a_compact_ok a).
    + specialize (IH p1 prompt workspace model chat_id "" images true).
      destruct (_run_stream_impl json_loads mcp_cfg later p1 prompt
                  workspace model chat_id images true "") as [[t' p'] ex'].
      exact (same_elsewhere_trans _ _ _ _ Hp1 IH).
    + specialize (IH (with_session_map p1 (delete chat_id (_session_map p1)))
                    prompt workspace model chat_id "" images true).
      destruct (_run_stream_impl json_loads mcp_cfg later
                  (with_session_map p1 (delete chat_id (_session_map p1)))
                  prompt workspace model chat_id images true "")
        as [[t' p'] ex'].
      exact (same_elsewhere_trans _ _ _ _ Hreset IH).
  - exact Hp1.
  - cbn [fst snd]. eapply same_elsewhere_trans; [apply same_elsewhere_registered|].
    apply same_elsewhere_sessions. intros other Hne.
    rewrite registered_session_map. auto.
Qed.

(** X28. A run changes the provider only at its own chat: the CLI path
    and the code folders are as before, and every other chat keeps its
    session, its queue, its registered stdin and process and its
    remembered cancelled prompt, whatever the outside world plays and
    however the run ends or blocks. *)
Theorem run_leaves_other_chats_alone (script : list attempt) (p : provider)
    (prompt workspace model chat_id : string)
    (images : list (gmap string string)) :
  Observe.same_elsewhere chat_id p
    (snd (fst (run_stream json_loads mcp_cfg script p prompt workspace model
                 chat_id images))).
Proof.
  unfold run_stream.
  eapply same_elsewhere_trans; [|apply impl_same_elsewhere].
  destruct (Py.truthy chat_id); [|apply same_elsewhere_refl].
  apply same_elsewhere_cancelled. intros other Hne.
  now rewrite lookup_delete_ne by congruence.
Qed.





End RunMoreFacts.


Lemma injected_event_arrives_in_order_witness :
  let ev := Provider.PermissionDecision "req-1" true in
  let q := [Provider.QOut "event:assistant"; Provider.QErr "warning"] in
  snd (Provider.inject_event Observe.sample_streaming_provider "chat-1" ev) = true
  /\ Provider._inject_queues
       (fst (Provider.inject_event Observe.sample_streaming_provider "chat-1" ev))
     !! "chat-1"
     = Some (q ++ [Provider.QInject ev])
  /\ fst (fst (Provider.consume Provider.sample_json_loads "chat-1"
                 ((q ++ [Provider.QInject ev])
                    ++ [Provider.QOutEof; Provider.QErrEof])
                 (Provider.loop_start ∅)))
     = [Provider.Yield (Provider.YLine "event:assistant");
        Provider.Yield (Provider.YEvent (Provider.Error (Provider.ErrStderr "warning")));
        Provider.Yield (Provider.YInjected ev)]
  /\ Provider.inject_event Provider.sample_provider "chat-1" ev
     = (Provider.sample_provider, false).
Proof.
  intros ev q.
  assert (Hq : Provider._inject_queues Observe.sample_streaming_provider !! "chat-1"
               = Some q) by (vm_compute; reflexivity).
  assert (Hc : Provider.consume Provider.sample_json_loads "chat-1" q
                 (Provider.loop_start ∅)
               = ([Provider.Yield (Provider.YLine "event:assistant");
                   Provider.Yield
                     (Provider.YEvent (Provider.Error (Provider.ErrStderr "warning")))],
                  Provider.add_stderr
                    (Provider.add_stdout (Provider.loop_start ∅) "event:assistant")
                    "warning",
                  Provider.Starved)) by (vm_compute; reflexivity).
  destruct (proj2 (injected_event_arrives_in_order Provider.sample_json_loads
                     Observe.sample_streaming_provider "chat-1" ev)
              q _ _ _ [Provider.QOutEof; Provider.QErrEof] Hq Hc)
    as (Hsent & Hqueue & Horder).
  split; [exact Hsent|]. split; [exact Hqueue|]. split.
  - rewrite Horder. vm_compute. reflexivity.
  - apply (proj1 (injected_event_arrives_in_order Provider.sample_json_loads
                    Provider.sample_provider "chat-1" ev)).
    reflexivity.
Defined.

Lemma cancel_reaches_live_run_witness :
  Provider.consume Provider.sample_json_loads "chat-1"
    (([] ++ [Provider.QCancel]) ++ [Provider.QOut "event:assistant"])
    (Provider.loop_start ∅)
  = ([] ++ [Provider.Yield (Provider.YEvent Provider.Cancelled)],
     Provider.set_cancelled (Provider.loop_start ∅), Provider.CancelSeen).
Proof.
  refine (proj2 (proj2 (proj2 (cancel_reaches_live_run Provider.sample_json_loads
                                 Observe.sample_live_provider "chat-1" true)
                          [] [] (Provider.loop_start ∅) (Provider.loop_start ∅)
                          [Provider.QOut "event:assistant"] _ eq_refl _ eq_refl))).
  - apply elem_of_union_l, elem_of_singleton. reflexivity.
  - vm_compute. reflexivity.
Defined.

Lemma ended_run_is_deregistered_witness :
  ~ Observe.live
      (snd (fst (Provider._run_stream_impl Provider.sample_json_loads "{}"
                   [Provider.too_long_attempt;
                    Provider.sample_attempt
                      [Provider.QOut "result:sess-1"; Provider.QOutEof;
                       Provider.QErrEof]]
                   Provider.sample_session_provider "hello" "/work/app" ""
                   "chat-1" [] false "hello")))
      "chat-1".
Proof.
  apply (proj1 (ended_run_is_deregistered Provider.sample_json_loads "{}"
                  [Provider.too_long_attempt;
                   Provider.sample_attempt
                     [Provider.QOut "result:sess-1"; Provider.QOutEof;
                      Provider.QErrEof]]
                  Provider.sample_session_provider "hello" "/work/app" ""
                  "chat-1" "hello" [] false
                  ltac:(intros [[? H] | [H | H]];
                        [vm_compute in H; discriminate
                        | exact (not_elem_of_empty _ H)
                        | exact (not_elem_of_empty _ H)]))).
  vm_compute. discriminate.
Defined.

